(** * mcp-sync: a shallow embedding of the sync core

    The development follows the Python sources module by module:
    - [PyStr] and [PyDict]: the fragments of [str] and [dict] the code relies on;
    - [CodexConfig] and [TomlConfigManager] ([toml_support.py]);
    - [BackupManager] ([backup.py]);
    - [FuzzyClientMatcher] ([fuzzy_match.py]);
    - [DirectSyncEngine] ([direct_sync.py]).

    Files are kept as what their bytes parse to: a JSON object, another JSON
    value, a TOML document, text that is neither, or bytes that are no text.
    Directories are known by the files below them.  An exception that leaves
    a function is an outcome of its own; one that the function catches shows
    in what it returns.  Input and output that the Python code leaves to the
    operating system (clock, platform name, home directory) are explicit
    arguments. *)

From Stdlib Require Import ZArith Ascii String.
From stdpp Require Import gmap strings list sorting.

Local Open Scope string_scope.
Local Open Scope list_scope.
Local Open Scope Z_scope.

(** ** Strings *)

Module PyStr.

(** [str.lower] on the ASCII range; other bytes are left alone. *)
Definition lower_ascii (c : ascii) : ascii :=
  let n := nat_of_ascii c in
  if ((65 <=? n) && (n <=? 90))%nat then ascii_of_nat (n + 32) else c.

Fixpoint lower (s : string) : string :=
  match s with
  | EmptyString => EmptyString
  | String c s' => String (lower_ascii c) (lower s')
  end.

(** The ASCII characters for which [str.isspace] holds. *)
Definition isspace (c : ascii) : bool :=
  let n := nat_of_ascii c in
  (((9 <=? n) && (n <=? 13)) || ((28 <=? n) && (n <=? 32)))%nat.

Fixpoint lstrip (s : string) : string :=
  match s with
  | EmptyString => EmptyString
  | String c s' => if isspace c then lstrip s' else s
  end.

(** [rstrip]: a character is dropped when it is white space and everything
    after it has been dropped as well. *)
Fixpoint rstrip (s : string) : string :=
  match s with
  | EmptyString => EmptyString
  | String c s' =>
      match rstrip s' with
      | EmptyString => if isspace c then EmptyString else String c EmptyString
      | r => String c r
      end
  end.

Definition strip (s : string) : string := rstrip (lstrip s).

(** [s.replace(" ", by_)] *)
Fixpoint replace_space (by_ : string) (s : string) : string :=
  match s with
  | EmptyString => EmptyString
  | String c s' =>
      if decide (c = " "%char) then by_ +:+ replace_space by_ s'
      else String c (replace_space by_ s')
  end.

(** [s.rfind(".")]: the index of the last dot, if any. *)
Fixpoint rfind_dot (s : string) : option nat :=
  match s with
  | EmptyString => None
  | String c s' =>
      match rfind_dot s' with
      | Some i => Some (S i)
      | None => if decide (c = "."%char) then Some 0%nat else None
      end
  end.

(** [s[n:]] *)
Fixpoint drop (n : nat) (s : string) : string :=
  match n, s with
  | O, _ => s
  | S n', EmptyString => EmptyString
  | S n', String _ s' => drop n' s'
  end.

(** [x in (a, b, ...)] and [x in some_list] for strings. *)
Definition mem (x : string) (l : list string) : bool := bool_decide (x ∈ l).

(** [sorted(names)]: strings compare by code point. *)
Definition le (a b : string) : Prop := String.leb a b = true.

#[global] Instance le_dec : RelDecision le.
Proof. intros a b. unfold le. apply _. Defined.

Definition sorted (l : list string) : list string := merge_sort le l.

(** [sorted(names, reverse=True)] *)
Definition sorted_reverse (l : list string) : list string :=
  merge_sort (flip le) l.

(** [s.split(sep)] for a one-character separator. *)
Fixpoint split (sep : ascii) (s : string) : list string :=
  match s with
  | EmptyString => [EmptyString]
  | String c s' =>
      if decide (c = sep) then EmptyString :: split sep s'
      else match split sep s' with
           | h :: t => String c h :: t
           | [] => [String c EmptyString]
           end
  end.

(** [s.startswith("/")] *)
Definition starts_with_slash (s : string) : bool :=
  match s with
  | String c _ => bool_decide (c = "/"%char)
  | EmptyString => false
  end.

End PyStr.

(** ** Dictionaries

    A Python [dict] keeps its keys in insertion order; assigning to a key that
    is present replaces the value in place, assigning to a new key appends. *)

Module PyDict.

Definition dict (V : Type) : Type := list (string * V).

Section ops.
Context {V : Type}.

Fixpoint get (d : dict V) (k : string) : option V :=
  match d with
  | [] => None
  | (k', v) :: d' => if decide (k' = k) then Some v else get d' k
  end.

Definition contains (d : dict V) (k : string) : bool :=
  match get d k with Some _ => true | None => false end.

Fixpoint set (d : dict V) (k : string) (v : V) : dict V :=
  match d with
  | [] => [(k, v)]
  | (k', v') :: d' =>
      if decide (k' = k) then (k', v) :: d' else (k', v') :: set d' k v
  end.

Definition del (d : dict V) (k : string) : dict V :=
  List.filter (fun kv => negb (bool_decide (kv.1 = k))) d.

Definition keys (d : dict V) : list string := map fst d.

Definition items (d : dict V) : list (string * V) := d.

(** [d.update(src)] *)
Definition update (d src : dict V) : dict V :=
  fold_left (fun acc kv => set acc kv.1 kv.2) (items src) d.

(** [a == b] for dictionaries, given the comparison of values: the same
    number of keys, and every key of [a] is bound in [b] to an equal value.
    The order of the keys plays no part. *)
Definition eqb (veq : V -> V -> bool) (a b : dict V) : bool :=
  (List.length a =? List.length b)%nat &&
  forallb (fun kv => match get b kv.1 with
                     | Some v' => veq kv.2 v'
                     | None => false
                     end) a.

(** [{k: f(v) for k, v in d.items()}] *)
Definition map_values {W : Type} (f : V -> W) (d : dict V) : dict W :=
  map (fun kv => (kv.1, f kv.2)) d.

(** No key is bound twice: what every dictionary built by Python satisfies. *)
Definition wf (d : dict V) : Prop := NoDup (keys d).

End ops.

End PyDict.

Abbreviation dict := PyDict.dict.

(** [a or b] on optional integers: [None] and [0] are falsy. *)
Definition py_or (a b : option Z) : option Z :=
  match a with
  | Some z => if decide (z = 0) then b else a
  | None => b
  end.

(** ** toml_support.py *)

(** A server entry, canonical or as a table of the TOML file: a dictionary
    read through the keys below.  [None] stands for an absent key. *)
Record server : Type := Server {
  command : option string;
  args : option (list string);
  env : option (dict string);
  timeout_ms : option Z;
  startup_timeout_ms : option Z;
  server_type : option string
}.

(** What sits under a name in the [mcp_servers] table: a table, or a value
    that is no dictionary. *)
Inductive toml_entry : Type :=
| TTable (s : server)
| TValue (raw : string).

(** A top-level item of a TOML document: the servers table, written as a
    table ([[mcp_servers.name]] sections) or as an inline table
    ([mcp_servers = { ... }]), or anything else, kept as it is. *)
Inductive toml_item : Type :=
| TServers (entries : dict toml_entry)
| TInline (entries : dict toml_entry)
| TItem (raw : string).

Abbreviation toml_doc := (dict toml_item).

(** A JSON document (an object): the value under ["mcpServers"], when the key
    is present, and the other top-level keys.  The value is an object of
    server entries; an object with another value under the key is
    [JsonOdd] below. *)
Record json_doc : Type := JsonDoc {
  mcpServers : option (dict server);
  other_keys : dict string
}.

(** What a file holds, as its bytes parse.  The encoding of both readers is
    taken to be UTF-8; a text that parses under both formats is left out. *)
Inductive content : Type :=
| JsonText (j : json_doc)
    (* a JSON object *)
| JsonOdd (truthy : bool) (raw : string)
    (* a JSON object whose "mcpServers" is no object: a list, a string, a
       number, true, false or null; [truthy] is what [bool] makes of it *)
| JsonValue (raw : string)
    (* JSON that is no object *)
| TomlText (t : toml_doc)
| Garbage (raw : string)
    (* text that parses neither as JSON nor as TOML *)
| Undecodable (raw : string).
    (* bytes that are no text *)

(** The exceptions that leave the code, and a call that may raise one. *)
Inductive exn : Type :=
| AttributeError
| UnicodeDecodeError.

Inductive outcome (A : Type) : Type :=
| Returns (a : A)
| Raises (e : exn).

Arguments Returns {A} a.
Arguments Raises {A} e.

(** What [json.load] gives for a file: an object with its servers, an object
    with something else under ["mcpServers"], or a value that is no
    object. *)
Inductive json_value : Type :=
| JObject (j : json_doc)
| JOddServers (truthy : bool)
| JOther.

(** A [pathlib.Path], by its parts; an absolute path starts with the empty
    part, so that [path_str] joins the parts with ["/"]. *)
Abbreviation Path := (list string).

Definition path_str (p : Path) : string := String.concat "/" p.

(** [p.name] *)
Definition path_name (p : Path) : string := List.last p "".

(** [p.suffix]: the name from its last dot on, unless that dot starts or ends
    the name. *)
Definition path_suffix (p : Path) : string :=
  let name := path_name p in
  match PyStr.rfind_dot name with
  | Some i =>
      if ((0 <? i) && (i <? String.length name - 1))%nat
      then PyStr.drop i name else ""
  | None => ""
  end.

(** The regular files of the file system.  A directory is known by the
    files below it; a directory with no file below it is not kept.  A
    relative path is taken from the working directory, above which nothing is
    modelled. *)
Abbreviation files := (gmap Path content).

(** [q] lies below [p]. *)
Definition below (p q : Path) : bool :=
  bool_decide (p `prefix_of` q) && negb (bool_decide (p = q)).

(** [p.is_dir()] *)
Definition is_dir (fs : files) (p : Path) : bool :=
  bool_decide (p = [] \/ p = [""]) ||
  existsb (fun kv => below p kv.1) (map_to_list fs).

(** [p.exists()] *)
Definition path_exists (fs : files) (p : Path) : bool :=
  bool_decide (is_Some (fs !! p)) || is_dir fs p.

(** A regular file lies on the way to [p]. *)
Definition under_file (fs : files) (p : Path) : bool :=
  existsb (fun kv => below kv.1 p) (map_to_list fs).

(** [p.parent.mkdir(parents=True, exist_ok=True)] followed by opening [p]
    for writing raises no [OSError]: no regular file is on the way to [p],
    and [p] is no directory.  Permissions are not part of the model. *)
Definition can_write (fs : files) (p : Path) : bool :=
  negb (under_file fs p) && negb (is_dir fs p).

(** [{"mcpServers": servers}] *)
Definition servers_doc (servers : dict server) : json_doc :=
  {| mcpServers := Some servers; other_keys := [] |}.

(** [config.get("mcpServers", {})] *)
Definition get_mcpServers (config : json_doc) : dict server :=
  default [] (mcpServers config).

(** [Path(s)] for a POSIX path string: the parts between the slashes, empty
    parts and ["."] dropped, an absolute path starting with the empty part.
    A part [".."] is kept as it stands, as pathlib keeps it. *)
Definition path_parts (s : string) : Path :=
  let parts :=
    List.filter (fun p => negb (PyStr.mem p [""; "."])) (PyStr.split "/" s) in
  if PyStr.starts_with_slash s then "" :: parts else parts.

(** [root / s]: an absolute [s] replaces [root]. *)
Definition path_join (root : Path) (s : string) : Path :=
  if PyStr.starts_with_slash s then path_parts s else root ++ path_parts s.

Module CodexConfig.

(** The environment variables dropped on reading. *)
Definition SYSTEM_VARS : list string :=
  ["SystemRoot"; "PROGRAMFILES"; "SystemDrive"].

Definition _parse_codex_server (server_config : server) : server :=
  let command_ := default "" (command server_config) in
  let args_ := default [] (args server_config) in
  let '(result_command, result_args) :=
    if negb (bool_decide (command_ = "")) &&
       PyStr.mem (PyStr.lower command_) ["cmd"; "cmd.exe"]
    then
      if (2 <=? List.length args_)%nat then
        let first_arg := PyStr.lower (List.hd "" args_) in
        if PyStr.mem first_arg ["/c"; "/k"]
        then (List.nth 1 args_ "", List.skipn 2 args_)
        else (List.hd "" args_, List.skipn 1 args_)
      else ("", args_)
    else (command_, args_) in
  let env_ := default [] (env server_config) in
  let result_env :=
    List.filter (fun kv => negb (PyStr.mem kv.1 SYSTEM_VARS)) env_ in
  {| command := Some result_command;
     args := Some result_args;
     env := Some result_env;
     timeout_ms := startup_timeout_ms server_config;
     startup_timeout_ms := None;
     server_type :=
       if PyStr.mem "--stdio" result_args then Some "stdio" else None |}.

(** The loop [for k, v in env.items(): if k not in windows_env: ...]. *)
Definition add_user_env (windows_env env_ : dict string) : dict string :=
  fold_left
    (fun acc kv => if PyDict.contains acc kv.1 then acc
                   else PyDict.set acc kv.1 kv.2)
    (PyDict.items env_) windows_env.

(** [is_windows] is [platform.system().lower() == "windows"]. *)
Definition _format_codex_server (is_windows : bool) (server_config : server)
  : server :=
  let command_ := default "npx" (command server_config) in
  let args_ := default [] (args server_config) in
  let env_ := default [] (env server_config) in
  let needs_y :=
    bool_decide (command_ = "npx") && negb (PyStr.mem "-y" args_) in
  let timeout :=
    py_or (timeout_ms server_config) (startup_timeout_ms server_config) in
  let startup := Some (default 60000 timeout) in
  if is_windows then
    let codex_args :=
      ["/c"; command_] ++ (if needs_y then ["-y"] else []) ++ args_ in
    let windows_env :=
      [("SystemRoot", default "C:\Windows" (PyDict.get env_ "SystemRoot"));
       ("PROGRAMFILES",
        default "C:\Program Files" (PyDict.get env_ "PROGRAMFILES"))] in
    {| command := Some "cmd";
       args := Some codex_args;
       env := Some (add_user_env windows_env env_);
       timeout_ms := None;
       startup_timeout_ms := startup;
       server_type := None |}
  else
    {| command := Some command_;
       args := Some (if needs_y then "-y" :: args_ else args_);
       env := Some env_;
       timeout_ms := None;
       startup_timeout_ms := startup;
       server_type := None |}.

(** The loop of [read_config] over [mcp_servers.items()]. *)
Definition read_servers (mcp_servers : dict toml_entry) : dict server :=
  fold_left
    (fun servers kv =>
       match kv.2 with
       | TTable server_config =>
           PyDict.set servers kv.1 (_parse_codex_server server_config)
       | TValue _ => servers
       end)
    (PyDict.items mcp_servers) [].

(** A file that is missing, is a directory, does not decode, does not parse
    as TOML, or whose [mcp_servers] is neither a table nor an inline table
    reads as no servers (the [except] branch). *)
Definition read_config (fs : files) (path : Path) : json_doc :=
  match fs !! path with
  | Some (TomlText doc) =>
      match PyDict.get doc "mcp_servers" with
      | Some (TServers mcp_servers) => servers_doc (read_servers mcp_servers)
      | Some (TInline mcp_servers) => servers_doc (read_servers mcp_servers)
      | Some (TItem _) => servers_doc []
      | None => servers_doc []
      end
  | _ => servers_doc []
  end.

(** The loop "update or add servers". *)
Definition put_servers (is_windows : bool)
    (mcp_servers : dict toml_entry) (new_servers : dict server)
  : dict toml_entry :=
  fold_left
    (fun acc kv =>
       PyDict.set acc kv.1 (TTable (_format_codex_server is_windows kv.2)))
    (PyDict.items new_servers) mcp_servers.

(** The loop "remove servers that are no longer in config". *)
Definition drop_servers
    (mcp_servers : dict toml_entry) (new_servers : dict server)
  : dict toml_entry :=
  let existing_servers : gset string := list_to_set (PyDict.keys mcp_servers) in
  let new_server_ids : gset string := list_to_set (PyDict.keys new_servers) in
  foldr (fun server_id acc => PyDict.del acc server_id) mcp_servers
        (elements (existing_servers ∖ new_server_ids)).

(** The document [write_config] starts from.  [None] when [read_text]
    raises, outside the inner [try]: the path is a directory, or the bytes of
    the file do not decode.  A text that does not parse gives the empty
    document. *)
Definition load_doc (fs : files) (path : Path) (preserve_existing : bool)
  : option toml_doc :=
  if preserve_existing && path_exists fs path then
    match fs !! path with
    | Some (TomlText doc) => Some doc
    | Some (Undecodable _) => None
    | Some _ => Some []
    | None => None
    end
  else Some [].

(** [path.parent.mkdir(...)] and [path.write_text(tomlkit.dumps(doc))] *)
Definition write_doc (fs : files) (path : Path) (doc : toml_doc)
  : files * bool :=
  if can_write fs path then (<[path := TomlText doc]> fs, true)
  else (fs, false).

(** Returns the new file system and the success flag.  Whatever raises is
    turned into [False] by the [except], with nothing written: reading the
    existing file, assigning into an [mcp_servers] that is no table,
    assigning a table into an inline table (which tomlkit refuses), creating
    the parent directories and writing the file. *)
Definition write_config (is_windows : bool) (fs : files) (path : Path)
    (config : json_doc) (preserve_existing : bool) : files * bool :=
  match load_doc fs path preserve_existing with
  | None => (fs, false)
  | Some doc =>
      let doc :=
        if PyDict.contains doc "mcp_servers" then doc
        else PyDict.set doc "mcp_servers" (TServers []) in
      let new_servers := get_mcpServers config in
      match PyDict.get doc "mcp_servers" with
      | Some (TServers mcp_servers) =>
          let mcp_servers := put_servers is_windows mcp_servers new_servers in
          let mcp_servers := drop_servers mcp_servers new_servers in
          write_doc fs path
            (PyDict.set doc "mcp_servers" (TServers mcp_servers))
      | Some (TInline mcp_servers) =>
          match new_servers with
          | [] =>
              let mcp_servers := drop_servers mcp_servers new_servers in
              write_doc fs path
                (PyDict.set doc "mcp_servers" (TInline mcp_servers))
          | _ :: _ => (fs, false)
          end
      | _ => (fs, false)
      end
  end.

End CodexConfig.

Module TomlConfigManager.

(** The JSON branch returns what [json.load] gives, whatever it is.  It
    catches [OSError] (the path is a directory) and [json.JSONDecodeError]
    (the text is no JSON); bytes that do not decode raise
    [UnicodeDecodeError], which it does not catch. *)
Definition read_config (fs : files) (path : Path) (config_format : string)
  : outcome json_value :=
  if decide (config_format = "toml")
  then Returns (JObject (CodexConfig.read_config fs path))
  else
    match fs !! path with
    | None => Returns (JObject (servers_doc []))
    | Some (JsonText j) => Returns (JObject j)
    | Some (JsonOdd truthy _) => Returns (JOddServers truthy)
    | Some (JsonValue _) => Returns JOther
    | Some (Undecodable _) => Raises UnicodeDecodeError
    | Some (TomlText _) => Returns (JObject (servers_doc []))
    | Some (Garbage _) => Returns (JObject (servers_doc []))
    end.

(** The JSON branch fails, with nothing written, on the [OSError] of
    creating the parent directories or of opening the file.  The
    [TypeError] of a value that JSON cannot hold does not arise for a
    [json_doc]. *)
Definition write_config (is_windows : bool) (fs : files) (path : Path)
    (config : json_doc) (config_format : string) (preserve_existing : bool)
  : files * bool :=
  if decide (config_format = "toml")
  then CodexConfig.write_config is_windows fs path config preserve_existing
  else if can_write fs path then (<[path := JsonText config]> fs, true)
  else (fs, false).

End TomlConfigManager.

(** [a == b] for server entries: key by key, the environments compared as
    dictionaries. *)
Definition server_eqb (a b : server) : bool :=
  bool_decide (command a = command b) &&
  bool_decide (args a = args b) &&
  match env a, env b with
  | Some ea, Some eb => PyDict.eqb (fun x y => bool_decide (x = y)) ea eb
  | None, None => true
  | _, _ => false
  end &&
  bool_decide (timeout_ms a = timeout_ms b) &&
  bool_decide (startup_timeout_ms a = startup_timeout_ms b) &&
  bool_decide (server_type a = server_type b).

(** [get_config_format(client_id, client_config)]; the client configuration
    is read through its key ["config_format"] only. *)
Definition get_config_format (client_id : string)
    (client_config : dict string) : string :=
  let config_format :=
    PyStr.lower (default "" (PyDict.get client_config "config_format")) in
  if negb (bool_decide (config_format = "")) then config_format
  else if PyStr.mem client_id ["codex"] then "toml"
  else "json".

(** ** backup.py *)

Module BackupManager.

(** An entry of the backup root directory: a regular file, or a directory,
    kept by the regular files found under it ([rglob]), each under its path
    relative to the directory. *)
Inductive entry : Type :=
| File (c : content)
| Dir (found : dict content).

(** The backup root directory, by entry name; [None] when it does not
    exist. *)
Abbreviation store := (option (gmap string entry)).

(** An element of [list_backups()]; its ["path"] is the root joined with
    the time stamp. *)
Record backup : Type := Backup {
  timestamp : string;
  backup_files : list string
}.

(** [file_path.relative_to(base)]; [None] for the [ValueError]. *)
Fixpoint relative_to (file_path base : Path) : option Path :=
  match base, file_path with
  | [], _ => Some file_path
  | b :: base', p :: file_path' =>
      if decide (b = p) then relative_to file_path' base' else None
  | _ :: _, [] => None
  end.

(** The regular file of a snapshot at a relative path. *)
Definition snap_file (found : dict content) (parts : Path) : option content :=
  snd <$> List.find (fun kv => bool_decide (path_parts kv.1 = parts)) found.

(** The relative path is a directory of the snapshot: a file lies below
    it.  A directory of a snapshot with no file below it is not kept. *)
Definition snap_dir (found : dict content) (parts : Path) : bool :=
  existsb (fun kv => below parts (path_parts kv.1)) found.

(** A regular file of the snapshot lies at [parts] or on the way to it, so
    that [mkdir] cannot make the directory [parts]. *)
Definition snap_blocked (found : dict content) (parts : Path) : bool :=
  existsb (fun kv => bool_decide (path_parts kv.1 `prefix_of` parts)) found.

(** [shutil.copy2(file_path, dst)] for a regular file with content [c] and a
    destination [parts] inside the snapshot whose parent directory exists:
    a destination that is a directory takes the file under the name of the
    source; [None] when that raises. *)
Definition copy_into (found : dict content) (parts : Path) (name : string)
    (c : content) : option (dict content) :=
  if snap_dir found parts then
    if snap_dir found (parts ++ [name]) then None
    else Some (PyDict.set found (path_str (parts ++ [name])) c)
  else Some (PyDict.set found (path_str parts) c).

(** [now] is [datetime.now().strftime("%Y%m%d_%H%M%S_%f")]: a name.  Every
    exception is turned into [None] by the [except]; what [mkdir] has made
    by then stays.  [mkdir] raises when the time stamp directory or a
    directory on the way to the copy is a regular file; [copy2] raises when
    [file_path] is a directory.  A file whose path is the home directory
    itself goes to the time stamp path: as a regular file of that name, or
    into the directory of that name. *)
Definition backup_file (backup_root home : Path) (now : string)
    (disk : files) (st : store) (file_path : Path) : store * option Path :=
  if negb (path_exists disk file_path) then (st, None)
  else
    let timestamp_ := now in
    let relative_path :=
      match relative_to file_path home with
      | Some r => r
      | None => [path_name file_path]
      end in
    let backup_path := backup_root ++ [timestamp_] ++ relative_path in
    let root := default ∅ st in
    match relative_path with
    | [] =>
        match disk !! file_path, root !! timestamp_ with
        | None, _ => (Some root, None)
        | Some c, Some (Dir found) =>
            if snap_dir found [path_name file_path] then (Some root, None)
            else
              (Some (<[timestamp_ :=
                         Dir (PyDict.set found (path_name file_path) c)]>
                       root),
               Some backup_path)
        | Some c, _ => (Some (<[timestamp_ := File c]> root), Some backup_path)
        end
    | _ :: _ =>
        match root !! timestamp_ with
        | Some (File _) => (st, None)
        | made =>
            let found := match made with Some (Dir f) => f | _ => [] end in
            if snap_blocked found (removelast relative_path) then (st, None)
            else
              match disk !! file_path with
              | None => (Some (<[timestamp_ := Dir found]> root), None)
              | Some c =>
                  match copy_into found relative_path
                                  (path_name file_path) c with
                  | Some found' =>
                      (Some (<[timestamp_ := Dir found']> root),
                       Some backup_path)
                  | None => (Some (<[timestamp_ := Dir found]> root), None)
                  end
              end
        end
    end.

(** The body of the loop of [list_backups] for one entry name. *)
Definition list_entry (root : gmap string entry) (name : string)
  : option backup :=
  match root !! name with
  | Some (Dir found) =>
      match PyDict.keys found with
      | [] => None
      | files_ => Some {| timestamp := name; backup_files := files_ |}
      end
  | _ => None
  end.

Definition list_backups (st : store) : list backup :=
  match st with
  | None => []
  | Some root =>
      omap (list_entry root)
           (PyStr.sorted_reverse (map fst (map_to_list root)))
  end.

(** [l[k:]] for an integer [k]; a negative [k] counts from the end. *)
Definition slice_from {A : Type} (k : Z) (l : list A) : list A :=
  if 0 <=? k then List.skipn (Z.to_nat k) l
  else List.skipn (List.length l - Z.to_nat (- k)) l.

(** [shutil.rmtree(backup["path"])] *)
Definition rmtree (st : store) (b : backup) : store :=
  match st with
  | Some root => Some (delete (timestamp b) root)
  | None => None
  end.

(** Returns the store after the removals and the number of removals. *)
Definition cleanup_old_backups (st : store) (keep_count : Z) : store * Z :=
  let backups := list_backups st in
  if Z.of_nat (List.length backups) <=? keep_count then (st, 0)
  else
    fold_left (fun acc b => (rmtree acc.1 b, acc.2 + 1))
              (slice_from keep_count backups) (st, 0).

(** *** The file system as [restore_backup] reaches it

    [restore_backup] joins the backup root, the identifier and the file path
    it is given and leaves the result to the file system: the identifier may
    be empty, may have several parts and may leave the backup root.  Under
    the backup root the file system is the store, elsewhere it is [disk]. *)

(** The regular file at a path. *)
Definition fs_file (backup_root : Path) (disk : files) (st : store)
    (p : Path) : option content :=
  match relative_to p backup_root with
  | Some [] => None
  | Some (name :: inner) =>
      match default ∅ st !! name, inner with
      | Some (File c), [] => Some c
      | Some (Dir found), _ :: _ => snap_file found inner
      | _, _ => None
      end
  | None => disk !! p
  end.

(** The path is a directory. *)
Definition fs_is_dir (backup_root : Path) (disk : files) (st : store)
    (p : Path) : bool :=
  match relative_to p backup_root with
  | Some [] => bool_decide (is_Some st)
  | Some (name :: inner) =>
      match default ∅ st !! name, inner with
      | Some (Dir _), [] => true
      | Some (Dir found), _ :: _ => snap_dir found inner
      | _, _ => false
      end
  | None => is_dir disk p || (bool_decide (is_Some st) && below p backup_root)
  end.

(** The files of a list that lie below [base], each with its path from
    [base]. *)
Definition files_below (base : Path) (all : list (Path * content))
  : list (Path * content) :=
  omap (fun pc => match relative_to pc.1 base with
                  | Some (part :: rest) => Some (part :: rest, pc.2)
                  | _ => None
                  end) all.

(** The regular files of a snapshot and of the whole backup root, by their
    paths from it. *)
Definition snapshot_files (found : dict content) : list (Path * content) :=
  map (fun kv => (path_parts kv.1, kv.2)) found.

Definition store_files (st : store) : list (Path * content) :=
  flat_map (fun ne => match ne.2 with
                      | File c => [([ne.1], c)]
                      | Dir found =>
                          map (fun pc => (ne.1 :: pc.1, pc.2))
                              (snapshot_files found)
                      end)
           (map_to_list (default ∅ st)).

(** [p.rglob("*")] cut down to the regular files, each with its path from
    [p]. *)
Definition fs_files_under (backup_root : Path) (disk : files) (st : store)
    (p : Path) : list (Path * content) :=
  match relative_to p backup_root with
  | Some [] => store_files st
  | Some (name :: inner) =>
      match default ∅ st !! name with
      | Some (Dir found) => files_below inner (snapshot_files found)
      | _ => []
      end
  | None =>
      files_below p (map_to_list disk) ++
      files_below p (map (fun pc => (backup_root ++ pc.1, pc.2))
                         (store_files st))
  end.

(** [p.parent] *)
Definition parent (p : Path) : Path :=
  match p with
  | [] => []
  | [""] => [""]
  | _ => removelast p
  end.

(** Where the parts of a path lead from [cur]: a part [".."] leads from a
    directory to its parent, and nowhere from what is no directory. *)
Fixpoint reach (dir : Path -> bool) (cur : Path) (parts : list string)
  : option Path :=
  match parts with
  | [] => Some cur
  | part :: rest =>
      if decide (part = "..") then
        if dir cur then reach dir (parent cur) rest else None
      else reach dir (cur ++ [part]) rest
  end.

(** Where a path that is being made leads: every directory on the way is
    made, so that [".."] always leads to the parent. *)
Fixpoint lands (cur : Path) (parts : list string) : Path :=
  match parts with
  | [] => cur
  | part :: rest =>
      if decide (part = "..") then lands (parent cur) rest
      else lands (cur ++ [part]) rest
  end.

(** The loop "restore all files". *)
Definition restore_all (target_root : Path) (found : list (Path * content))
    (disk : files) : files :=
  fold_left (fun d pc => <[target_root ++ pc.1 := pc.2]> d) found disk.

(** Returns the files after the restore and the path returned.  [file_path]
    is [None] for the default, [restore_root] likewise.  An absolute
    [file_path] names the same file as source and as destination: it does
    not exist, or copying it raises; both give [None].  Copying a directory
    raises as well.  The restore root is taken to lie outside the backup
    root, and the destinations to be free: no directory at one of them and
    no regular file on the way to it. *)
Definition restore_backup (backup_root home : Path) (disk : files)
    (st : store) (timestamp_ : string) (file_path : option string)
    (restore_root : option Path) : files * option Path :=
  let backup_dir := path_join backup_root timestamp_ in
  let dir := fs_is_dir backup_root disk st in
  let file := fs_file backup_root disk st in
  let start :=
    if PyStr.starts_with_slash timestamp_ then [""] else backup_root in
  let steps :=
    if PyStr.starts_with_slash timestamp_ then List.tl (path_parts timestamp_)
    else path_parts timestamp_ in
  match reach dir start steps with
  | None => (disk, None)
  | Some here =>
      if negb (dir here) && negb (bool_decide (is_Some (file here)))
      then (disk, None)
      else
        let target_root := default home restore_root in
        match file_path with
        | Some (String c rest as file_path_) =>
            if PyStr.starts_with_slash file_path_ then (disk, None)
            else
              match reach dir here (path_parts file_path_) with
              | None => (disk, None)
              | Some there =>
                  match file there with
                  | None => (disk, None)
                  | Some data =>
                      let original_path := path_join target_root file_path_ in
                      (<[lands target_root (path_parts file_path_) := data]>
                         disk,
                       Some original_path)
                  end
              end
        | _ =>
            (restore_all target_root
                         (fs_files_under backup_root disk st here) disk,
             Some backup_dir)
        end
  end.

End BackupManager.

(** ** fuzzy_match.py *)

Module FuzzyClientMatcher.

Definition DEFAULT_KEYWORDS : dict (list string) :=
  [("codex", ["codex"; "openai"; "codex cli"]);
   ("claude-code", ["claude"; "claude-code"; "claude code"; "anthropic"]);
   ("claude-desktop", ["claude-desktop"; "claude desktop"; "anthropic desktop"]);
   ("cursor", ["cursor"; "cursor ide"]);
   ("gemini-cli", ["gemini"; "gemini cli"; "google"; "gcloud"]);
   ("copilot-cli", ["copilot"; "copilot cli"; "github"; "gh"]);
   ("vscode-user", ["vscode"; "vs code"; "vs-code"; "code"; "visual studio code"]);
   ("cline", ["cline"]);
   ("roo", ["roo"; "roo-cline"]);
   ("kilocode-cli", ["kilocode"; "kilo"; "kilocode cli"]);
   ("continue", ["continue"])].

(** [client_definitions.clients]: for every client identity, the display
    name of its configuration. *)
Definition ClientDefinitions : Type := dict string.

(** [if x not in keywords: keywords.append(x)] *)
Definition append_new (keywords : list string) (x : string) : list string :=
  if PyStr.mem x keywords then keywords else keywords ++ [x].

(** The body of the loop over the client definitions. *)
Definition add_client (keywords : dict (list string)) (kv : string * string)
  : dict (list string) :=
  let client_id := kv.1 in
  let keywords :=
    if PyDict.contains keywords client_id then keywords
    else PyDict.set keywords client_id [] in
  let name := PyStr.lower kv.2 in
  let own := default [] (PyDict.get keywords client_id) in
  let own := append_new own name in
  let own := append_new own (PyStr.replace_space "" name) in
  let own := append_new own (PyStr.replace_space "-" name) in
  PyDict.set keywords client_id own.

Definition _build_keyword_index (client_definitions : option ClientDefinitions)
  : dict (list string) :=
  let keywords :=
    fold_left (fun acc kv => PyDict.set acc kv.1 kv.2)
              (PyDict.items DEFAULT_KEYWORDS) [] in
  match client_definitions with
  | Some clients => fold_left add_client (PyDict.items clients) keywords
  | None => keywords
  end.

(** The flat list of [(keyword, client_id)] pairs. *)
Definition flatten (keywords : dict (list string)) : list (string * string) :=
  flat_map (fun kv => map (fun keyword => (keyword, kv.1)) kv.2)
           (PyDict.items keywords).

(** The client of the first pair whose keyword passes [test]. *)
Definition first_client (test : string -> bool)
    (all_keywords : list (string * string)) : option string :=
  match List.find (fun kc => test kc.1) all_keywords with
  | Some kc => Some kc.2
  | None => None
  end.

(** [self._keywords.get(client_id, [])] *)
Definition get_keywords (keywords : dict (list string)) (client_id : string)
  : list string :=
  default [] (PyDict.get keywords client_id).

(** The client of the first pair that passes [test]. *)
Definition first_client_where (all_keywords : list (string * string))
    (test : string * string -> bool) : option string :=
  match List.find test all_keywords with
  | Some kc => Some kc.2
  | None => None
  end.

Section scoring.

(** [scorer query choice]: the score (an integer) that [process.extract]
    with [fuzz.WRatio] gives [choice] for [query].  The library is not part
    of the repository. *)
Variable scorer : string -> string -> Z.

(** Insertion into a list ordered by descending score, before the first
    element that does not score higher. *)
Fixpoint insert_match (m : string * Z) (l : list (string * Z))
  : list (string * Z) :=
  match l with
  | [] => [m]
  | m' :: l' =>
      if m'.2 <=? m.2 then m :: l else m' :: insert_match m l'
  end.

(** [process.extract(query, choices, scorer=..., limit=limit)]: every choice
    is scored, and the [limit] best are returned, best first, equal scores in
    the order of [choices]. *)
Definition extract (query : string) (choices : list string) (limit : nat)
  : list (string * Z) :=
  take limit
       (foldr insert_match [] (map (fun c => (c, scorer query c)) choices)).

(** The body of the loop over the matches. *)
Definition consider (threshold : Z) (all_keywords : list (string * string))
    (best : option string * Z) (m : string * Z) : option string * Z :=
  let '(matched_keyword, score) := m in
  if (threshold <=? score) && (best.2 <? score) then
    match first_client (fun keyword => bool_decide (keyword = matched_keyword))
                       all_keywords with
    | Some client_id => (Some client_id, score)
    | None => best
    end
  else best.

Definition find_client (keywords : dict (list string))
    (query : string) (threshold : Z) : option string * Z :=
  if decide (query = "") then (None, 0)
  else
    let query := PyStr.strip (PyStr.lower query) in
    if PyDict.contains keywords query then (Some query, 100)
    else
      let all_keywords := flatten keywords in
      match first_client
              (fun keyword => bool_decide (query = PyStr.lower keyword))
              all_keywords with
      | Some client_id => (Some client_id, 100)
      | None =>
          let keyword_list := map fst all_keywords in
          let matches := extract query keyword_list 5 in
          match matches with
          | [] => (None, 0)
          | _ => fold_left (consider threshold all_keywords) matches (None, 0)
          end
      end.

Definition resolve_client_by_keyword (query : string)
    (client_definitions : ClientDefinitions) (threshold : Z) : option string :=
  (find_client (_build_keyword_index (Some client_definitions))
               query threshold).1.

(** The search of [find_clients] for the client of a matched keyword: the
    first pair with that keyword whose client has not been seen. *)
Definition unseen_client (all_keywords : list (string * string))
    (matched_keyword : string) (seen_clients : gset string) : option string :=
  first_client_where all_keywords
    (fun kc => bool_decide (kc.1 = matched_keyword) &&
               negb (bool_decide (kc.2 ∈ seen_clients))).

(** The loop of [find_clients] over the matches; it ends when the matches
    are used up or, after a match that reaches the threshold, when [limit]
    results are there. *)
Fixpoint collect (limit : nat) (threshold : Z)
    (all_keywords : list (string * string)) (matches : list (string * Z))
    (results : list (string * string * Z)) (seen_clients : gset string)
  : list (string * string * Z) :=
  match matches with
  | [] => results
  | (matched_keyword, score) :: rest =>
      if score <? threshold
      then collect limit threshold all_keywords rest results seen_clients
      else
        let '(results, seen_clients) :=
          match unseen_client all_keywords matched_keyword seen_clients with
          | Some client_id =>
              (results ++ [(client_id, matched_keyword, score)],
               {[client_id]} ∪ seen_clients)
          | None => (results, seen_clients)
          end in
        if (limit <=? List.length results)%nat then results
        else collect limit threshold all_keywords rest results seen_clients
  end.

Definition find_clients (keywords : dict (list string)) (query : string)
    (limit : nat) (threshold : Z) : list (string * string * Z) :=
  if decide (query = "") then []
  else
    let query := PyStr.strip (PyStr.lower query) in
    let all_keywords := flatten keywords in
    let keyword_list := map fst all_keywords in
    let matches := extract query keyword_list (limit * 2) in
    collect limit threshold all_keywords matches [] ∅.

End scoring.

End FuzzyClientMatcher.

(** ** direct_sync.py *)

Module DirectSyncEngine.

(** What the engine takes from its surroundings: the platform, the home
    directory, the root of the backups, and the time stamp a backup made
    during the call would get. *)
Record environ : Type := Environ {
  is_windows : bool;
  home : Path;
  backup_root : Path;
  now : string
}.

(** The state a sync acts on: the configuration files and the backups. *)
Record world : Type := World {
  disk : files;
  backups : BackupManager.store
}.

(** What a call ends in: one of the result dictionaries, by their three
    shapes, or an exception that leaves the call. *)
Inductive sync_result : Type :=
| Failed (error : string)
| Preview (source target : string)
    (servers_to_add servers_to_update servers_to_remove : list string)
    (total_changes : nat)
| Synced (source target : string) (backup : option string)
    (servers_added servers_updated servers_removed : list string)
    (total_changes : nat)
| Raised (e : exn).

(** [result["success"]]; a call that raises has no success. *)
Definition success (r : sync_result) : bool :=
  match r with
  | Failed _ => false
  | Raised _ => false
  | _ => true
  end.

(** What [data.get("mcpServers", {})] gives: the servers, or a value that is
    none. *)
Inductive servers_value : Type :=
| Servers (servers : dict server)
| OddServers (truthy : bool).

(** [data.get("mcpServers", {})]: a value that is no object has no [get]. *)
Definition get_servers (data : json_value) : outcome servers_value :=
  match data with
  | JObject j => Returns (Servers (get_mcpServers j))
  | JOddServers truthy => Returns (OddServers truthy)
  | JOther => Raises AttributeError
  end.

(** [not servers] *)
Definition no_servers (v : servers_value) : bool :=
  match v with
  | Servers [] => true
  | Servers (_ :: _) => false
  | OddServers truthy => negb truthy
  end.

(** [servers.keys()]: only a dictionary has keys. *)
Definition with_keys (v : servers_value) : outcome (dict server) :=
  match v with
  | Servers servers => Returns servers
  | OddServers _ => Raises AttributeError
  end.

(** A step that may raise: the exception leaves the call, and the world is
    as it was before the step. *)
Definition try_step {A : Type} (step : outcome A) (w : world)
    (rest : A -> world * sync_result) : world * sync_result :=
  match step with
  | Returns a => rest a
  | Raises e => (w, Raised e)
  end.

Notation "'let!' x ':=' step 'or_raise' w 'in' rest" :=
  (try_step step w (fun x => rest))
  (at level 10, x name, step at level 200, w at level 0,
   rest at level 200).

(** ["toml" if path.suffix == ".toml" else "json"], when no format is given. *)
Definition infer_format (given : option string) (path : Path) : string :=
  match given with
  | Some f => f
  | None => if decide (path_suffix path = ".toml") then "toml" else "json"
  end.

(** [source_servers[name] != target_servers[name]], for a name bound in both. *)
Definition differs (source_servers target_servers : dict server)
    (name : string) : bool :=
  match PyDict.get source_servers name, PyDict.get target_servers name with
  | Some a, Some b => negb (server_eqb a b)
  | _, _ => false
  end.

Definition servers_to_add (source_servers target_servers : dict server)
  : gset string :=
  list_to_set (PyDict.keys source_servers)
    ∖ list_to_set (PyDict.keys target_servers).

Definition servers_to_update (source_servers target_servers : dict server)
  : gset string :=
  list_to_set
    (List.filter
       (fun name => PyDict.contains target_servers name &&
                    differs source_servers target_servers name)
       (PyDict.keys source_servers)).

Definition servers_to_remove (source_servers target_servers : dict server)
  : gset string :=
  list_to_set (PyDict.keys target_servers)
    ∖ list_to_set (PyDict.keys source_servers).

(** [sorted(names)] for a set of names. *)
Definition sorted_names (names : gset string) : list string :=
  PyStr.sorted (elements names).

(** [backup_before_sync(file_path)] *)
Definition backup_before_sync (e : environ) (w : world) (file_path : Path)
  : world * option Path :=
  let '(st, backup_path) :=
    BackupManager.backup_file (backup_root e) (home e) (now e)
                              (disk w) (backups w) file_path in
  ({| disk := disk w; backups := st |}, backup_path).

(** The merged servers: [dict(target_servers)] updated with the source. *)
Definition merge_servers (source_servers target_servers : dict server)
  : dict server :=
  PyDict.update target_servers source_servers.

Definition _sync_paths (e : environ) (w : world)
    (source_path target_path : Path) (source_id target_id : string)
    (source_format target_format : option string) (dry_run : bool)
  : world * sync_result :=
  let source_format := infer_format source_format source_path in
  let target_format := infer_format target_format target_path in
  let! source_data :=
    TomlConfigManager.read_config (disk w) source_path source_format
    or_raise w in
  let! source_value := get_servers source_data or_raise w in
  if no_servers source_value then
    (w, Failed ("No MCP servers found in source: " +:+ path_str source_path))
  else
    let! target_data :=
      TomlConfigManager.read_config (disk w) target_path target_format
      or_raise w in
    let! target_value := get_servers target_data or_raise w in
    let! source_servers := with_keys source_value or_raise w in
    let! target_servers := with_keys target_value or_raise w in
    let to_add := servers_to_add source_servers target_servers in
    let to_update := servers_to_update source_servers target_servers in
    let to_remove := servers_to_remove source_servers target_servers in
    let total := (size to_add + size to_update + size to_remove)%nat in
    if dry_run then
      (w, Preview (path_str source_path) (path_str target_path)
            (sorted_names to_add) (sorted_names to_update)
            (sorted_names to_remove) total)
    else
      let '(w, backup_path) :=
        if path_exists (disk w) target_path
        then backup_before_sync e w target_path
        else (w, None) in
      let new_servers := merge_servers source_servers target_servers in
      let new_data := servers_doc new_servers in
      let '(disk', ok) :=
        TomlConfigManager.write_config (is_windows e) (disk w) target_path
                                       new_data target_format true in
      let w := {| disk := disk'; backups := backups w |} in
      if ok then
        (w, Synced (path_str source_path) (path_str target_path)
              (path_str <$> backup_path)
              (sorted_names to_add) (sorted_names to_update)
              (sorted_names to_remove) total)
      else
        (w, Failed ("Failed to write target configuration: "
                    +:+ path_str target_path)).

Definition sync_by_path (e : environ) (w : world)
    (source_path target_path : Path)
    (source_format target_format : option string) (dry_run : bool)
  : world * sync_result :=
  let source_format := infer_format source_format source_path in
  let target_format := infer_format target_format target_path in
  if negb (path_exists (disk w) source_path) then
    (w, Failed ("Source configuration not found: " +:+ path_str source_path))
  else
    _sync_paths e w source_path target_path
                (path_str source_path) (path_str target_path)
                (Some source_format) (Some target_format) dry_run.

End DirectSyncEngine.

(** ** Vocabulary of the specification *)

Module Spec.

(** The process launcher, compared without regard to case. *)
Definition is_launcher (c : string) : Prop :=
  PyStr.lower c = "cmd" \/ PyStr.lower c = "cmd.exe".

(** The mode switches of the launcher, compared without regard to case. *)
Definition is_mode_switch (a : string) : Prop :=
  PyStr.lower a = "/c" \/ PyStr.lower a = "/k".

(** The names bound in both configurations to equal entries: the part of the
    change plan that the code leaves implicit. *)
Definition unchanged (source_servers target_servers : dict server)
  : gset string :=
  list_to_set
    (List.filter
       (fun name =>
          match PyDict.get source_servers name,
                PyDict.get target_servers name with
          | Some a, Some b => server_eqb a b
          | _, _ => false
          end)
       (PyDict.keys source_servers)).

(** [names(C)] *)
Definition names (servers : dict server) : gset string :=
  list_to_set (PyDict.keys servers).

(** The environment names none of the variables that reading drops. *)
Definition no_system_vars (e : dict string) : Prop :=
  Forall (fun kv => kv.1 ∉ CodexConfig.SYSTEM_VARS) e.

(** The start-up timeout that writing an entry emits. *)
Definition written_timeout (c : server) : Z :=
  default 60000 (py_or (timeout_ms c) (startup_timeout_ms c)).

(** An entry that a write followed by a read gives back: every recognized
    field is present, the timeout is not zero, the package runner carries its
    confirm flag, the environment is free of the variables dropped on
    reading, and, where the launcher is not written, the command is not the
    launcher. *)
Definition normal (is_windows : bool) (c : server) : Prop :=
  exists cmd a e t,
    command c = Some cmd /\ args c = Some a /\ env c = Some e /\
    timeout_ms c = Some t /\ t <> 0 /\
    (cmd = "npx" -> "-y" ∈ a) /\
    no_system_vars e /\ PyDict.wf e /\
    (is_windows = false -> ~ is_launcher cmd).

(** An entry whose written form is reproduced by a read and a second write. *)
Definition stable (is_windows : bool) (c : server) : Prop :=
  no_system_vars (default [] (env c)) /\
  PyDict.wf (default [] (env c)) /\
  written_timeout c <> 0 /\
  (is_windows = false -> ~ is_launcher (default "npx" (command c))).

(** The servers table of the file at [path], when it has one, binds no name
    twice. *)
Definition wf_table (fs : files) (path : Path) : Prop :=
  forall doc mcp_servers,
    fs !! path = Some (TomlText doc) ->
    PyDict.get doc "mcp_servers" = Some (TServers mcp_servers) \/
    PyDict.get doc "mcp_servers" = Some (TInline mcp_servers) ->
    PyDict.wf mcp_servers.

(** The servers table after the two loops of [write_config]. *)
Definition written (is_windows : bool)
    (mcp_servers : dict toml_entry) (new_servers : dict server)
  : dict toml_entry :=
  CodexConfig.drop_servers
    (CodexConfig.put_servers is_windows mcp_servers new_servers) new_servers.

(** What a run reads from a path, under the format given or inferred: the
    value it takes for the servers, or the exception of reading it. *)
Definition read_at (w : DirectSyncEngine.world) (path : Path)
    (given : option string) : outcome DirectSyncEngine.servers_value :=
  match TomlConfigManager.read_config (DirectSyncEngine.disk w) path
          (DirectSyncEngine.infer_format given path) with
  | Returns data => DirectSyncEngine.get_servers data
  | Raises e => Raises e
  end.

(** The run reads a dictionary of servers from the path: the file is not
    one of those on which reading or taking the keys raises. *)
Definition readable (w : DirectSyncEngine.world) (path : Path)
    (given : option string) : Prop :=
  exists servers, read_at w path given = Returns (DirectSyncEngine.Servers servers).

(** The servers a run reads from a path; none where it reads no dictionary
    of servers. *)
Definition servers_at (w : DirectSyncEngine.world) (path : Path)
    (given : option string) : dict server :=
  match read_at w path given with
  | Returns (DirectSyncEngine.Servers servers) => servers
  | _ => []
  end.

(** The Codex file at [path] can be written again: the path can be written,
    the bytes of an existing file decode, and what an existing document has
    under [mcp_servers], if anything, is a table. *)
Definition codex_ready (fs : files) (path : Path) : Prop :=
  can_write fs path = true /\
  match fs !! path with
  | Some (Undecodable _) => False
  | Some (TomlText doc) =>
      match PyDict.get doc "mcp_servers" with
      | Some (TServers _) => True
      | Some _ => False
      | None => True
      end
  | _ => True
  end.

(** The entry names of the backup root in the order [list_backups] visits
    them. *)
Definition visited (root : gmap string BackupManager.entry) : list string :=
  PyStr.sorted_reverse (map fst (map_to_list root)).

(** The query as [find_client] compares it. *)
Definition normalized (query : string) : string :=
  PyStr.strip (PyStr.lower query).




(** Scores running down. *)
Definition descending (scores : list Z) : Prop :=
  StronglySorted (fun a b => b <= a) scores.


(** The two configurations have the same names, bound to equal entries. *)
Definition in_sync (source_servers target_servers : dict server) : Prop :=
  (forall n, n ∈ PyDict.keys source_servers
             <-> n ∈ PyDict.keys target_servers) /\
  forall n a b,
    PyDict.get source_servers n = Some a ->
    PyDict.get target_servers n = Some b -> server_eqb a b = true.

(** The keywords of a client after its name was added. *)
Definition with_name (own : list string) (name : string) : list string :=
  let name := PyStr.lower name in
  let own := FuzzyClientMatcher.append_new own name in
  let own :=
    FuzzyClientMatcher.append_new own (PyStr.replace_space "" name) in
  FuzzyClientMatcher.append_new own (PyStr.replace_space "-" name).

(** What the loop of [find_client] keeps of the best match so far. *)
Definition sound_best (scorer : string -> string -> Z) (threshold : Z)
    (query : string) (all_keywords : list (string * string))
    (best : option string * Z) : Prop :=
  match best.1 with
  | None => best.2 = 0
  | Some c => 0 < best.2 /\ threshold <= best.2 /\
              exists k, (k, c) ∈ all_keywords /\ best.2 = scorer query k
  end.

End Spec.

(** ** Sample data *)

Module Samples.
Import CodexConfig BackupManager FuzzyClientMatcher DirectSyncEngine.

(** The entry of the specification's example. *)
Definition wrapped_npx : server :=
  {| command := Some "cmd"; args := Some ["/c"; "npx"; "-y"; "pkg"];
     env := None; timeout_ms := None; startup_timeout_ms := None;
     server_type := None |}.

(** An entry that does not go through the launcher. *)
Definition plain_python : server :=
  {| command := Some "python"; args := Some ["server.py"];
     env := None; timeout_ms := None; startup_timeout_ms := None;
     server_type := None |}.

(** The launcher with the switch alone. *)
Definition bare_switch : server :=
  {| command := Some "cmd"; args := Some ["/c"];
     env := None; timeout_ms := None; startup_timeout_ms := None;
     server_type := None |}.

(** A normal entry and the file a first write of it leaves, on Windows. *)
Definition sample_entry : server :=
  {| command := Some "npx"; args := Some ["-y"; "pkg"];
     env := Some [("API_KEY", "secret")]; timeout_ms := Some 30000;
     startup_timeout_ms := None; server_type := None |}.

Definition sample_config : dict server := [("srv", sample_entry)].

Definition sample_written : files :=
  (CodexConfig.write_config true ∅ ["config.toml"]
     (servers_doc sample_config) true).1.

(** The package runner without its confirm flag, and the launcher as the
    command of a canonical entry. *)
Definition npx_without_flag : dict server :=
  [("s", {| command := Some "npx"; args := Some ["pkg"]; env := Some [];
            timeout_ms := Some 60000; startup_timeout_ms := None;
            server_type := None |})].

Definition launcher_entry : dict server :=
  [("w", {| command := Some "cmd"; args := Some ["/c"; "npx"; "pkg"];
            env := Some []; timeout_ms := Some 60000;
            startup_timeout_ms := None; server_type := None |})].

(** The file after writing [config], and after writing back what is read
    from it, on a platform without the launcher. *)
Definition first_write (config : dict server) : files :=
  (CodexConfig.write_config false ∅ ["config.toml"]
     (servers_doc config) true).1.

Definition second_write (config : dict server) : files :=
  (CodexConfig.write_config false (first_write config) ["config.toml"]
     (CodexConfig.read_config (first_write config) ["config.toml"]) true).1.

(** A world with a JSON source and a JSON target, and no backups yet. *)
Definition json_world (source_servers target_servers : dict server) : world :=
  {| disk := {[ ["src.json"] := JsonText (servers_doc source_servers);
                ["tgt.json"] := JsonText (servers_doc target_servers) ]};
     backups := None |}.

Definition test_environ : environ :=
  {| is_windows := false; home := [""; "home"; "u"];
     backup_root := [""; "home"; "u"; ".config"; "mcp-sync"; "backups"];
     now := "20240128_123456_000001" |}.

(** The source and the target of the scenarios: one server each. *)
Definition server_a : server :=
  {| command := Some "npx"; args := Some ["x"]; env := None;
     timeout_ms := None; startup_timeout_ms := None; server_type := None |}.

Definition server_b : server :=
  {| command := Some "keep"; args := Some []; env := None;
     timeout_ms := None; startup_timeout_ms := None; server_type := None |}.

Definition a_over_b : world := json_world [("a", server_a)] [("b", server_b)].

(** A source that holds a JSON list, and a target that does. *)
Definition list_source : world :=
  {| disk := {[ ["src.json"] := JsonValue "[]";
                ["tgt.json"] := JsonText (servers_doc [("b", server_b)]) ]};
     backups := None |}.

Definition list_target : world :=
  {| disk := {[ ["src.json"] := JsonText (servers_doc [("a", server_a)]);
                ["tgt.json"] := JsonValue "[]" ]};
     backups := None |}.

(** A JSON source and a Codex target with a section of its own. *)
Definition json_to_codex : world :=
  {| disk := {[ ["src.json"] := JsonText (servers_doc [("a", server_a)]);
                ["config.toml"] :=
                  TomlText [("model", TItem "o3");
                            ("mcp_servers",
                             TServers [("b", TTable plain_python)])] ]};
     backups := None |}.

(** A backup root with three snapshots, an empty directory and a stray
    file. *)
Definition sample_store : store :=
  Some {[ "20240101_000000_000001" := Dir [("mcp.json", Garbage "a")];
          "20240102_000000_000001" := Dir [("mcp.json", Garbage "b")];
          "20240103_000000_000001" := Dir [("mcp.json", Garbage "c")];
          "20240104_000000_000001" := Dir [];
          "notes.txt" := File (Garbage "n") ]}.

(** A scorer that knows equal strings only; its scores stay within 0..100,
    as those of the library do. *)
Definition exact_scorer (query choice : string) : Z :=
  if decide (query = choice) then 100 else 0.

(** An index over a client registered under a capitalized identity, and one
    over a client whose identity is none of its keywords. *)
Definition capital_index : dict (list string) :=
  _build_keyword_index (Some [("VSCode", "Visual Studio")]).

Definition zed_index : dict (list string) :=
  _build_keyword_index (Some [("zed", "Editor")]).

(** A configuration file under the home directory. *)
Definition cursor_config : Path := [""; "home"; "u"; ".cursor"; "mcp.json"].

Definition cursor_disk : files := {[ cursor_config := Garbage "old" ]}.

(** An entry that runs the launcher itself, sets a system variable of its
    own and asks for no timeout. *)
Definition launcher_with_drive : server :=
  {| command := Some "cmd"; args := Some ["/c"; "dir"];
     env := Some [("SystemDrive", "D:"); ("TOKEN", "t")];
     timeout_ms := None; startup_timeout_ms := Some 0;
     server_type := None |}.

(** A Codex file with a section of its own, a server table and a stray value
    in the servers table. *)
Definition codex_file : files :=
  {[ ["config.toml"] :=
       TomlText [("model", TItem "o3");
                 ("mcp_servers",
                  TServers [("w", TTable wrapped_npx);
                            ("stray", TValue "1");
                            ("p", TTable plain_python)])] ]}.

(** A Codex file whose bytes are no text, and one whose servers are an
    inline table. *)
Definition binary_file : files := {[ ["config.toml"] := Undecodable "ff" ]}.

Definition inline_file : files :=
  {[ ["config.toml"] :=
       TomlText [("mcp_servers", TInline [("b", TTable plain_python)])] ]}.


End Samples.

(** * Properties *)

(** ** Dictionaries *)

Module PyDictFacts.
Import PyDict.

Section facts.
Context {V : Type}.
Implicit Types (d src : dict V) (k : string) (v : V).

Lemma get_set d k v k' :
  get (set d k v) k' = if decide (k = k') then Some v else get d k'.
Proof.
  induction d as [|[k0 v0] d IH]; simpl.
  - repeat case_decide; congruence.
  - repeat (case_decide; simpl); try congruence.
Qed.

Lemma get_set_hit d k v : get (set d k v) k = Some v.
Proof. rewrite get_set. by rewrite decide_True. Qed.

Lemma get_Some_keys d k v : get d k = Some v -> k ∈ keys d.
Proof.
  induction d as [|[k0 v0] d IH]; simpl; [done|].
  case_decide; intros; subst.
  - apply list_elem_of_here.
  - apply list_elem_of_further. auto.
Qed.

Lemma get_None_keys d k : get d k = None <-> k ∉ keys d.
Proof.
  induction d as [|[k0 v0] d IH]; simpl.
  - split; [intros _; apply not_elem_of_nil | done].
  - rewrite not_elem_of_cons. case_decide; subst.
    + split; [done | intros [? _]; done].
    + rewrite IH. split; [done | by intros [_ ?]].
Qed.

Lemma keys_get d k : k ∈ keys d <-> is_Some (get d k).
Proof.
  destruct (get d k) as [v|] eqn:E.
  - split; [eauto | intros _; eapply get_Some_keys; eauto].
  - apply get_None_keys in E. split; [done | intros [? ?]; done].
Qed.

Lemma contains_keys d k : contains d k = true <-> k ∈ keys d.
Proof.
  unfold contains. rewrite keys_get.
  destruct (get d k); split; intros H; try done; eauto; by destruct H.
Qed.

Lemma contains_false d k : contains d k = false <-> k ∉ keys d.
Proof.
  rewrite <- contains_keys. destruct (contains d k); split; congruence.
Qed.

(** In a well-formed dictionary an item is what [get] finds. *)
Lemma elem_of_get d k v : wf d -> (k, v) ∈ d -> get d k = Some v.
Proof.
  unfold wf. induction d as [|[k0 v0] d IH]; simpl; intros Hnd Hin.
  - by apply elem_of_nil in Hin.
  - apply NoDup_cons in Hnd as [Hk0 Hnd]. apply elem_of_cons in Hin as [Heq|Hin].
    + inversion Heq; subst. by rewrite decide_True.
    + case_decide; subst; [|by apply IH].
      exfalso. apply Hk0. apply (list_elem_of_fmap_2 fst _ _ Hin).
  Qed.

Lemma get_elem_of d k v : get d k = Some v -> (k, v) ∈ d.
Proof.
  induction d as [|[k0 v0] d IH]; simpl; [done|].
  case_decide; subst.
  - intros [= ->]. apply list_elem_of_here.
  - intros. apply list_elem_of_further. auto.
Qed.

Lemma keys_set d k v :
  keys (set d k v) = if contains d k then keys d else keys d ++ [k].
Proof.
  unfold contains. induction d as [|[k0 v0] d IH]; simpl; [done|].
  case_decide; subst; simpl; [done|].
  rewrite IH. by destruct (get d k).
Qed.

Lemma wf_set d k v : wf d -> wf (set d k v).
Proof.
  unfold wf. intros Hnd. rewrite keys_set.
  destruct (contains d k) eqn:E; [done|].
  apply contains_false in E.
  apply NoDup_app. split_and!; [done| |apply NoDup_singleton].
  intros x Hx Hx'. apply list_elem_of_singleton in Hx'. by subst.
Qed.

(** Assigning the value a key already has changes nothing. *)
Lemma set_same d k v : get d k = Some v -> set d k v = d.
Proof.
  induction d as [|[k0 v0] d IH]; simpl; [done|].
  case_decide; subst.
  - by intros [= ->].
  - intros. by rewrite IH.
Qed.

Lemma set_set d k v v' : set (set d k v) k v' = set d k v'.
Proof.
  induction d as [|[k0 v0] d IH]; simpl.
  - by rewrite decide_True.
  - case_decide; simpl; subst.
    + by rewrite decide_True.
    + rewrite decide_False by done. by rewrite IH.
Qed.

Lemma get_del d k k' :
  get (del d k) k' = if decide (k = k') then None else get d k'.
Proof.
  unfold del. induction d as [|[k0 v0] d IH]; simpl.
  - by case_decide.
  - case_bool_decide; simpl in *; subst.
    + rewrite IH. repeat case_decide; congruence.
    + rewrite IH. repeat case_decide; congruence.
Qed.

Lemma get_app d1 d2 k :
  get (d1 ++ d2) k =
    match get d1 k with Some v => Some v | None => get d2 k end.
Proof.
  induction d1 as [|[k0 v0] d1 IH]; simpl; [done|].
  by case_decide.
Qed.

Lemma keys_app d1 d2 : keys (d1 ++ d2) = keys d1 ++ keys d2.
Proof. apply map_app. Qed.

(** A filter on the keys commutes with [get]. *)
Lemma get_filter_keys (P : string -> bool) d k :
  get (List.filter (fun kv => P kv.1) d) k =
    if P k then get d k else None.
Proof.
  induction d as [|[k0 v0] d IH]; simpl.
  - by destruct (P k).
  - destruct (P k0) eqn:E0; simpl.
    + case_decide; subst; [by rewrite E0 | done].
    + case_decide; subst; [by rewrite IH, E0 | done].
Qed.

Lemma update_snoc d src k v :
  update d (src ++ [(k, v)]) = set (update d src) k v.
Proof. unfold update, items. by rewrite fold_left_app. Qed.

(** [update] with a well-formed source is the overlay of the source over
    the receiver. *)
Lemma get_update d src k :
  wf src ->
  get (update d src) k =
    match get src k with Some v => Some v | None => get d k end.
Proof.
  unfold wf. revert d.
  induction src as [|[k0 v0] src IH] using rev_ind; intros d Hnd; [done|].
  rewrite keys_app in Hnd. apply NoDup_app in Hnd as (Hnd & Hdisj & _).
  rewrite update_snoc, get_set, get_app. simpl.
  rewrite IH by done.
  case_decide; subst.
  - assert (get src k = None) as ->; [|done].
    apply get_None_keys. intros Hin. apply (Hdisj _ Hin). simpl.
    apply list_elem_of_here.
  - by destruct (get src k).
Qed.

Lemma wf_update d src : wf d -> wf (update d src).
Proof.
  revert d. induction src as [|[k0 v0] src IH] using rev_ind; intros d Hd.
  - done.
  - rewrite update_snoc. apply wf_set. by apply IH.
Qed.

Lemma keys_update d src k :
  wf src -> k ∈ keys (update d src) <-> k ∈ keys src ∨ k ∈ keys d.
Proof.
  intros Hwf. rewrite !keys_get, get_update by done.
  destruct (get src k); split; intros H; eauto.
  - destruct H as [H|H]; [by destruct H | done].
Qed.

(** Filling an empty dictionary from a well-formed one copies it. *)
Lemma update_nil src : wf src -> update [] src = src.
Proof.
  unfold wf. induction src as [|[k0 v0] src IH] using rev_ind; intros Hnd.
  - done.
  - rewrite keys_app in Hnd. apply NoDup_app in Hnd as (Hnd & Hdisj & _).
    rewrite update_snoc, IH by done. clear IH.
    assert (k0 ∉ keys src) as Hk0.
    { intros Hin. apply (Hdisj _ Hin). simpl. apply list_elem_of_here. }
    clear Hnd Hdisj. induction src as [|[k1 v1] src IH]; simpl; [done|].
    simpl in Hk0. apply not_elem_of_cons in Hk0 as [? ?].
    rewrite decide_False by done. by rewrite IH.
Qed.

Lemma set_fresh d k v : k ∉ keys d -> set d k v = d ++ [(k, v)].
Proof.
  induction d as [|[k0 v0] d IH]; simpl; [done|].
  intros Hk. apply not_elem_of_cons in Hk as [? ?].
  rewrite decide_False by done. by rewrite IH.
Qed.

Lemma keys_filter (f : string * V -> bool) d :
  keys (List.filter f d) `sublist_of` keys d.
Proof.
  induction d as [|kv d IH]; simpl; [done|].
  destruct (f kv); simpl; [by apply sublist_skip | by apply sublist_cons].
Qed.

Lemma wf_filter (f : string * V -> bool) d : wf d -> wf (List.filter f d).
Proof. unfold wf. intros. eapply sublist_NoDup; [done | apply keys_filter]. Qed.

(** Updating with items the receiver already has changes nothing. *)
Lemma update_same d src :
  (forall k v, (k, v) ∈ src -> get d k = Some v) -> update d src = d.
Proof.
  induction src as [|[k0 v0] src IH] using rev_ind; intros H; [done|].
  rewrite update_snoc, IH.
  - apply set_same, H. apply elem_of_app. right. apply list_elem_of_here.
  - intros k v Hin. apply H. apply elem_of_app. by left.
Qed.

Lemma filter_all {A : Type} (f : A -> bool) (l : list A) :
  (forall x, x ∈ l -> f x = true) -> List.filter f l = l.
Proof.
  induction l as [|x l IH]; simpl; intros H; [done|].
  rewrite H by apply list_elem_of_here.
  rewrite IH; [done|]. intros y Hy. apply H. by apply list_elem_of_further.
Qed.

End facts.

Section map_facts.
Context {V W : Type} (f : V -> W).
Implicit Types (d : dict V) (k : string).

Lemma keys_map_values d : keys (map_values f d) = keys d.
Proof. unfold keys, map_values. rewrite map_map. done. Qed.

Lemma get_map_values d k : get (map_values f d) k = f <$> get d k.
Proof.
  induction d as [|[k0 v0] d IH]; simpl; [done|].
  by case_decide.
Qed.

Lemma wf_map_values d : wf d -> wf (map_values f d).
Proof. unfold wf. by rewrite keys_map_values. Qed.

Lemma elem_of_map_values d k w :
  (k, w) ∈ map_values f d <-> exists v, w = f v /\ (k, v) ∈ d.
Proof.
  unfold map_values. rewrite list_elem_of_fmap. split.
  - intros ([k0 v0] & [= -> ->] & Hin). eauto.
  - intros (v & -> & Hin). by exists (k, v).
Qed.

End map_facts.

End PyDictFacts.

(** ** Reading Codex server tables *)

Module CodexParseFacts.
Import CodexConfig Spec Samples.

Lemma launcher_test (c : string) :
  is_launcher c <->
  negb (bool_decide (c = "")) && PyStr.mem (PyStr.lower c) ["cmd"; "cmd.exe"]
    = true.
Proof.
  unfold is_launcher, PyStr.mem.
  rewrite andb_true_iff, negb_true_iff, bool_decide_eq_false, bool_decide_eq_true.
  rewrite !elem_of_cons, elem_of_nil. split.
  - intros H. split; [|tauto]. intros ->. destruct H as [H|H]; discriminate H.
  - tauto.
Qed.

Lemma switch_test (a : string) :
  is_mode_switch a <-> PyStr.mem (PyStr.lower a) ["/c"; "/k"] = true.
Proof.
  unfold is_mode_switch, PyStr.mem.
  rewrite bool_decide_eq_true, !elem_of_cons, elem_of_nil. tauto.
Qed.

(** C5, as amended: an entry whose command is the launcher and whose
    argument list has at least two elements, the first a mode switch, reads
    as the second argument for command and the arguments after it for args;
    an entry whose command is not the launcher reads with its command and
    args as they are. *)
Theorem parse_unwraps_launcher (server_config : server) :
  (forall cmd sw real rest,
      command server_config = Some cmd -> is_launcher cmd ->
      args server_config = Some (sw :: real :: rest) -> is_mode_switch sw ->
      command (_parse_codex_server server_config) = Some real /\
      args (_parse_codex_server server_config) = Some rest) /\
  (~ is_launcher (default "" (command server_config)) ->
      command (_parse_codex_server server_config)
        = Some (default "" (command server_config)) /\
      args (_parse_codex_server server_config)
        = Some (default [] (args server_config))).
Proof.
  split.
  - intros cmd sw real rest Hc Hl Ha Hs.
    apply launcher_test in Hl. apply switch_test in Hs.
    unfold _parse_codex_server. rewrite Hc, Ha. simpl default.
    rewrite Hl. simpl. rewrite Hs. done.
  - intros Hl. rewrite launcher_test in Hl. apply not_true_is_false in Hl.
    unfold _parse_codex_server. rewrite Hl. done.
Qed.

Lemma parse_unwraps_launcher_witness :
  (command (_parse_codex_server wrapped_npx) = Some "npx" /\
   args (_parse_codex_server wrapped_npx) = Some ["-y"; "pkg"]) /\
  (command (_parse_codex_server plain_python) = Some "python" /\
   args (_parse_codex_server plain_python) = Some ["server.py"]).
Proof.
  split.
  - apply (proj1 (parse_unwraps_launcher wrapped_npx)
             "cmd" "/c" "npx" ["-y"; "pkg"]).
    + reflexivity.
    + left. reflexivity.
    + reflexivity.
    + left. reflexivity.
  - apply (proj2 (parse_unwraps_launcher plain_python)).
    intros [H|H]; discriminate H.
Defined.

(** C5 as stated fails on an argument list that begins with the switch and
    ends there: nothing is unwrapped, the switch stays in the arguments. *)
Lemma parse_bare_switch_not_unwrapped :
  is_launcher "cmd" /\ is_mode_switch "/c" /\
  command (_parse_codex_server bare_switch) = Some "" /\
  args (_parse_codex_server bare_switch) = Some ["/c"].
Proof.
  split_and!; try reflexivity; left; reflexivity.
Qed.

(** C10: the launcher with fewer than two arguments reads as the empty
    command, with the argument list as it was. *)
Theorem parse_launcher_short_args (server_config : server) (cmd : string) :
  command server_config = Some cmd -> is_launcher cmd ->
  (List.length (default [] (args server_config)) < 2)%nat ->
  command (_parse_codex_server server_config) = Some "" /\
  args (_parse_codex_server server_config)
    = Some (default [] (args server_config)).
Proof.
  intros Hc Hl Hlen. apply launcher_test in Hl.
  unfold _parse_codex_server. rewrite Hc. simpl default. rewrite Hl.
  destruct (Nat.leb_spec 2 (List.length (default [] (args server_config))));
    [lia | done].
Qed.

Lemma parse_launcher_short_args_witness :
  command (_parse_codex_server bare_switch) = Some "" /\
  args (_parse_codex_server bare_switch) = Some ["/c"].
Proof.
  apply (parse_launcher_short_args bare_switch "cmd").
  - reflexivity.
  - left. reflexivity.
  - simpl. lia.
Defined.

End CodexParseFacts.

(** ** Writing Codex server tables *)

Module CodexWriteFacts.
Import CodexConfig Spec PyDictFacts CodexParseFacts.

Lemma filter_no_system_vars (e : dict string) :
  no_system_vars e ->
  List.filter (fun kv => negb (PyStr.mem kv.1 SYSTEM_VARS)) e = e.
Proof.
  unfold no_system_vars. rewrite Forall_forall. intros H.
  apply filter_all. intros kv Hkv. apply negb_true_iff.
  unfold PyStr.mem. apply bool_decide_eq_false. by apply H.
Qed.

Lemma no_system_vars_get (e : dict string) (k : string) :
  no_system_vars e -> k ∈ SYSTEM_VARS -> PyDict.get e k = None.
Proof.
  unfold no_system_vars. rewrite Forall_forall. intros H Hk.
  apply get_None_keys. intros Hin.
  apply list_elem_of_fmap in Hin as (kv & -> & Hkv). by apply (H kv).
Qed.

(** The user's variables are appended when none of them is there yet. *)
Lemma add_user_env_fresh (base e : dict string) :
  PyDict.wf e -> (forall k, k ∈ PyDict.keys e -> k ∉ PyDict.keys base) ->
  add_user_env base e = base ++ e.
Proof.
  unfold add_user_env, PyDict.items, PyDict.wf.
  induction e as [|[k v] e IH] using rev_ind; intros Hnd Hfresh.
  - by rewrite app_nil_r.
  - rewrite keys_app in Hnd. apply NoDup_app in Hnd as (Hnd & Hdisj & _).
    rewrite fold_left_app. simpl. rewrite IH; [|done|].
    + assert (k ∉ PyDict.keys (base ++ e)) as Hk.
      { rewrite keys_app, elem_of_app. intros [Hb|He].
        - apply (Hfresh k); [|done]. rewrite keys_app, elem_of_app.
          right. apply list_elem_of_here.
        - apply (Hdisj _ He). apply list_elem_of_here. }
      rewrite (proj2 (contains_false _ _) Hk).
      rewrite set_fresh by done. by rewrite <- app_assoc.
    + intros k' Hk'. apply Hfresh. rewrite keys_app, elem_of_app. by left.
Qed.

Lemma windows_env_written (e : dict string) :
  no_system_vars e -> PyDict.wf e ->
  add_user_env
    [("SystemRoot", default "C:\Windows" (PyDict.get e "SystemRoot"));
     ("PROGRAMFILES",
      default "C:\Program Files" (PyDict.get e "PROGRAMFILES"))] e
  = [("SystemRoot", "C:\Windows"); ("PROGRAMFILES", "C:\Program Files")] ++ e.
Proof.
  intros Hns Hwf.
  assert ("SystemRoot" ∈ SYSTEM_VARS) as H1 by apply list_elem_of_here.
  assert ("PROGRAMFILES" ∈ SYSTEM_VARS) as H2
    by apply list_elem_of_further, list_elem_of_here.
  rewrite !(no_system_vars_get e) by done.
  simpl default. apply add_user_env_fresh; [done|].
  intros k Hk Hbase. unfold no_system_vars in Hns. rewrite Forall_forall in Hns.
  apply list_elem_of_fmap in Hk as (kv & -> & Hkv). apply (Hns kv Hkv).
  simpl in Hbase. apply elem_of_cons in Hbase as [->|Hbase]; [done|].
  apply list_elem_of_singleton in Hbase as ->. done.
Qed.

(** The confirm flag is not added to arguments that carry it. *)
Lemma confirm_flag_once (cmd : string) (a : list string) :
  let a' := if bool_decide (cmd = "npx") && negb (PyStr.mem "-y" a)
            then "-y" :: a else a in
  bool_decide (cmd = "npx") && negb (PyStr.mem "-y" a') = false.
Proof.
  simpl. destruct (bool_decide (cmd = "npx")) eqn:Ec; [|done]. simpl.
  destruct (PyStr.mem "-y" a) eqn:Ey; simpl.
  - by rewrite Ey.
  - done.
Qed.

Lemma py_or_written (t : Z) : t <> 0 -> py_or (Some t) None = Some t.
Proof. intros. unfold py_or. by rewrite decide_False. Qed.

(** Reading a written entry. *)
Lemma parse_format (is_windows : bool) (c : server) :
  no_system_vars (default [] (env c)) -> PyDict.wf (default [] (env c)) ->
  (is_windows = false -> ~ is_launcher (default "npx" (command c))) ->
  let cmd := default "npx" (command c) in
  let a := default [] (args c) in
  let a' := if bool_decide (cmd = "npx") && negb (PyStr.mem "-y" a)
            then "-y" :: a else a in
  _parse_codex_server (_format_codex_server is_windows c)
  = {| command := Some cmd;
       args := Some a';
       env := Some (default [] (env c));
       timeout_ms := Some (written_timeout c);
       startup_timeout_ms := None;
       server_type := if PyStr.mem "--stdio" a' then Some "stdio" else None |}.
Proof.
  intros Hns Hwf Hl cmd a a'.
  destruct is_windows.
  - unfold _format_codex_server, _parse_codex_server. simpl.
    rewrite windows_env_written by done. simpl.
    rewrite filter_no_system_vars by done.
    fold cmd a. unfold a'.
    by destruct (bool_decide (cmd = "npx") && negb (PyStr.mem "-y" a)).
  - specialize (Hl eq_refl). rewrite launcher_test in Hl.
    apply not_true_is_false in Hl.
    unfold _format_codex_server, _parse_codex_server.
    cbn [command args env timeout_ms startup_timeout_ms server_type
         from_option id].
    fold cmd a. fold cmd in Hl. rewrite Hl. rewrite filter_no_system_vars by done. done.
Qed.

(** Writing what was read from a written entry writes the same again. *)
Lemma format_parse_format (is_windows : bool) (c : server) :
  stable is_windows c ->
  _format_codex_server is_windows
    (_parse_codex_server (_format_codex_server is_windows c))
  = _format_codex_server is_windows c.
Proof.
  intros (Hns & Hwf & Ht & Hl).
  rewrite parse_format by done.
  set (cmd := default "npx" (command c)).
  set (a := default [] (args c)).
  pose proof (confirm_flag_once cmd a) as Hy. simpl in Hy.
  unfold _format_codex_server at 1.
  cbn [command args env timeout_ms startup_timeout_ms server_type
       from_option id].
  rewrite Hy, py_or_written by done.
  cbn [from_option id].
  unfold _format_codex_server. fold cmd a. fold (written_timeout c).
  destruct is_windows; [|done].
  rewrite !windows_env_written by done.
  by destruct (bool_decide (cmd = "npx") && negb (PyStr.mem "-y" a)).
Qed.

(** The confirm flag is not added a second time, whatever the environment
    and the timeout of the entry. *)
Lemma format_parse_format_args (is_windows : bool) (c : server) :
  (is_windows = false -> ~ is_launcher (default "npx" (command c))) ->
  args (_format_codex_server is_windows
          (_parse_codex_server (_format_codex_server is_windows c)))
  = args (_format_codex_server is_windows c).
Proof.
  intros Hl.
  set (cmd := default "npx" (command c)).
  set (a := default [] (args c)).
  pose proof (confirm_flag_once cmd a) as Hy. simpl in Hy.
  destruct is_windows.
  - unfold _format_codex_server, _parse_codex_server.
    cbn [command args env timeout_ms startup_timeout_ms server_type
         from_option id].
    fold cmd a.
    change (negb (bool_decide ("cmd" = "")) &&
            PyStr.mem (PyStr.lower "cmd") ["cmd"; "cmd.exe"]) with true.
    cbn [List.length app Nat.leb List.hd List.nth List.skipn].
    change (PyStr.mem (PyStr.lower "/c") ["/c"; "/k"]) with true.
    cbn [command args from_option id List.skipn List.nth List.hd].
    destruct (bool_decide (cmd = "npx") && negb (PyStr.mem "-y" a)) eqn:E;
      cbn [app] in *; rewrite !skipn_O; by rewrite Hy.
  - specialize (Hl eq_refl). rewrite launcher_test in Hl.
    apply not_true_is_false in Hl. fold cmd in Hl.
    unfold _format_codex_server, _parse_codex_server.
    cbn [command args env timeout_ms startup_timeout_ms server_type
         from_option id].
    fold cmd a. rewrite Hl.
    cbn [command args from_option id]. by rewrite Hy.
Qed.

(** A written and read normal entry has its recognized fields back. *)
Lemma parse_format_normal (is_windows : bool) (c : server) :
  normal is_windows c ->
  let c' := _parse_codex_server (_format_codex_server is_windows c) in
  command c' = command c /\ args c' = args c /\ env c' = env c /\
  timeout_ms c' = timeout_ms c.
Proof.
  intros (cmd & a & e & t & Hc & Ha & He & Hto & Ht0 & Hy & Hns & Hwf & Hl).
  simpl. rewrite parse_format; rewrite ?Hc, ?Ha, ?He; simpl; try done.
  split_and!; try done.
  - destruct (bool_decide (cmd = "npx")) eqn:Ec; [|done].
    apply bool_decide_eq_true in Ec. unfold PyStr.mem.
    by rewrite bool_decide_true by auto.
  - unfold written_timeout. rewrite Hto. unfold py_or.
    by rewrite decide_False.
Qed.

Lemma normal_stable (is_windows : bool) (c : server) :
  normal is_windows c -> stable is_windows c.
Proof.
  intros (cmd & a & e & t & Hc & Ha & He & Hto & Ht0 & Hy & Hns & Hwf & Hl).
  unfold stable, written_timeout. rewrite Hc, He, Hto. simpl.
  split_and!; try done. unfold py_or. by rewrite decide_False.
Qed.


(** *** The loops of [read_config] and [write_config] *)

Lemma put_servers_update (is_windows : bool)
    (mcp_servers : dict toml_entry) (new_servers : dict server) :
  put_servers is_windows mcp_servers new_servers
  = PyDict.update mcp_servers
      (PyDict.map_values
         (fun c => TTable (_format_codex_server is_windows c)) new_servers).
Proof.
  unfold put_servers, PyDict.update, PyDict.items, PyDict.map_values.
  revert mcp_servers.
  induction new_servers as [|kv rest IH]; intros mcp_servers; simpl; [done|].
  apply IH.
Qed.

Lemma read_servers_tables (tables : dict server) :
  read_servers (PyDict.map_values TTable tables)
  = PyDict.update [] (PyDict.map_values _parse_codex_server tables).
Proof.
  unfold read_servers, PyDict.update, PyDict.items, PyDict.map_values.
  generalize (@nil (string * server)).
  induction tables as [|kv rest IH]; intros acc; simpl; [done|].
  apply IH.
Qed.

Lemma filter_filter {A : Type} (f g : A -> bool) (l : list A) :
  List.filter f (List.filter g l) = List.filter (fun x => g x && f x) l.
Proof.
  induction l as [|x l IH]; simpl; [done|].
  destruct (g x); simpl; [|done]. destruct (f x); by rewrite IH.
Qed.

Lemma foldr_del {V : Type} (d : dict V) (ks : list string) :
  foldr (fun k acc => PyDict.del acc k) d ks
  = List.filter (fun kv => negb (bool_decide (kv.1 ∈ ks))) d.
Proof.
  induction ks as [|k ks IH]; cbn [foldr].
  - symmetry. apply filter_all. intros kv _.
    rewrite bool_decide_false; [done | apply not_elem_of_nil].
  - rewrite IH. unfold PyDict.del. rewrite filter_filter.
    apply filter_ext. intros kv.
    destruct (decide (kv.1 = k)) as [->|Hne].
    + rewrite (bool_decide_true (k = k)) by done.
      rewrite (bool_decide_true (k ∈ k :: ks)) by apply list_elem_of_here.
      by rewrite andb_false_r.
    + rewrite (bool_decide_false (kv.1 = k)) by done. rewrite andb_true_r.
      f_equal. apply bool_decide_ext. rewrite elem_of_cons. tauto.
Qed.

(** The removal loop keeps the names of the new servers and no other. *)
Lemma drop_servers_filter
    (mcp_servers : dict toml_entry) (new_servers : dict server) :
  drop_servers mcp_servers new_servers
  = List.filter (fun kv => PyStr.mem kv.1 (PyDict.keys new_servers))
                mcp_servers.
Proof.
  unfold drop_servers. rewrite foldr_del.
  apply filter_ext_in. intros kv Hin. unfold PyStr.mem.
  apply list_elem_of_In in Hin.
  assert (kv.1 ∈ PyDict.keys mcp_servers) as Hk
    by (by apply list_elem_of_fmap_2).
  destruct (decide (kv.1 ∈ PyDict.keys new_servers)) as [Hn|Hn].
  - rewrite (bool_decide_true _ Hn). apply negb_true_iff, bool_decide_eq_false.
    rewrite elem_of_elements, elem_of_difference, !elem_of_list_to_set. tauto.
  - rewrite (bool_decide_false _ Hn). apply negb_false_iff, bool_decide_eq_true.
    rewrite elem_of_elements, elem_of_difference, !elem_of_list_to_set. tauto.
Qed.

(** It binds exactly the names of the new servers, each to the written form
    of its entry. *)
Lemma get_written (is_windows : bool)
    (mcp_servers : dict toml_entry) (new_servers : dict server) (n : string) :
  PyDict.wf new_servers ->
  PyDict.get (written is_windows mcp_servers new_servers) n
  = (fun c => TTable (_format_codex_server is_windows c))
      <$> PyDict.get new_servers n.
Proof.
  intros Hwf. unfold written.
  rewrite drop_servers_filter, put_servers_update.
  rewrite (get_filter_keys (fun k => PyStr.mem k (PyDict.keys new_servers))).
  rewrite get_update by by apply wf_map_values.
  rewrite get_map_values. unfold PyStr.mem.
  destruct (PyDict.get new_servers n) as [c|] eqn:E; simpl.
  - rewrite bool_decide_true; [done | by eapply get_Some_keys].
  - rewrite bool_decide_false; [done | by apply get_None_keys].
Qed.

Lemma wf_written (is_windows : bool)
    (mcp_servers : dict toml_entry) (new_servers : dict server) :
  PyDict.wf mcp_servers ->
  PyDict.wf (written is_windows mcp_servers new_servers).
Proof.
  intros Hwf. unfold written. rewrite drop_servers_filter, put_servers_update.
  by apply wf_filter, wf_update.
Qed.

(** A dictionary of tables only is the image of a dictionary of servers. *)
Lemma all_tables (P : string -> server -> Prop) (m : dict toml_entry) :
  (forall n v, (n, v) ∈ m -> exists s, v = TTable s /\ P n s) ->
  exists tables, m = PyDict.map_values TTable tables /\
                 forall n s, (n, s) ∈ tables -> P n s.
Proof.
  induction m as [|[n v] m IH]; intros H.
  - exists []. split; [done|]. intros n s Hin. by apply elem_of_nil in Hin.
  - destruct (H n v) as (s & -> & Hs); [apply list_elem_of_here|].
    destruct IH as (tables & -> & Ht).
    { intros n' v' Hin. apply H. by apply list_elem_of_further. }
    exists ((n, s) :: tables). split; [done|].
    intros n' s' Hin. apply elem_of_cons in Hin as [[= -> ->]|Hin]; auto.
Qed.

Lemma written_tables (is_windows : bool)
    (mcp_servers : dict toml_entry) (new_servers : dict server) :
  PyDict.wf mcp_servers -> PyDict.wf new_servers ->
  exists tables,
    written is_windows mcp_servers new_servers
      = PyDict.map_values TTable tables /\
    PyDict.wf tables /\
    forall n s, (n, s) ∈ tables ->
      exists c, PyDict.get new_servers n = Some c /\
                s = _format_codex_server is_windows c.
Proof.
  intros Hm Hn.
  pose proof (wf_written is_windows mcp_servers new_servers Hm) as Hwf.
  destruct (all_tables
    (fun n s => exists c, PyDict.get new_servers n = Some c /\
                          s = _format_codex_server is_windows c)
    (written is_windows mcp_servers new_servers)) as (tables & Heq & Ht).
  { intros n v Hin. apply elem_of_get in Hin; [|done].
    rewrite get_written in Hin by done.
    destruct (PyDict.get new_servers n) as [c|]; [|done].
    injection Hin as <-. eauto. }
  exists tables. split_and!; try done.
  rewrite Heq in Hwf. unfold PyDict.wf in *.
  by rewrite keys_map_values in Hwf.
Qed.

(** Writing back what is read from a table of stable written entries leaves
    the table as it is. *)
Lemma written_again (is_windows : bool) (tables : dict server) :
  PyDict.wf tables ->
  (forall n s, (n, s) ∈ tables ->
     exists c, s = _format_codex_server is_windows c /\ stable is_windows c) ->
  written is_windows (PyDict.map_values TTable tables)
          (read_servers (PyDict.map_values TTable tables))
  = PyDict.map_values TTable tables.
Proof.
  intros Hwf Hst. rewrite read_servers_tables.
  rewrite update_nil by by apply wf_map_values.
  unfold written. rewrite drop_servers_filter, put_servers_update.
  rewrite update_same.
  - apply filter_all. intros [n v] Hin. unfold PyStr.mem.
    apply bool_decide_eq_true. rewrite keys_map_values.
    rewrite <- (keys_map_values TTable). by apply (list_elem_of_fmap_2 fst) in Hin.
  - intros n v Hin.
    apply elem_of_map_values in Hin as (c' & -> & Hin).
    apply elem_of_map_values in Hin as (s & -> & Hin).
    destruct (Hst n s Hin) as (c & -> & Hc).
    rewrite format_parse_format by done.
    rewrite get_map_values. by rewrite (elem_of_get _ _ _ Hwf Hin).
Qed.

End CodexWriteFacts.

(** ** Round trip through the Codex file *)

Module CodexRoundTrip.
Import CodexConfig Spec Samples PyDictFacts CodexParseFacts CodexWriteFacts.

(** *** Files and directories *)

Lemma filter_nothing {A : Type} (f : A -> bool) (l : list A) :
  (forall x, x ∈ l -> f x = false) -> List.filter f l = [].
Proof.
  induction l as [|x l IH]; intros H; [done|]. simpl.
  rewrite (H x) by apply list_elem_of_here.
  apply IH. intros y Hy. apply H. by apply list_elem_of_further.
Qed.

Lemma below_irrefl (p : Path) : below p p = false.
Proof. unfold below. by rewrite (bool_decide_true (p = p)), andb_false_r. Qed.

Lemma existsb_insert (f : Path * content -> bool) (fs : files) (p : Path)
    (c : content) :
  (forall c', f (p, c') = false) ->
  existsb f (map_to_list (<[p := c]> fs)) = existsb f (map_to_list fs).
Proof.
  intros Hp. apply Bool.eq_iff_eq_true. rewrite !existsb_exists.
  split; intros ([k v] & Hin & Hf); exists (k, v); (split; [|done]);
    apply list_elem_of_In, elem_of_map_to_list;
    apply list_elem_of_In, elem_of_map_to_list in Hin;
    (destruct (decide (k = p)) as [->|Hne]; [by rewrite Hp in Hf|]).
  - by rewrite lookup_insert_ne in Hin.
  - by rewrite lookup_insert_ne.
Qed.

Lemma can_write_insert (fs : files) (p : Path) (c : content) :
  can_write (<[p := c]> fs) p = can_write fs p.
Proof.
  unfold can_write, under_file, is_dir.
  rewrite !(existsb_insert _ fs p c); [done| |];
    intros c'; apply below_irrefl.
Qed.

Lemma path_exists_file (fs : files) (p : Path) (c : content) :
  fs !! p = Some c -> path_exists fs p = true.
Proof.
  intros H. unfold path_exists. rewrite bool_decide_true; [done | by eexists].
Qed.

(** The document of an existing file is kept only when the file is a TOML
    document. *)
Lemma load_doc_inv (fs : files) (path : Path) (preserve_existing : bool)
    (doc : toml_doc) (k : string) (v : toml_item) :
  load_doc fs path preserve_existing = Some doc ->
  PyDict.get doc k = Some v ->
  fs !! path = Some (TomlText doc).
Proof.
  unfold load_doc.
  destruct (preserve_existing && path_exists fs path);
    [|by intros [= <-]].
  destruct (fs !! path) as [[]|]; intros [= <-]; done.
Qed.

(** What a successful [write_config] leaves at [path]: the servers as
    written, in the servers table of the document it started from; in an
    inline table only when there is no server to write. *)
Lemma write_config_success (is_windows : bool) (fs : files) (path : Path)
    (config : json_doc) (preserve_existing : bool) (fs1 : files) :
  wf_table fs path ->
  write_config is_windows fs path config preserve_existing = (fs1, true) ->
  exists doc (table : dict toml_entry -> toml_item) mcp_servers,
    (table = TServers \/ table = TInline /\ get_mcpServers config = []) /\
    load_doc fs path preserve_existing = Some doc /\
    (PyDict.get doc "mcp_servers" = Some (table mcp_servers) \/
     PyDict.get doc "mcp_servers" = None /\ mcp_servers = []) /\
    PyDict.wf mcp_servers /\
    can_write fs path = true /\
    fs1 = <[path :=
              TomlText (PyDict.set doc "mcp_servers"
                 (table (written is_windows mcp_servers
                                 (get_mcpServers config))))]> fs.
Proof.
  intros Hwf. unfold write_config, write_doc.
  destruct (load_doc fs path preserve_existing) as [doc0|] eqn:El; [|done].
  unfold PyDict.contains.
  destruct (PyDict.get doc0 "mcp_servers") as [[m|m|raw]|] eqn:Eg.
  - rewrite Eg. destruct (can_write fs path) eqn:Ew; intros [= <-].
    exists doc0, TServers, m. split_and!; eauto.
    eapply (Hwf doc0); [by eapply load_doc_inv | by left].
  - rewrite Eg. destruct (get_mcpServers config) as [|kv rest] eqn:Ec; [|done].
    destruct (can_write fs path) eqn:Ew; intros [= <-].
    exists doc0, TInline, m. split_and!; eauto.
    eapply (Hwf doc0); [by eapply load_doc_inv | by right].
  - by rewrite Eg.
  - rewrite get_set_hit. destruct (can_write fs path) eqn:Ew; intros [= <-].
    exists doc0, TServers, []. split_and!; eauto; [apply NoDup_nil_2|].
    by rewrite set_set.
Qed.

(** C2, as amended: after a successful write of a configuration to a Codex
    file, reading the file gives, under every name, the entry as written and
    read; a normal entry has its command, args, env and timeout back; writing
    an entry that was read back adds no second confirm flag to its arguments;
    and when every entry is stable, writing what was read leaves the file as
    the first write left it. *)
Theorem codex_round_trip (is_windows : bool) (fs : files) (path : Path)
    (config : dict server) (preserve_existing : bool) (fs1 : files) :
  PyDict.wf config -> wf_table fs path ->
  write_config is_windows fs path (servers_doc config) preserve_existing
    = (fs1, true) ->
  let back := get_mcpServers (read_config fs1 path) in
  (forall n,
     PyDict.get back n
     = (fun c => _parse_codex_server (_format_codex_server is_windows c))
         <$> PyDict.get config n) /\
  (forall n c, PyDict.get config n = Some c -> normal is_windows c ->
     exists c', PyDict.get back n = Some c' /\
       command c' = command c /\ args c' = args c /\ env c' = env c /\
       timeout_ms c' = timeout_ms c) /\
  (forall n c c', PyDict.get config n = Some c -> PyDict.get back n = Some c' ->
     (is_windows = false -> ~ is_launcher (default "npx" (command c))) ->
     args (_format_codex_server is_windows c')
     = args (_format_codex_server is_windows c)) /\
  ((forall n c, PyDict.get config n = Some c -> stable is_windows c) ->
   write_config is_windows fs1 path (servers_doc back) true = (fs1, true)).
Proof.
  intros Hc Hfs Hw.
  destruct (write_config_success _ _ _ _ _ _ Hfs Hw)
    as (doc & table & m0 & Htable & _ & _ & Hm0 & Hcw & ->).
  change (get_mcpServers (servers_doc config)) with config in *.
  destruct (written_tables is_windows m0 config Hm0 Hc)
    as (tables & Heq & Htwf & Ht).
  assert (get_mcpServers
            (read_config
               (<[path := TomlText (PyDict.set doc "mcp_servers"
                    (table (written is_windows m0 config)))]> fs) path)
          = PyDict.map_values _parse_codex_server tables) as Hback.
  { unfold read_config. rewrite lookup_insert_eq, get_set_hit.
    assert (servers_doc (read_servers (written is_windows m0 config))
            = servers_doc (PyDict.map_values _parse_codex_server tables))
      as Hread.
    { rewrite Heq, read_servers_tables.
      by rewrite update_nil by by apply wf_map_values. }
    by destruct Htable as [->|[-> _]]; rewrite Hread. }
  assert (forall n, PyDict.get tables n
            = _format_codex_server is_windows <$> PyDict.get config n) as Hget.
  { intros n.
    pose proof (get_written is_windows m0 config n Hc) as Hg.
    rewrite Heq, get_map_values in Hg.
    destruct (PyDict.get tables n), (PyDict.get config n);
      simpl in *; congruence. }
  assert (forall n,
     PyDict.get (PyDict.map_values _parse_codex_server tables) n
     = (fun c => _parse_codex_server (_format_codex_server is_windows c))
         <$> PyDict.get config n) as Hround.
  { intros n. rewrite get_map_values, Hget.
    by destruct (PyDict.get config n). }
  simpl. rewrite Hback. split_and!.
  - done.
  - intros n c Hn Hnormal. rewrite Hround, Hn. simpl. eexists. split; [done|].
    by apply parse_format_normal.
  - intros n c c' Hn Hn' Hl. rewrite Hround, Hn in Hn'. injection Hn' as <-.
    by apply format_parse_format_args.
  - intros Hst.
    assert (written is_windows (PyDict.map_values TTable tables)
              (PyDict.map_values _parse_codex_server tables)
            = PyDict.map_values TTable tables) as Hagain.
    { replace (PyDict.map_values _parse_codex_server tables)
        with (read_servers (PyDict.map_values TTable tables)).
      2:{ rewrite read_servers_tables.
          by rewrite update_nil by by apply wf_map_values. }
      apply written_again; [done|].
      intros n s Hin. destruct (Ht n s Hin) as (c & Hn & ->). eauto. }
    unfold written in Hagain.
    unfold write_config, load_doc, write_doc.
    rewrite (path_exists_file _ _ _ (lookup_insert_eq _ _ _)).
    rewrite lookup_insert_eq. cbn [andb]. unfold PyDict.contains.
    rewrite !get_set_hit.
    change (get_mcpServers (servers_doc ?x)) with x.
    rewrite can_write_insert, Hcw.
    destruct Htable as [->|[-> ->]].
    + rewrite Heq, Hagain.
      by rewrite set_set, insert_insert_eq.
    + assert (tables = []) as ->.
      { unfold written in Heq. rewrite drop_servers_filter in Heq.
        cbn [PyDict.keys map] in Heq.
        rewrite (filter_nothing _ _) in Heq;
          [by destruct tables | intros kv _; done]. }
      cbn [PyDict.map_values map]. rewrite Heq.
      unfold drop_servers. cbn [PyDict.keys map list_to_set].
      rewrite difference_diag_L, elements_empty. cbn [foldr].
      by rewrite set_set, insert_insert_eq.
Qed.

Lemma sample_entry_normal : normal true sample_entry.
Proof.
  exists "npx", ["-y"; "pkg"], [("API_KEY", "secret")], 30000.
  split_and!; try done.
  - intros _. apply list_elem_of_here.
  - repeat constructor. simpl. unfold SYSTEM_VARS.
    rewrite !elem_of_cons, elem_of_nil. intros [H|[H|[H|[]]]]; discriminate H.
  - apply NoDup_singleton.
Qed.

Lemma codex_round_trip_witness :
  let back := get_mcpServers (read_config sample_written ["config.toml"]) in
  (exists c', PyDict.get back "srv" = Some c' /\
     command c' = command sample_entry /\ args c' = args sample_entry /\
     env c' = env sample_entry /\ timeout_ms c' = timeout_ms sample_entry) /\
  write_config true sample_written ["config.toml"] (servers_doc back) true
    = (sample_written, true).
Proof.
  assert (PyDict.wf sample_config) as Hwf by apply NoDup_singleton.
  assert (wf_table ∅ ["config.toml"]) as Hfs.
  { intros doc m H. by rewrite lookup_empty in H. }
  assert (write_config true ∅ ["config.toml"] (servers_doc sample_config) true
          = (sample_written, true)) as Hw by reflexivity.
  destruct (codex_round_trip true ∅ ["config.toml"] sample_config true
              sample_written Hwf Hfs Hw) as (_ & Hnormal & _ & Hstable).
  split.
  - apply (Hnormal "srv" sample_entry); [reflexivity|].
    apply sample_entry_normal.
  - apply Hstable. intros n c Hn. simpl in Hn.
    case_decide; [|done]. injection Hn as <-.
    apply normal_stable, sample_entry_normal.
Defined.

(** C2 as stated fails twice over: what is read back has the confirm flag
    that the configuration did not have, and for the launcher entry the
    second write differs from the first. *)
Lemma codex_round_trip_fails :
  (args <$> PyDict.get npx_without_flag "s" = Some (Some ["pkg"]) /\
   args <$> PyDict.get
     (get_mcpServers
        (read_config (first_write npx_without_flag) ["config.toml"])) "s"
   = Some (Some ["-y"; "pkg"])) /\
  (first_write launcher_entry !! ["config.toml"]
   = Some (TomlText [("mcp_servers", TServers [("w", TTable
       {| command := Some "cmd"; args := Some ["/c"; "npx"; "pkg"];
          env := Some []; timeout_ms := None;
          startup_timeout_ms := Some 60000; server_type := None |})])]) /\
   second_write launcher_entry !! ["config.toml"]
   = Some (TomlText [("mcp_servers", TServers [("w", TTable
       {| command := Some "npx"; args := Some ["-y"; "pkg"];
          env := Some []; timeout_ms := None;
          startup_timeout_ms := Some 60000; server_type := None |})])])).
Proof. split; split; reflexivity. Qed.

End CodexRoundTrip.

(** ** The sync engine: formats, the change plan, the runs that do nothing *)

Module DirectSyncFacts.
Import DirectSyncEngine Spec Samples PyDictFacts CodexWriteFacts CodexRoundTrip.

Lemma infer_format_idem (given : option string) (path : Path) :
  infer_format (Some (infer_format given path)) path = infer_format given path.
Proof. done. Qed.


Example suffix_examples :
  path_suffix [""; "home"; "u"; ".codex"; "config.toml"] = ".toml" /\
  path_suffix ["config.TOML"] = ".TOML" /\
  path_suffix ["config"] = "" /\
  path_suffix ["mcp.json"] = ".json" /\
  path_suffix [".toml"] = "" /\
  infer_format None ["config.TOML"] = "json" /\
  infer_format None ["config"] = "json" /\
  infer_format None [".toml"] = "json" /\
  infer_format (Some "toml") ["mcp.json"] = "toml".
Proof. repeat split. Qed.


(** *** The ways through a run *)

(** A run in terms of what it reads. *)
Lemma sync_paths_reads (e : environ) (w : world)
    (source_path target_path : Path) (source_id target_id : string)
    (source_format target_format : option string) (dry_run : bool) :
  _sync_paths e w source_path target_path source_id target_id
              source_format target_format dry_run
  = match read_at w source_path source_format with
    | Raises x => (w, Raised x)
    | Returns source_value =>
        if no_servers source_value then
          (w, Failed ("No MCP servers found in source: "
                      +:+ path_str source_path))
        else
          match read_at w target_path target_format with
          | Raises x => (w, Raised x)
          | Returns target_value =>
              match with_keys source_value, with_keys target_value with
              | Returns source_servers, Returns target_servers =>
                  _sync_paths e w source_path target_path source_id target_id
                              source_format target_format dry_run
              | _, _ => (w, Raised AttributeError)
              end
          end
    end.
Proof.
  unfold _sync_paths, try_step, read_at.
  destruct (TomlConfigManager.read_config (disk w) source_path _)
    as [source_data|x]; [|done].
  destruct (get_servers source_data) as [source_value|x]; [|done].
  destruct (no_servers source_value); [done|].
  destruct (TomlConfigManager.read_config (disk w) target_path _)
    as [target_data|x]; [|done].
  destruct (get_servers target_data) as [target_value|x]; [|done].
  by destruct source_value, target_value.
Qed.

Lemma servers_at_read (w : world) (path : Path) (given : option string)
    (servers : dict server) :
  read_at w path given = Returns (Servers servers) ->
  servers_at w path given = servers /\ readable w path given.
Proof. intros H. unfold servers_at, readable. rewrite H. eauto. Qed.

Lemma servers_at_readable (w : world) (path : Path) (given : option string) :
  servers_at w path given <> [] -> readable w path given.
Proof.
  unfold servers_at, readable.
  destruct (read_at w path given) as [[servers|t]|x]; try done. eauto.
Qed.

(** The ways through [_sync_paths]: an exception of reading, the failure of
    a source without servers, the plan of a dry run, and the run that backs
    up and writes. *)
Lemma sync_cases (e : environ) (w : world)
    (source_path target_path : Path) (source_id target_id : string)
    (source_format target_format : option string) (dry_run : bool) :
  let r := _sync_paths e w source_path target_path source_id target_id
                       source_format target_format dry_run in
  let source_servers := servers_at w source_path source_format in
  let target_servers := servers_at w target_path target_format in
  let A := servers_to_add source_servers target_servers in
  let U := servers_to_update source_servers target_servers in
  let R := servers_to_remove source_servers target_servers in
  let saved :=
    if path_exists (disk w) target_path
    then BackupManager.backup_file (backup_root e) (home e) (now e)
                                   (disk w) (backups w) target_path
    else (backups w, None) in
  let wrote :=
    TomlConfigManager.write_config (is_windows e) (disk w) target_path
      (servers_doc (merge_servers source_servers target_servers))
      (infer_format target_format target_path) true in
  (exists x, r = (w, Raised x) /\
     (~ readable w source_path source_format \/
      ~ readable w target_path target_format)) \/
  ((exists v, read_at w source_path source_format = Returns v /\
              no_servers v = true) /\
   r = (w, Failed ("No MCP servers found in source: "
                   +:+ path_str source_path))) \/
  (source_servers <> [] /\ readable w target_path target_format /\
   dry_run = true /\
   r = (w, Preview (path_str source_path) (path_str target_path)
             (sorted_names A) (sorted_names U) (sorted_names R)
             (size A + size U + size R))) \/
  (source_servers <> [] /\ readable w target_path target_format /\
   dry_run = false /\
   r = ({| disk := wrote.1; backups := saved.1 |},
        if wrote.2
        then Synced (path_str source_path) (path_str target_path)
               (path_str <$> saved.2)
               (sorted_names A) (sorted_names U) (sorted_names R)
               (size A + size U + size R)
        else Failed ("Failed to write target configuration: "
                     +:+ path_str target_path))).
Proof.
  intros r source_servers target_servers A U R saved wrote.
  unfold r. rewrite sync_paths_reads.
  destruct (read_at w source_path source_format) as [sv|x] eqn:Es.
  2:{ left. exists x. split; [done|]. left. intros [s Hs].
      unfold read_at in *. congruence. }
  destruct (no_servers sv) eqn:En.
  { right. left. eauto. }
  destruct (read_at w target_path target_format) as [tv|x] eqn:Et.
  2:{ left. exists x. split; [done|]. right. intros [s Hs]. congruence. }
  destruct sv as [S|ts]; cbn [with_keys].
  2:{ left. exists AttributeError. split; [done|]. left.
      intros [s Hs]. congruence. }
  destruct tv as [T|tt]; cbn [with_keys].
  2:{ left. exists AttributeError. split; [done|]. right.
      intros [s Hs]. congruence. }
  destruct (servers_at_read _ _ _ _ Es) as [HS _].
  destruct (servers_at_read _ _ _ _ Et) as [HT Hrt].
  assert (source_servers <> []) as Hne.
  { unfold source_servers. rewrite HS. by destruct S. }
  right. right.
  unfold _sync_paths, try_step.
  unfold read_at in Es, Et.
  destruct (TomlConfigManager.read_config (disk w) source_path _)
    as [source_data|x]; [|done].
  rewrite Es, En.
  destruct (TomlConfigManager.read_config (disk w) target_path _)
    as [target_data|x]; [|done].
  rewrite Et. cbn [with_keys].
  fold source_servers target_servers in HS, HT. rewrite <- HS, <- HT.
  cbv zeta. fold A U R.
  destruct dry_run; [left; by split_and! | right].
  split_and!; [done|done|done|].
  assert (exists w' b,
    (if path_exists (disk w) target_path
     then backup_before_sync e w target_path
     else (w, None)) = (w', b) /\ disk w' = disk w /\
    saved = (backups w', b)) as (w' & b & -> & Hd & ->).
  { unfold saved, backup_before_sync.
    destruct (path_exists (disk w) target_path).
    - destruct (BackupManager.backup_file _ _ _ _ _ _) as [st b]. eauto.
    - eauto. }
  rewrite Hd. fold wrote. destruct wrote as [disk' ok]. by destruct ok.
Qed.

(** *** A source without servers *)

(** C4: where it holds and where the code departs from it.  A source that
    is read as no servers makes the sync fail with the message that no
    servers were found, and the world is the one it was given: the target is
    not written and no backup is made.  That is so for every source read as
    TOML and for a JSON source that is missing, is no JSON text, or is an
    object without servers.  A JSON source that is no object makes
    [source_data.get] raise, and one whose bytes do not decode makes the
    reader raise: the call returns no result, the world still being the one
    it was given. *)
Theorem sync_source_without_servers (e : environ) (w : world)
    (source_path target_path : Path) (source_id target_id : string)
    (source_format target_format : option string) (dry_run : bool) :
  let r := _sync_paths e w source_path target_path source_id target_id
                       source_format target_format dry_run in
  let fails :=
    (w, Failed ("No MCP servers found in source: "
                +:+ path_str source_path)) in
  (readable w source_path source_format ->
   servers_at w source_path source_format = [] -> r = fails) /\
  (infer_format source_format source_path = "toml" ->
   servers_at w source_path source_format = [] -> r = fails) /\
  (infer_format source_format source_path <> "toml" ->
   match disk w !! source_path with
   | None => r = fails
   | Some (TomlText _) => r = fails
   | Some (Garbage _) => r = fails
   | Some (JsonText j) => get_mcpServers j = [] -> r = fails
   | Some (JsonOdd truthy _) => truthy = false -> r = fails
   | Some (JsonValue _) => r = (w, Raised AttributeError)
   | Some (Undecodable _) => r = (w, Raised UnicodeDecodeError)
   end) /\
  (is_Some (disk w !! source_path) ->
   sync_by_path e w source_path target_path source_format target_format
                dry_run
   = _sync_paths e w source_path target_path
       (path_str source_path) (path_str target_path)
       source_format target_format dry_run).
Proof.
  intros r fails.
  assert (forall v, read_at w source_path source_format = Returns v ->
                    no_servers v = true -> r = fails) as Hfails.
  { intros v Hv Hn. unfold r. rewrite sync_paths_reads. by rewrite Hv, Hn. }
  split_and!.
  - intros [s Hs] Hempty. destruct (servers_at_read _ _ _ _ Hs) as [<- _].
    apply (Hfails _ Hs). by rewrite Hempty.
  - intros Hfmt Hempty. unfold servers_at in Hempty.
    assert (exists s, read_at w source_path source_format
                      = Returns (Servers s)) as [s Hs].
    { unfold read_at, TomlConfigManager.read_config.
      rewrite decide_True by done. simpl. eauto. }
    rewrite Hs in Hempty. subst s. by apply (Hfails _ Hs).
  - intros Hfmt.
    assert (read_at w source_path source_format
            = match disk w !! source_path with
              | Some (JsonText j) => Returns (Servers (get_mcpServers j))
              | Some (JsonOdd truthy _) => Returns (OddServers truthy)
              | Some (JsonValue _) => Raises AttributeError
              | Some (Undecodable _) => Raises UnicodeDecodeError
              | _ => Returns (Servers [])
              end) as Hread.
    { unfold read_at, TomlConfigManager.read_config.
      rewrite decide_False by done.
      by destruct (disk w !! source_path) as [[]|]. }
    destruct (disk w !! source_path) as [[j|truthy raw|raw|doc|raw|raw]|].
    + intros Hj. apply (Hfails _ Hread). simpl. by rewrite Hj.
    + intros ->. by apply (Hfails _ Hread).
    + unfold r. rewrite sync_paths_reads. by rewrite Hread.
    + by apply (Hfails _ Hread).
    + by apply (Hfails _ Hread).
    + unfold r. rewrite sync_paths_reads. by rewrite Hread.
    + by apply (Hfails _ Hread).
  - intros [c Hc]. unfold sync_by_path.
    rewrite (path_exists_file _ _ _ Hc). cbn [negb].
    unfold _sync_paths. by rewrite !infer_format_idem.
Qed.

Lemma sync_source_without_servers_witness :
  _sync_paths test_environ list_source ["src.json"] ["tgt.json"]
              "src" "tgt" None None false
  = (list_source, Raised AttributeError) /\
  sync_by_path test_environ list_source ["src.json"] ["tgt.json"]
               None None false
  = (list_source, Raised AttributeError) /\
  _sync_paths test_environ (json_world [] []) ["src.json"] ["tgt.json"]
              "src" "tgt" None None false
  = (json_world [] [],
     Failed "No MCP servers found in source: src.json").
Proof.
  split_and!.
  - apply (proj1 (proj2 (proj2
      (sync_source_without_servers test_environ list_source ["src.json"]
         ["tgt.json"] "src" "tgt" None None false)))).
    discriminate.
  - rewrite (proj2 (proj2 (proj2
      (sync_source_without_servers test_environ list_source ["src.json"]
         ["tgt.json"] "src" "tgt" None None false)))) by by eexists.
    apply (proj1 (proj2 (proj2
      (sync_source_without_servers test_environ list_source ["src.json"]
         ["tgt.json"] "src.json" "tgt.json" None None false)))).
    discriminate.
  - apply (proj1
      (sync_source_without_servers test_environ (json_world [] [])
         ["src.json"] ["tgt.json"] "src" "tgt" None None false));
      [by eexists | reflexivity].
Defined.

Lemma elem_of_filter_set (f : string -> bool) (l : list string) (x : string) :
  x ∈ (list_to_set (List.filter f l) : gset string) <-> x ∈ l /\ f x = true.
Proof.
  rewrite elem_of_list_to_set, !list_elem_of_In. apply filter_In.
Qed.

Lemma sorted_names_perm (names : gset string) :
  sorted_names names ≡ₚ elements names.
Proof. apply merge_sort_Permutation. Qed.


(** C3: the names to add, to update and to remove and the unchanged names
    are pairwise disjoint, and together they are the names of the source and
    of the target; the names to update are those bound in both to entries
    that differ. *)
Theorem plan_partition (source_servers target_servers : dict server) :
  let A := servers_to_add source_servers target_servers in
  let U := servers_to_update source_servers target_servers in
  let R := servers_to_remove source_servers target_servers in
  let N := unchanged source_servers target_servers in
  A = names source_servers ∖ names target_servers /\
  R = names target_servers ∖ names source_servers /\
  (forall n, n ∈ U <->
     n ∈ names source_servers ∩ names target_servers /\
     exists a b, PyDict.get source_servers n = Some a /\
                 PyDict.get target_servers n = Some b /\
                 server_eqb a b = false) /\
  A ## U /\ A ## R /\ A ## N /\ U ## R /\ U ## N /\ R ## N /\
  A ∪ U ∪ R ∪ N = names source_servers ∪ names target_servers.
Proof.
  intros A U R N.
  assert (forall n, n ∈ A <->
            n ∈ PyDict.keys source_servers /\ n ∉ PyDict.keys target_servers)
    as HA.
  { intros n. unfold A, servers_to_add.
    by rewrite elem_of_difference, !elem_of_list_to_set. }
  assert (forall n, n ∈ R <->
            n ∈ PyDict.keys target_servers /\ n ∉ PyDict.keys source_servers)
    as HR.
  { intros n. unfold R, servers_to_remove.
    by rewrite elem_of_difference, !elem_of_list_to_set. }
  assert (forall n, n ∈ U <->
            n ∈ PyDict.keys source_servers /\ n ∈ PyDict.keys target_servers /\
            exists a b, PyDict.get source_servers n = Some a /\
                        PyDict.get target_servers n = Some b /\
                        server_eqb a b = false) as HU.
  { intros n. unfold U, servers_to_update. rewrite elem_of_filter_set.
    rewrite andb_true_iff, contains_keys. unfold differs. split.
    - intros (Hs & Ht & Hd). split_and!; try done.
      destruct (PyDict.get source_servers n) as [a|]; [|done].
      destruct (PyDict.get target_servers n) as [b|]; [|done].
      exists a, b. split_and!; try done. by apply negb_true_iff.
    - intros (Hs & Ht & a & b & Ha & Hb & Hab).
      split_and!; try done. by rewrite Ha, Hb, Hab. }
  assert (forall n, n ∈ N <->
            n ∈ PyDict.keys source_servers /\ n ∈ PyDict.keys target_servers /\
            exists a b, PyDict.get source_servers n = Some a /\
                        PyDict.get target_servers n = Some b /\
                        server_eqb a b = true) as HN.
  { intros n. unfold N, unchanged. rewrite elem_of_filter_set. split.
    - intros (Hs & Hd). 
      destruct (PyDict.get source_servers n) as [a|] eqn:Ea; [|done].
      destruct (PyDict.get target_servers n) as [b|] eqn:Eb; [|done].
      split_and!; try done; [by eapply get_Some_keys|]. by exists a, b.
    - intros (Hs & Ht & a & b & Ha & Hb & Hab).
      split; [done|]. by rewrite Ha, Hb. }
  assert (forall n, n ∈ names source_servers <-> n ∈ PyDict.keys source_servers)
    as Hns by (intros; apply elem_of_list_to_set).
  assert (forall n, n ∈ names target_servers <-> n ∈ PyDict.keys target_servers)
    as Hnt by (intros; apply elem_of_list_to_set).
  split_and!.
  - done.
  - done.
  - intros n. rewrite HU, elem_of_intersection, Hns, Hnt. tauto.
  - intros n. rewrite HA, HU. tauto.
  - intros n. rewrite HA, HR. tauto.
  - intros n. rewrite HA, HN. tauto.
  - intros n. rewrite HU, HR. tauto.
  - intros n. rewrite HU, HN.
    intros (_ & _ & a & b & Ha & Hb & Hab) (_ & _ & a' & b' & Ha' & Hb' & Hab').
    congruence.
  - intros n. rewrite HR, HN. tauto.
  - apply set_eq. intros n.
    rewrite !elem_of_union, HA, HU, HR, HN, Hns, Hnt. split.
    + tauto.
    + intros Hn.
      destruct (decide (n ∈ PyDict.keys source_servers)) as [Hs|Hs];
      destruct (decide (n ∈ PyDict.keys target_servers)) as [Ht|Ht];
        try tauto.
      pose proof Hs as Hs'. pose proof Ht as Ht'.
      apply keys_get in Hs' as [a Ha]. apply keys_get in Ht' as [b Hb].
      destruct (server_eqb a b) eqn:Hab.
      * right. split_and!; try done. by exists a, b.
      * left. left. right. split_and!; try done. by exists a, b.
Qed.



(** *** What a run writes *)

Lemma wf_read_servers (mcp_servers : dict toml_entry) :
  PyDict.wf (CodexConfig.read_servers mcp_servers).
Proof.
  unfold CodexConfig.read_servers, PyDict.items.
  assert (PyDict.wf (@nil (string * server))) as Hnil by apply NoDup_nil_2.
  revert Hnil. generalize (@nil (string * server)).
  induction mcp_servers as [|[n v] m IH]; intros acc Hacc; simpl; [done|].
  apply IH. destruct v; [by apply wf_set | done].
Qed.

Lemma wf_read_toml (fs : files) (path : Path) :
  PyDict.wf (get_mcpServers (CodexConfig.read_config fs path)).
Proof.
  unfold CodexConfig.read_config.
  destruct (fs !! path) as [[]|]; try apply NoDup_nil_2.
  destruct (PyDict.get _ "mcp_servers") as [[m|m|raw]|];
    try apply NoDup_nil_2; apply wf_read_servers.
Qed.

(** The servers read from a Codex file bind no name twice. *)
Lemma wf_servers_at_toml (w : world) (path : Path) (given : option string) :
  infer_format given path = "toml" -> PyDict.wf (servers_at w path given).
Proof.
  intros Hfmt. unfold servers_at, read_at, TomlConfigManager.read_config.
  rewrite decide_True by done. apply wf_read_toml.
Qed.

Lemma merged_nonempty (source_servers target_servers : dict server) :
  source_servers <> [] -> merge_servers source_servers target_servers <> [].
Proof.
  destruct source_servers as [|[k v] rest]; [done|]. intros _ Hm.
  assert (k ∈ PyDict.keys (merge_servers ((k, v) :: rest) target_servers))
    as Hin.
  { apply keys_get. clear Hm. unfold merge_servers, PyDict.update, PyDict.items.
    cbn [fold_left fst snd].
    assert (is_Some (PyDict.get (PyDict.set target_servers k v) k)) as Hk
      by (rewrite get_set_hit; by eexists).
    revert Hk. generalize (PyDict.set target_servers k v).
    induction rest as [|[k' v'] rest IH]; intros d Hk; [done|].
    cbn [fold_left fst snd]. apply IH. rewrite get_set.
    case_decide; [by eexists | done]. }
  rewrite Hm in Hin. by apply elem_of_nil in Hin.
Qed.

(** A Codex file that is ready is written. *)
Lemma codex_ready_written (is_windows : bool) (fs : files) (path : Path)
    (config : json_doc) :
  codex_ready fs path ->
  (CodexConfig.write_config is_windows fs path config true).2 = true.
Proof.
  intros [Hcw Hfile].
  unfold CodexConfig.write_config, CodexConfig.load_doc,
    CodexConfig.write_doc.
  rewrite Hcw. unfold path_exists.
  destruct (fs !! path) as [c|] eqn:Ef.
  - rewrite bool_decide_true by by eexists. cbn [andb orb].
    destruct c as [j|truthy raw|raw|doc|raw|raw]; try done;
      unfold PyDict.contains; cbn [PyDict.get]; try done.
    destruct (PyDict.get doc "mcp_servers") as [[m|m|raw]|] eqn:Eg;
      try done.
    + by rewrite Eg.
    + by rewrite get_set_hit.
  - rewrite bool_decide_false by by intros [? ?]. cbn [orb andb].
    assert (is_dir fs path = false) as ->.
    { unfold can_write in Hcw. apply andb_true_iff in Hcw as [_ Hd].
      by apply negb_true_iff in Hd. }
    done.
Qed.

(** C1: the merged servers bind every name of the source to the entry of
    the source, every other name of the target to the entry of the target,
    and no other name; a name of the target alone is kept although the plan
    lists it for removal; and the merged servers are what a run that
    succeeds has written to the target: as they are to a JSON target, each
    in its written form and with no other server beside them to a Codex
    target; and a run succeeds when the source has a server, the target is
    read as a dictionary of servers and the target can be written. *)
Theorem merged_is_overlay (e : environ) (w : world)
    (source_path target_path : Path) (source_id target_id : string)
    (source_format target_format : option string) :
  let source_servers := servers_at w source_path source_format in
  let target_servers := servers_at w target_path target_format in
  let merged := merge_servers source_servers target_servers in
  let r := _sync_paths e w source_path target_path source_id target_id
                       source_format target_format false in
  PyDict.wf source_servers ->
  (forall n, PyDict.get merged n
             = match PyDict.get source_servers n with
               | Some s => Some s
               | None => PyDict.get target_servers n
               end) /\
  (forall n, n ∈ PyDict.keys merged <->
             n ∈ PyDict.keys source_servers \/ n ∈ PyDict.keys target_servers) /\
  (forall n, n ∈ PyDict.keys target_servers -> n ∉ PyDict.keys source_servers ->
             n ∈ servers_to_remove source_servers target_servers /\
             PyDict.get merged n = PyDict.get target_servers n) /\
  (success r.2 = true ->
   infer_format target_format target_path <> "toml" ->
   disk r.1 !! target_path = Some (JsonText (servers_doc merged))) /\
  (success r.2 = true ->
   infer_format target_format target_path = "toml" ->
   wf_table (disk w) target_path ->
   exists doc mcp_servers,
     disk r.1 !! target_path = Some (TomlText doc) /\
     PyDict.get doc "mcp_servers" = Some (TServers mcp_servers) /\
     forall n, PyDict.get mcp_servers n
               = (fun c => TTable
                    (CodexConfig._format_codex_server (is_windows e) c))
                   <$> PyDict.get merged n) /\
  (source_servers <> [] -> readable w target_path target_format ->
   (if decide (infer_format target_format target_path = "toml")
    then codex_ready (disk w) target_path
    else can_write (disk w) target_path = true) ->
   success r.2 = true).
Proof.
  intros source_servers target_servers merged r Hwf.
  assert (forall n, PyDict.get merged n
             = match PyDict.get source_servers n with
               | Some s => Some s
               | None => PyDict.get target_servers n
               end) as Hget.
  { intros n. unfold merged, merge_servers. by apply get_update. }
  pose proof (sync_cases e w source_path target_path source_id target_id
                source_format target_format false) as Hcases.
  cbv zeta in Hcases.
  fold r source_servers target_servers merged in Hcases.
  set (wrote := TomlConfigManager.write_config (is_windows e) (disk w)
                  target_path (servers_doc merged)
                  (infer_format target_format target_path) true) in *.
  assert (success r.2 = true ->
          source_servers <> [] /\ wrote.2 = true /\ disk r.1 = wrote.1)
    as Hsuccess.
  { destruct Hcases
      as [(x & -> & _)|[[_ ->]|[(_ & _ & ? & _)|(Hne & _ & _ & ->)]]];
      try done.
    cbn [fst snd disk]. by destruct wrote.2. }
  split_and!.
  - done.
  - intros n. unfold merged, merge_servers. rewrite keys_update by done. tauto.
  - intros n Ht Hs. split.
    + unfold servers_to_remove.
      by rewrite elem_of_difference, !elem_of_list_to_set.
    + rewrite Hget. apply get_None_keys in Hs. by rewrite Hs.
  - intros Hok Hfmt. destruct (Hsuccess Hok) as (_ & Hw2 & ->).
    unfold wrote, TomlConfigManager.write_config in *.
    rewrite decide_False in * by done.
    destruct (can_write (disk w) target_path); [|done].
    cbn [fst]. by rewrite lookup_insert_eq.
  - intros Hok Hfmt Hfs. destruct (Hsuccess Hok) as (Hne & Hw2 & ->).
    unfold wrote, TomlConfigManager.write_config in *.
    rewrite decide_True in * by done.
    destruct (CodexConfig.write_config (is_windows e) (disk w) target_path
                (servers_doc merged) true) as [fs1 ok] eqn:Ew.
    cbn [fst snd] in *. subst ok.
    destruct (write_config_success _ _ _ _ _ _ Hfs Ew)
      as (doc & table & m0 & Htable & _ & _ & Hm0 & _ & ->).
    change (get_mcpServers (servers_doc merged)) with merged in *.
    destruct Htable as [->|[_ Hempty]].
    2:{ by apply merged_nonempty in Hempty. }
    eexists _, _. rewrite lookup_insert_eq. split_and!; [done| |].
    + apply get_set_hit.
    + intros n. apply get_written.
      unfold merged, merge_servers. apply wf_update.
      by apply wf_servers_at_toml.
  - intros Hne Hrt Hready.
    destruct Hcases
      as [(x & _ & [Hs|Ht])|[[(v & Hv & Hn) _]|[(_ & _ & ? & _)|
          (_ & _ & _ & ->)]]]; try done.
    + destruct Hs. by apply servers_at_readable.
    + exfalso. apply Hne. unfold source_servers, servers_at. rewrite Hv.
      by destruct v as [[|]|].
    + cbn [snd].
      assert (wrote.2 = true) as ->; [|done].
      unfold wrote, TomlConfigManager.write_config.
      case_decide.
      * by apply codex_ready_written.
      * by rewrite Hready.
Qed.

Lemma merged_is_overlay_witness :
  let source_servers := servers_at a_over_b ["src.json"] None in
  let target_servers := servers_at a_over_b ["tgt.json"] None in
  let merged := merge_servers source_servers target_servers in
  let r := _sync_paths test_environ a_over_b ["src.json"] ["tgt.json"]
                       "src" "tgt" None None false in
  PyDict.get merged "a" = Some server_a /\
  PyDict.get merged "b" = Some server_b /\
  "b" ∈ servers_to_remove source_servers target_servers /\
  success r.2 = true /\
  disk r.1 !! ["tgt.json"] = Some (JsonText (servers_doc merged)) /\
  let codex_merged :=
    merge_servers (servers_at json_to_codex ["src.json"] None)
                  (servers_at json_to_codex ["config.toml"] None) in
  let r' := _sync_paths test_environ json_to_codex ["src.json"]
                        ["config.toml"] "src" "codex" None None false in
  success r'.2 = true /\
  exists doc mcp_servers,
    disk r'.1 !! ["config.toml"] = Some (TomlText doc) /\
    PyDict.get doc "mcp_servers" = Some (TServers mcp_servers) /\
    forall n, PyDict.get mcp_servers n
              = (fun c => TTable (CodexConfig._format_codex_server false c))
                  <$> PyDict.get codex_merged n.
Proof.
  destruct (merged_is_overlay test_environ json_to_codex ["src.json"]
              ["config.toml"] "src" "codex" None None)
    as (_ & _ & _ & _ & Htoml & Hcodex).
  { apply NoDup_singleton. }
  assert (success
            (_sync_paths test_environ json_to_codex ["src.json"]
                         ["config.toml"] "src" "codex" None None false).2
          = true) as Hok'.
  { apply Hcodex; [discriminate | by eexists |].
    split; [reflexivity | exact I]. }
  assert (wf_table (disk json_to_codex) ["config.toml"]) as Hwf'.
  { intros doc m Hf Hd. vm_compute in Hf. injection Hf as <-.
    destruct Hd as [Hd|Hd]; vm_compute in Hd; [|discriminate Hd].
    injection Hd as <-. apply NoDup_singleton. }
  destruct (merged_is_overlay test_environ a_over_b ["src.json"] ["tgt.json"]
              "src" "tgt" None None)
    as (Hget & _ & Hkept & Hjson & _ & Hruns).
  { apply NoDup_singleton. }
  assert (success
            (_sync_paths test_environ a_over_b ["src.json"] ["tgt.json"]
                         "src" "tgt" None None false).2 = true) as Hok.
  { apply Hruns; [discriminate | by eexists | reflexivity]. }
  split_and!.
  - by rewrite Hget.
  - by rewrite Hget.
  - apply Hkept.
    + apply list_elem_of_here.
    + intros Hin. apply list_elem_of_singleton in Hin. discriminate Hin.
  - exact Hok.
  - apply Hjson; [exact Hok | discriminate].
  - cbv zeta. split; [exact Hok'|].
    apply Htoml; [exact Hok' | reflexivity | exact Hwf'].
Defined.

(** The same for a Codex target: the run succeeds, and the servers table of
    the target holds the server of the source and the server it had, each in
    its written form, beside the other section of the file. *)
Example codex_target_sample :
  let r := _sync_paths test_environ json_to_codex ["src.json"] ["config.toml"]
                       "src" "codex" None None false in
  success r.2 = true /\
  exists doc mcp_servers,
    disk r.1 !! ["config.toml"] = Some (TomlText doc) /\
    PyDict.get doc "model" = Some (TItem "o3") /\
    PyDict.get doc "mcp_servers" = Some (TServers mcp_servers) /\
    PyDict.keys mcp_servers = ["b"; "a"] /\
    PyDict.get mcp_servers "a"
    = Some (TTable (CodexConfig._format_codex_server false server_a)).
Proof.
  split; [vm_compute; reflexivity|].
  eexists _, _. split_and!; vm_compute; reflexivity.
Qed.


(** The run of the scenario that is no dry run: the target is backed up as
    it was, then holds its own server and the server of the source. *)
Example full_run_sample :
  let r := _sync_paths test_environ a_over_b ["src.json"] ["tgt.json"]
                       "src" "tgt" None None false in
  r.2 = Synced "src.json" "tgt.json"
          (Some "/home/u/.config/mcp-sync/backups/20240128_123456_000001/tgt.json")
          ["a"] [] ["b"] 2 /\
  disk r.1 !! ["tgt.json"]
    = Some (JsonText (servers_doc [("b", server_b); ("a", server_a)])) /\
  BackupManager.list_backups (backups r.1)
    = [{| BackupManager.timestamp := "20240128_123456_000001";
          BackupManager.backup_files := ["tgt.json"] |}].
Proof. split_and!; vm_compute; reflexivity. Qed.

(** A target that holds a JSON list: the run raises after the source was
    read, whether it is a dry run or not, and writes nothing. *)
Example list_target_sample :
  _sync_paths test_environ list_target ["src.json"] ["tgt.json"]
              "src" "tgt" None None true
  = (list_target, Raised AttributeError) /\
  _sync_paths test_environ list_target ["src.json"] ["tgt.json"]
              "src" "tgt" None None false
  = (list_target, Raised AttributeError).
Proof. split; reflexivity. Qed.

End DirectSyncFacts.

(** ** Backups *)

Module BackupFacts.
Import BackupManager Spec Samples.

(** *** The order of the identifiers *)

Lemma leb_trans (a b c : string) :
  String.leb a b = true -> String.leb b c = true -> String.leb a c = true.
Proof.
  unfold String.leb. revert b c.
  induction a as [|x a IH]; intros [|y b] [|z c]; simpl; try done.
  unfold Ascii.compare.
  destruct (N.compare_spec (N_of_ascii x) (N_of_ascii y)) as [Hxy|Hxy|Hxy];
    destruct (N.compare_spec (N_of_ascii y) (N_of_ascii z)) as [Hyz|Hyz|Hyz];
    try done;
    destruct (N.compare_spec (N_of_ascii x) (N_of_ascii z)) as [Hxz|Hxz|Hxz];
    try done; try lia.
  apply IH.
Qed.

#[local] Instance newest_first_total : Total (flip PyStr.le).
Proof. intros a b. unfold flip, PyStr.le. destruct (String.leb_total a b); auto. Qed.

#[local] Instance newest_first_trans : Transitive (flip PyStr.le).
Proof. intros a b c Hab Hbc. unfold flip, PyStr.le in *. by eapply leb_trans. Qed.

#[local] Instance newest_first_antisym : AntiSymm (=) (flip PyStr.le).
Proof. intros a b Hab Hba. unfold flip, PyStr.le in *. by apply String.leb_antisym. Qed.

Lemma StronglySorted_filter {A : Type} (R : relation A)
    (P : A -> Prop) `{!forall x, Decision (P x)} (l : list A) :
  StronglySorted R l -> StronglySorted R (filter P l).
Proof.
  induction 1 as [|x l Hl IH Hx]; [constructor|].
  rewrite filter_cons. case_decide; [|done].
  constructor; [done|].
  rewrite Forall_forall in Hx |- *. intros y Hy.
  apply list_elem_of_filter in Hy as [_ Hy]. auto.
Qed.

(** *** The listing *)

Lemma visited_spec (root : gmap string entry) :
  StronglySorted (flip PyStr.le) (visited root) /\
  NoDup (visited root) /\
  forall n, n ∈ visited root <-> is_Some (root !! n).
Proof.
  unfold visited, PyStr.sorted_reverse.
  pose proof (merge_sort_Permutation (flip PyStr.le)
                (map fst (map_to_list root))) as Hp.
  split_and!.
  - apply StronglySorted_merge_sort; apply _.
  - rewrite Hp. apply (NoDup_fst_map_to_list root).
  - intros n. rewrite Hp. split.
    + intros Hin. apply list_elem_of_fmap in Hin as ([n' x] & -> & Hin).
      apply elem_of_map_to_list in Hin. by eexists.
    + intros [x Hx]. apply list_elem_of_fmap. exists (n, x). split; [done|].
      by apply elem_of_map_to_list.
Qed.

Lemma list_entry_timestamp (root : gmap string entry) (n : string) (b : backup) :
  list_entry root n = Some b -> timestamp b = n.
Proof.
  unfold list_entry. destruct (root !! n) as [[c|found]|]; try done.
  destruct (PyDict.keys found); [done|]. by intros [= <-].
Qed.

(** The time stamps listed are the visited names that list, in order. *)
Lemma timestamps_listed (root : gmap string entry) (l : list string) :
  timestamp <$> omap (list_entry root) l
  = filter (fun n => is_Some (list_entry root n)) l.
Proof.
  induction l as [|n l IH]; [done|]. csimpl. rewrite filter_cons.
  destruct (list_entry root n) as [b|] eqn:E.
  - rewrite decide_True by eauto. csimpl. rewrite IH.
    by rewrite (list_entry_timestamp _ _ _ E).
  - rewrite decide_False; [done|]. by intros [? ?].
Qed.

Lemma timestamps_sorted (st : store) :
  StronglySorted (flip PyStr.le) (timestamp <$> list_backups st) /\
  NoDup (timestamp <$> list_backups st).
Proof.
  destruct st as [root|]; simpl; [|split; constructor].
  fold (visited root). rewrite timestamps_listed.
  destruct (visited_spec root) as (Hs & Hnd & _). split.
  - by apply StronglySorted_filter.
  - by apply NoDup_filter.
Qed.

(** *** The removals *)

Lemma rmtree_all (root : gmap string entry) (bs : list backup) (z : Z) :
  exists root',
    fold_left (fun acc b => (rmtree acc.1 b, acc.2 + 1)) bs (Some root, z)
      = (Some root', z + Z.of_nat (List.length bs)) /\
    forall n, root' !! n
              = if decide (n ∈ timestamp <$> bs) then None else root !! n.
Proof.
  revert root z. induction bs as [|b bs IH]; intros root z; cbn [fold_left].
  - exists root. split; [simpl; f_equal; lia|].
    intros n. rewrite decide_False; [done|]. apply not_elem_of_nil.
  - destruct (IH (delete (timestamp b) root) (z + 1)) as (root' & Hf & Hl).
    exists root'. cbn [rmtree fst snd]. split.
    + rewrite Hf. f_equal. simpl List.length. lia.
    + intros n. rewrite Hl, lookup_delete, fmap_cons.
      destruct (decide (n ∈ timestamp <$> bs)) as [Hin|Hin].
      * rewrite decide_True; [done | by apply list_elem_of_further].
      * destruct (decide (timestamp b = n)) as [<-|Hne].
        -- rewrite decide_True; [done | apply list_elem_of_here].
        -- rewrite decide_False; [done|].
           rewrite elem_of_cons. intros [?|?]; congruence.
Qed.

(** Removing the directories named [gone] removes their names from the
    visit and leaves the order of the others. *)
Lemma visited_after (root root' : gmap string entry) (gone : list string) :
  (forall n, root' !! n = if decide (n ∈ gone) then None else root !! n) ->
  visited root' = filter (fun n => n ∉ gone) (visited root).
Proof.
  intros Hl.
  destruct (visited_spec root) as (Hs & Hnd & Hin).
  destruct (visited_spec root') as (Hs' & Hnd' & Hin').
  apply (StronglySorted_unique (flip PyStr.le)); [done| |].
  - by apply StronglySorted_filter.
  - apply NoDup_Permutation; [done | by apply NoDup_filter |].
    intros n. rewrite list_elem_of_filter, Hin, Hin', Hl.
    case_decide; split; try tauto.
    intros [? ?]. done.
Qed.

Lemma omap_filter_listed (root root' : gmap string entry) (gone l : list string) :
  (forall n, root' !! n = if decide (n ∈ gone) then None else root !! n) ->
  omap (list_entry root') (filter (fun n => n ∉ gone) l)
  = filter (fun b => timestamp b ∉ gone) (omap (list_entry root) l).
Proof.
  intros Hl. induction l as [|n l IH]; [done|].
  rewrite filter_cons. case_decide as Hn; csimpl.
  - assert (list_entry root' n = list_entry root n) as ->.
    { unfold list_entry. by rewrite Hl, decide_False. }
    destruct (list_entry root n) as [b|] eqn:E; [|done].
    rewrite filter_cons, decide_True; [by rewrite IH|].
    by rewrite (list_entry_timestamp _ _ _ E).
  - destruct (list_entry root n) as [b|] eqn:E; [|done].
    rewrite filter_cons, decide_False; [done|].
    rewrite (list_entry_timestamp _ _ _ E). tauto.
Qed.

Lemma filter_keeps_all {A : Type} (P : A -> Prop)
    `{!forall x, Decision (P x)} (l : list A) :
  (forall x, x ∈ l -> P x) -> filter P l = l.
Proof.
  induction l as [|x l IH]; intros Hall; [done|].
  rewrite filter_cons, decide_True by apply Hall, list_elem_of_here.
  rewrite IH; [done|]. intros y Hy. by apply Hall, list_elem_of_further.
Qed.

Lemma filter_keeps_none {A : Type} (P : A -> Prop)
    `{!forall x, Decision (P x)} (l : list A) :
  (forall x, x ∈ l -> ~ P x) -> filter P l = [].
Proof.
  induction l as [|x l IH]; intros Hnone; [done|].
  rewrite filter_cons, decide_False by apply Hnone, list_elem_of_here.
  apply IH. intros y Hy. by apply Hnone, list_elem_of_further.
Qed.

(** Dropping the elements whose key occurs in the tail leaves the head. *)
Lemma filter_not_in_tail {A B : Type} `{EqDecision B} (g : A -> B)
    (l1 l2 : list A) :
  NoDup (g <$> (l1 ++ l2)) ->
  filter (fun x => g x ∉ g <$> l2) (l1 ++ l2) = l1.
Proof.
  rewrite fmap_app. intros Hnd. apply NoDup_app in Hnd as (_ & Hdisj & _).
  rewrite filter_app, filter_keeps_all, filter_keeps_none.
  - apply app_nil_r.
  - intros x Hx Hn. apply Hn. by apply list_elem_of_fmap_2.
  - intros x Hx. apply Hdisj. by apply list_elem_of_fmap_2.
Qed.

(** C7: for a count to keep that is not negative, the clean-up removes the
    listed snapshots beyond that count and reports their number; the
    snapshots listed afterwards are the first of the earlier listing, which
    runs from the greatest identifier down; nothing is removed when no more
    snapshots are listed than are to be kept. *)
Theorem cleanup_keeps_most_recent (st : store) (keep_count : Z) :
  0 <= keep_count ->
  let prior := List.length (list_backups st) in
  let r := cleanup_old_backups st keep_count in
  r.2 = Z.max (Z.of_nat prior - keep_count) 0 /\
  list_backups r.1 = take (Z.to_nat keep_count) (list_backups st) /\
  List.length (list_backups r.1) = Nat.min (Z.to_nat keep_count) prior /\
  StronglySorted (flip PyStr.le) (timestamp <$> list_backups st) /\
  (Z.of_nat prior <= keep_count -> r = (st, 0)).
Proof.
  intros Hk prior r.
  assert (list_backups r.1 = take (Z.to_nat keep_count) (list_backups st) /\
          r.2 = Z.max (Z.of_nat prior - keep_count) 0 /\
          (Z.of_nat prior <= keep_count -> r = (st, 0))) as (Hl & Hr & Hn).
  { unfold r, cleanup_old_backups. fold prior.
    destruct (Z.leb_spec (Z.of_nat prior) keep_count) as [Hle|Hgt].
    - simpl. split_and!; [|lia|done].
      rewrite take_ge; [done|]. fold prior. lia.
    - unfold slice_from. rewrite (proj2 (Z.leb_le 0 keep_count)) by done.
      destruct st as [root|]; [|simpl in prior; lia].
      destruct (rmtree_all root
                  (List.skipn (Z.to_nat keep_count) (list_backups (Some root))) 0)
        as (root' & -> & Hroot').
      simpl fst. simpl snd. split_and!; [| |lia].
      + simpl list_backups at 1. fold (visited root').
        rewrite (visited_after root root' _ Hroot').
        rewrite (omap_filter_listed root root' _ _ Hroot').
        fold (visited root).
        change (omap (list_entry root) (visited root))
          with (list_backups (Some root)).
        pose proof (filter_not_in_tail timestamp
          (take (Z.to_nat keep_count) (list_backups (Some root)))
          (List.skipn (Z.to_nat keep_count) (list_backups (Some root))))
          as Hhead.
        rewrite take_drop in Hhead. apply Hhead, timestamps_sorted.
      + rewrite length_skipn. unfold prior in *. simpl list_backups in *. lia. }
  split_and!; try done.
  - rewrite Hl, length_take. done.
  - apply timestamps_sorted.
Qed.

Lemma cleanup_keeps_most_recent_witness :
  let prior := List.length (list_backups sample_store) in
  let r := cleanup_old_backups sample_store 2 in
  r.2 = Z.max (Z.of_nat prior - 2) 0 /\
  list_backups r.1 = take (Z.to_nat 2) (list_backups sample_store) /\
  List.length (list_backups r.1) = Nat.min (Z.to_nat 2) prior /\
  StronglySorted (flip PyStr.le) (timestamp <$> list_backups sample_store) /\
  (Z.of_nat prior <= 2 -> r = (sample_store, 0)).
Proof. apply (cleanup_keeps_most_recent sample_store 2). lia. Defined.

Example cleanup_sample :
  timestamp <$> list_backups sample_store
    = ["20240103_000000_000001"; "20240102_000000_000001";
       "20240101_000000_000001"] /\
  (cleanup_old_backups sample_store 2).2 = 1 /\
  timestamp <$> list_backups (cleanup_old_backups sample_store 2).1
    = ["20240103_000000_000001"; "20240102_000000_000001"] /\
  (cleanup_old_backups sample_store 5).2 = 0.
Proof. split_and!; vm_compute; reflexivity. Qed.

End BackupFacts.

(** ** The fuzzy matcher *)

Module FuzzyFacts.
Import FuzzyClientMatcher Spec Samples PyDictFacts.

Lemma first_client_Some (test : string -> bool)
    (all_keywords : list (string * string)) (c : string) :
  first_client test all_keywords = Some c ->
  exists k, (k, c) ∈ all_keywords /\ test k = true.
Proof.
  unfold first_client.
  destruct (List.find _ all_keywords) as [[k c']|] eqn:E; [|done].
  intros [= <-]. apply find_some in E as [Hin Ht].
  exists k. split; [by apply list_elem_of_In | done].
Qed.

Lemma first_client_None (test : string -> bool)
    (all_keywords : list (string * string)) :
  (forall k c, (k, c) ∈ all_keywords -> test k = false) ->
  first_client test all_keywords = None.
Proof.
  intros H. unfold first_client.
  destruct (List.find _ all_keywords) as [[k c]|] eqn:E; [|done].
  apply find_some in E as [Hin Ht]. apply list_elem_of_In in Hin.
  simpl in Ht. by rewrite (H k c Hin) in Ht.
Qed.

Lemma first_client_is_Some (test : string -> bool)
    (all_keywords : list (string * string)) (k c : string) :
  (k, c) ∈ all_keywords -> test k = true ->
  is_Some (first_client test all_keywords).
Proof.
  intros Hin Ht. unfold first_client.
  destruct (List.find _ all_keywords) as [kc|] eqn:E; [by eexists|].
  apply list_elem_of_In in Hin.
  pose proof (find_none _ _ E _ Hin) as Hn. simpl in Hn. congruence.
Qed.

(** The clients of the built-in table stay in the index. *)
Lemma add_client_keeps (keywords : dict (list string)) (kv : string * string)
    (k : string) :
  PyDict.contains keywords k = true ->
  PyDict.contains (add_client keywords kv) k = true.
Proof.
  rewrite !contains_keys, !keys_get. unfold add_client.
  intros Hk. rewrite get_set. case_decide; [by eexists|].
  destruct (PyDict.contains keywords kv.1); [done|].
  rewrite get_set. by case_decide.
Qed.

Lemma index_keeps_defaults (client_definitions : option ClientDefinitions)
    (k : string) :
  PyDict.contains DEFAULT_KEYWORDS k = true ->
  PyDict.contains (_build_keyword_index client_definitions) k = true.
Proof.
  intros Hk. unfold _build_keyword_index.
  assert (PyDict.contains
            (fold_left (fun acc kv => PyDict.set acc kv.1 kv.2)
                       (PyDict.items DEFAULT_KEYWORDS) []) k = true) as H0.
  { fold (PyDict.update (@nil (string * list string)) DEFAULT_KEYWORDS).
    rewrite update_nil; [done|]. unfold PyDict.wf. compute_done. }
  destruct client_definitions as [clients|]; [|done].
  revert H0. unfold PyDict.items.
  generalize (fold_left (fun acc kv => PyDict.set acc kv.1 kv.2)
                        DEFAULT_KEYWORDS []).
  induction clients as [|kv clients IH]; intros keywords H0; simpl; [done|].
  apply IH. by apply add_client_keeps.
Qed.

Section scoring.
Variable scorer : string -> string -> Z.

Lemma insert_match_elem (m x : string * Z) (l : list (string * Z)) :
  x ∈ insert_match m l -> x = m \/ x ∈ l.
Proof.
  induction l as [|m' l IH]; simpl.
  - intros Hx. apply list_elem_of_singleton in Hx. by left.
  - destruct (m'.2 <=? m.2).
    + rewrite elem_of_cons. tauto.
    + rewrite !elem_of_cons. intros [->|Hx]; [tauto|].
      destruct (IH Hx); tauto.
Qed.

(** Every match is a choice with its score. *)
Lemma extract_scored (query : string) (choices : list string) (limit : nat)
    (m : string * Z) :
  m ∈ extract scorer query choices limit ->
  m.1 ∈ choices /\ m.2 = scorer query m.1.
Proof.
  unfold extract. intros Hm. apply elem_of_take in Hm as (i & Hm & _).
  apply list_elem_of_lookup_2 in Hm. clear i.
  induction choices as [|c choices IH]; simpl in Hm.
  - by apply elem_of_nil in Hm.
  - apply insert_match_elem in Hm as [->|Hm].
    + split; [apply list_elem_of_here | done].
    + destruct (IH Hm). split; [by apply list_elem_of_further | done].
Qed.

Lemma no_match_clears (threshold : Z) (all_keywords : list (string * string))
    (matches : list (string * Z)) (best : option string * Z) :
  (forall m, m ∈ matches -> m.2 < threshold) ->
  fold_left (consider threshold all_keywords) matches best = best.
Proof.
  revert best. induction matches as [|[k s] matches IH]; intros best H; [done|].
  simpl. assert (s < threshold) as Hs by apply (H (k, s)), list_elem_of_here.
  rewrite (proj2 (Z.leb_gt threshold s)) by done. simpl.
  apply IH. intros m Hm. by apply H, list_elem_of_further.
Qed.

(** C8, as amended: the empty query finds nothing; a query whose normalized
    form is a client identity of the index finds that identity with score
    100; otherwise a query whose normalized form is the lower-cased form of
    an indexed keyword finds, with score 100, the first client in index
    order that has such a keyword; and a query that matches in neither way
    and scores below the threshold against every keyword finds nothing.
    Whatever the clients supplied, "codex" finds "codex" with score 100. *)
Theorem find_client_cases (keywords : dict (list string))
    (query : string) (threshold : Z) :
  find_client scorer keywords "" threshold = (None, 0) /\
  (forall client_definitions,
     find_client scorer (_build_keyword_index client_definitions)
                 "codex" threshold = (Some "codex", 100)) /\
  (query <> "" -> PyDict.contains keywords (normalized query) = true ->
   find_client scorer keywords query threshold
     = (Some (normalized query), 100)) /\
  (query <> "" -> PyDict.contains keywords (normalized query) = false ->
   forall k c, (k, c) ∈ flatten keywords -> normalized query = PyStr.lower k ->
   exists c', find_client scorer keywords query threshold = (Some c', 100) /\
     first_client (fun k' => bool_decide (normalized query = PyStr.lower k'))
                  (flatten keywords) = Some c' /\
     exists k', (k', c') ∈ flatten keywords /\
                normalized query = PyStr.lower k') /\
  (query <> "" -> PyDict.contains keywords (normalized query) = false ->
   (forall k c, (k, c) ∈ flatten keywords ->
      normalized query <> PyStr.lower k) ->
   (forall k c, (k, c) ∈ flatten keywords ->
      scorer (normalized query) k < threshold) ->
   find_client scorer keywords query threshold = (None, 0)).
Proof.
  split_and!.
  - done.
  - intros defs. unfold find_client. rewrite decide_False by done.
    change (PyStr.strip (PyStr.lower "codex")) with "codex".
    by rewrite index_keeps_defaults.
  - intros Hq Hc. unfold find_client. rewrite decide_False by done.
    fold (normalized query). by rewrite Hc.
  - intros Hq Hc k c Hin Hk. unfold find_client. rewrite decide_False by done.
    fold (normalized query). rewrite Hc.
    destruct (first_client_is_Some
      (fun k' => bool_decide (normalized query = PyStr.lower k'))
      (flatten keywords) k c Hin) as [c' Hc'].
    { by apply bool_decide_eq_true. }
    rewrite Hc'. exists c'. split_and!; try done.
    apply first_client_Some in Hc' as (k' & Hin' & Ht).
    apply bool_decide_eq_true in Ht. eauto.
  - intros Hq Hc Hno Hlow. unfold find_client. rewrite decide_False by done.
    fold (normalized query). rewrite Hc.
    rewrite first_client_None.
    2:{ intros k c Hin. apply bool_decide_eq_false. by apply (Hno k c). }
    destruct (extract scorer (normalized query) (map fst (flatten keywords)) 5)
      as [|m matches] eqn:E; [done|].
    apply no_match_clears. intros m' Hm'. rewrite <- E in Hm'.
    apply extract_scored in Hm' as [Hin ->].
    apply list_elem_of_fmap in Hin as ([k c] & -> & Hin).
    by apply (Hlow k c).
Qed.

End scoring.

Lemma find_client_cases_witness :
  find_client exact_scorer (_build_keyword_index None) " Claude " 60
    = (Some "claude-code", 100) /\
  find_client exact_scorer (_build_keyword_index None) "Cursor" 60
    = (Some "cursor", 100) /\
  find_client exact_scorer (_build_keyword_index None) "xyz" 60 = (None, 0).
Proof.
  pose proof (find_client_cases exact_scorer (_build_keyword_index None))
    as H.
  split_and!.
  - destruct (H " Claude " 60) as (_ & _ & _ & Hkw & _).
    destruct (Hkw ltac:(done) ltac:(reflexivity) "claude" "claude-code")
      as (c' & -> & Hfirst & _).
    + compute_done.
    + reflexivity.
    + vm_compute in Hfirst. by injection Hfirst as <-.
  - destruct (H "Cursor" 60) as (_ & _ & Hid & _).
    apply (Hid ltac:(done)). reflexivity.
  - destruct (H "xyz" 60) as (_ & _ & _ & _ & Hnone).
    assert (Forall (fun kc : string * string =>
                      normalized "xyz" <> PyStr.lower kc.1 /\
                      exact_scorer (normalized "xyz") kc.1 < 60)
                   (flatten (_build_keyword_index None))) as Hall
      by compute_done.
    rewrite Forall_forall in Hall.
    apply Hnone; [done | reflexivity | |].
    + intros k c Hin. exact (proj1 (Hall _ Hin)).
    + intros k c Hin. exact (proj2 (Hall _ Hin)).
Defined.

(** C8 as stated fails.  A query equal to a registered identity that is not
    in lower case finds another client, as the query is normalized before the
    identities are looked up.  A query that is an identity is found although
    every keyword scores below the threshold against it; and although no
    keyword scores 101, the threshold 101 does not keep "codex" from being
    found. *)
Lemma find_client_claim_fails :
  (PyDict.contains capital_index "VSCode" = true /\
   find_client exact_scorer capital_index "VSCode" 60
     = (Some "vscode-user", 100)) /\
  (Forall (fun kc : string * string => exact_scorer "zed" kc.1 < 60)
          (flatten zed_index) /\
   find_client exact_scorer zed_index "zed" 60 = (Some "zed", 100)) /\
  ((forall k, exact_scorer "codex" k < 101) /\
   find_client exact_scorer (_build_keyword_index None) "codex" 101
     = (Some "codex", 100)).
Proof.
  split_and!; try reflexivity.
  - compute_done.
  - intros k. unfold exact_scorer. case_decide; lia.
Qed.

End FuzzyFacts.

(** ** Paths and their strings *)

Module PathFacts.
Import Spec.







End PathFacts.

(** ** Backups: listing, taking, restoring *)

Module BackupExtras.
Import BackupManager Spec Samples PyDictFacts PathFacts BackupFacts.

Lemma list_entry_Some (root : gmap string entry) (n : string) (b : backup) :
  list_entry root n = Some b <->
  exists found, root !! n = Some (Dir found) /\ PyDict.keys found <> [] /\
                b = {| timestamp := n; backup_files := PyDict.keys found |}.
Proof.
  unfold list_entry. destruct (root !! n) as [[c|found]|].
  - split; [done | by intros (? & ? & _)].
  - destruct (PyDict.keys found) as [|k ks] eqn:E.
    + split; [done|]. intros (f & [= <-] & Hne & _). by rewrite E in Hne.
    + split.
      * intros [= <-]. exists found. by rewrite E.
      * intros (f & [= <-] & _ & ->). by rewrite E.
  - split; [done | by intros (? & ? & _)].
Qed.

Lemma listed_iff (st : store) (b : backup) :
  b ∈ list_backups st <->
  exists found, default ∅ st !! timestamp b = Some (Dir found) /\
                PyDict.keys found <> [] /\
                backup_files b = PyDict.keys found.
Proof.
  destruct st as [root|]; simpl.
  - fold (visited root). rewrite list_elem_of_omap. split.
    + intros (n & _ & Hb). apply list_entry_Some in Hb as (found & Hn & Hne & ->).
      eauto.
    + intros (found & Hn & Hne & Hf). exists (timestamp b). split.
      * apply visited_spec. by eexists.
      * apply list_entry_Some. exists found. split_and!; try done.
        destruct b. simpl in *. by subst.
  - split; [intros H; by apply elem_of_nil in H|].
    intros (found & H & _). by rewrite lookup_empty in H.
Qed.


(** X1: the listing holds exactly the directories of the backup root under
    which a file is found, each with the paths of its files; it runs from the
    greatest identifier down and names no identifier twice. *)
Theorem list_backups_spec (st : store) :
  (forall b, b ∈ list_backups st <->
     exists found, default ∅ st !! timestamp b = Some (Dir found) /\
                   PyDict.keys found <> [] /\
                   backup_files b = PyDict.keys found) /\
  StronglySorted (flip PyStr.le) (timestamp <$> list_backups st) /\
  NoDup (timestamp <$> list_backups st).
Proof. split; [apply listed_iff | apply timestamps_sorted]. Qed.











(** *** Reaching a snapshot *)










(** *** Restoring *)











(** A restore reaches what the paths lead to: the whole backup root, and a
    file of a neighbouring snapshot. *)
Example restore_reaches_sample :
  (restore_backup [""; "b"] [""; "h"] ∅ sample_store "" None None).1
  = {[ [""; "h"; "20240101_000000_000001"; "mcp.json"] := Garbage "a";
       [""; "h"; "20240102_000000_000001"; "mcp.json"] := Garbage "b";
       [""; "h"; "20240103_000000_000001"; "mcp.json"] := Garbage "c";
       [""; "h"; "notes.txt"] := Garbage "n" ]} /\
  restore_backup [""; "b"] [""; "h"] ∅ sample_store "20240103_000000_000001"
    (Some "../20240102_000000_000001/mcp.json") None
  = ({[ [""; "20240102_000000_000001"; "mcp.json"] := Garbage "b" ]},
     Some [""; "h"; ".."; "20240102_000000_000001"; "mcp.json"]) /\
  restore_backup [""; "b"] [""; "h"] ∅ sample_store "20240104_000000_000001"
    (Some "mcp.json") None = (∅, None).
Proof. split_and!; vm_compute; reflexivity. Qed.

(** *** Cleaning up with a negative count *)

(** Removing the listed snapshots from position [m] on leaves the first [m]
    of the listing. *)
Lemma listing_after_removal (root : gmap string entry) (m : nat) (z : Z) :
  let listed := list_backups (Some root) in
  exists root',
    fold_left (fun acc b => (rmtree acc.1 b, acc.2 + 1))
              (List.skipn m listed) (Some root, z)
      = (Some root', z + Z.of_nat (List.length listed - m)) /\
    list_backups (Some root') = take m listed.
Proof.
  intros listed.
  destruct (rmtree_all root (List.skipn m listed) z) as (root' & Hf & Hroot').
  exists root'. split.
  - rewrite Hf. by rewrite length_skipn.
  - simpl list_backups at 1. fold (visited root').
    rewrite (visited_after root root' _ Hroot').
    rewrite (omap_filter_listed root root' _ _ Hroot').
    fold (visited root).
    change (omap (list_entry root) (visited root)) with listed.
    pose proof (filter_not_in_tail timestamp (take m listed)
                  (List.skipn m listed)) as Hhead.
    rewrite take_drop in Hhead. apply Hhead, timestamps_sorted.
Qed.

(** X5: with a negative count to keep, the clean-up removes the listed
    snapshots with the smallest identifiers, as many as the count is below
    zero (all of them when fewer are listed), and keeps the others. *)
Theorem cleanup_negative_keep (st : store) (keep_count : Z) :
  keep_count < 0 ->
  let prior := List.length (list_backups st) in
  let n := Z.to_nat (- keep_count) in
  let r := cleanup_old_backups st keep_count in
  list_backups r.1 = take (prior - n) (list_backups st) /\
  r.2 = Z.of_nat (Nat.min n prior).
Proof.
  intros Hk prior n r. unfold r, cleanup_old_backups. fold prior.
  rewrite (proj2 (Z.leb_gt (Z.of_nat prior) keep_count)) by lia.
  unfold slice_from. rewrite (proj2 (Z.leb_gt 0 keep_count)) by lia.
  fold prior n.
  destruct st as [root|].
  - destruct (listing_after_removal root (prior - n) 0) as (root' & Hf & Hl).
    cbv zeta in Hf, Hl. rewrite Hf. cbn [fst snd]. split; [done|].
    fold prior. lia.
  - simpl in prior. subst prior. simpl. split; [done | lia].
Qed.

Lemma cleanup_negative_keep_witness :
  let prior := List.length (list_backups sample_store) in
  let n := Z.to_nat (- (-1)) in
  let r := cleanup_old_backups sample_store (-1) in
  list_backups r.1 = take (prior - n) (list_backups sample_store) /\
  r.2 = Z.of_nat (Nat.min n prior).
Proof. apply (cleanup_negative_keep sample_store (-1)). lia. Defined.

Example cleanup_negative_sample :
  timestamp <$> list_backups (cleanup_old_backups sample_store (-1)).1
    = ["20240103_000000_000001"; "20240102_000000_000001"] /\
  (cleanup_old_backups sample_store (-1)).2 = 1 /\
  list_backups (cleanup_old_backups sample_store (-7)).1 = [].
Proof. split_and!; vm_compute; reflexivity. Qed.

End BackupExtras.

(** ** The fuzzy matcher: several clients, soundness, the index *)

Module FuzzyExtras.
Import FuzzyClientMatcher Spec Samples PyDictFacts FuzzyFacts.

Lemma flatten_elem (keywords : dict (list string)) (k c : string) :
  (k, c) ∈ flatten keywords <->
  exists own, (c, own) ∈ keywords /\ k ∈ own.
Proof.
  unfold flatten, PyDict.items. rewrite list_elem_of_In, in_flat_map. split.
  - intros ([c' own] & Hin & Hk). apply list_elem_of_In in Hin.
    apply list_elem_of_In, list_elem_of_fmap in Hk as (k' & [= -> ->] & Hk).
    eauto.
  - intros (own & Hin & Hk). exists (c, own). split.
    + by apply list_elem_of_In.
    + apply list_elem_of_In, list_elem_of_fmap. eauto.
Qed.

Lemma flatten_client_key (keywords : dict (list string)) (k c : string) :
  (k, c) ∈ flatten keywords -> c ∈ PyDict.keys keywords.
Proof.
  intros (own & Hin & _)%flatten_elem.
  by apply (list_elem_of_fmap_2 fst) in Hin.
Qed.

Lemma unseen_client_Some (all_keywords : list (string * string))
    (matched_keyword : string) (seen_clients : gset string) (c : string) :
  unseen_client all_keywords matched_keyword seen_clients = Some c ->
  (matched_keyword, c) ∈ all_keywords /\ c ∉ seen_clients.
Proof.
  unfold unseen_client, first_client_where.
  destruct (List.find _ all_keywords) as [[k c']|] eqn:E; [|done].
  intros [= <-]. apply find_some in E as [Hin Ht].
  apply andb_true_iff in Ht as [Hk Hs].
  apply bool_decide_eq_true in Hk. apply negb_true_iff, bool_decide_eq_false in Hs.
  simpl in *. subst. split; [by apply list_elem_of_In | done].
Qed.

Section scoring.
Variable scorer : string -> string -> Z.

Lemma insert_match_descending (m : string * Z) (l : list (string * Z)) :
  descending (snd <$> l) -> descending (snd <$> insert_match m l).
Proof.
  unfold descending. induction l as [|m' l IH]; intros Hl.
  - simpl. repeat constructor.
  - simpl. destruct (Z.leb_spec m'.2 m.2) as [Hle|Hgt].
    + rewrite fmap_cons. constructor; [done|].
      rewrite fmap_cons in Hl. apply StronglySorted_inv in Hl as [_ Hall].
      constructor; [done|].
      eapply Forall_impl; [exact Hall|]. simpl. intros; lia.
    + rewrite fmap_cons in Hl |- *.
      apply StronglySorted_inv in Hl as [Hl Hall].
      constructor; [by apply IH|].
      rewrite Forall_forall in Hall |- *. intros s Hs.
      apply list_elem_of_fmap in Hs as (x & -> & Hx).
      destruct (insert_match_elem scorer _ _ _ Hx) as [->|Hx']; [lia|].
      apply Hall. by apply list_elem_of_fmap_2.
Qed.

Lemma extract_descending (query : string) (choices : list string)
    (limit : nat) :
  descending (snd <$> extract scorer query choices limit).
Proof.
  unfold extract.
  assert (descending
            (snd <$> foldr insert_match []
                       (map (fun c => (c, scorer query c)) choices))) as H.
  { induction choices as [|c choices IH]; simpl; [constructor|].
    by apply insert_match_descending. }
  revert H. generalize (foldr insert_match []
                          (map (fun c => (c, scorer query c)) choices)).
  intros l Hl. rewrite <- (take_drop limit l), fmap_app in Hl.
  unfold descending in *. by apply StronglySorted_app_1_l in Hl.
Qed.

(** What the loop of [find_clients] keeps: the clients of the results are
    distinct and seen, every result is a pair of the index with its score at
    or above the threshold, and the scores of the results followed by those
    of the matches to come run down. *)
Lemma collect_spec (limit : nat) (threshold : Z) (query : string)
    (all_keywords : list (string * string)) (matches : list (string * Z))
    (results : list (string * string * Z)) (seen_clients : gset string) :
  NoDup ((fun r => r.1.1) <$> results) ->
  (forall r, r ∈ results -> r.1.1 ∈ seen_clients) ->
  Forall (fun r => (r.1.2, r.1.1) ∈ all_keywords /\ threshold <= r.2 /\
                   r.2 = scorer query r.1.2) results ->
  Forall (fun m => m.2 = scorer query m.1) matches ->
  descending ((snd <$> results) ++ (snd <$> matches)) ->
  (List.length results < limit)%nat ->
  let out := collect limit threshold all_keywords matches results
                     seen_clients in
  NoDup ((fun r => r.1.1) <$> out) /\
  Forall (fun r => (r.1.2, r.1.1) ∈ all_keywords /\ threshold <= r.2 /\
                   r.2 = scorer query r.1.2) out /\
  descending (snd <$> out) /\
  (List.length out <= limit)%nat.
Proof.
  revert results seen_clients.
  induction matches as [|[k s] matches IH];
    intros results seen Hnd Hseen Hgood Hm Hdesc Hlen.
  - simpl. rewrite app_nil_r in Hdesc. split_and!; try done. lia.
  - apply Forall_cons in Hm as [Hs Hm]. cbn [collect].
    assert (descending ((snd <$> results) ++ (snd <$> matches))) as Hskip.
    { unfold descending in *. rewrite fmap_cons in Hdesc.
      apply StronglySorted_app in Hdesc as (Hcross & H1 & H2).
      apply StronglySorted_app. split_and!; try done.
      - intros x1 x2 H1' H2'. apply Hcross; [done|].
        by apply list_elem_of_further.
      - by apply StronglySorted_inv in H2 as [? _]. }
    destruct (Z.ltb_spec s threshold) as [Hlt|Hge]; [by apply IH|].
    destruct (unseen_client all_keywords k seen) as [c|] eqn:Ec.
    + apply unseen_client_Some in Ec as [Hin Hc].
      assert (NoDup ((fun r => r.1.1) <$> results ++ [(c, k, s)])) as Hnd'.
      { rewrite fmap_app. apply NoDup_app. split_and!; [done| |apply NoDup_singleton].
        intros x Hx Hx'. apply list_elem_of_singleton in Hx'. simpl in Hx'.
        subst x. apply list_elem_of_fmap in Hx as (r & Hr & Hin'). apply Hc.
        rewrite Hr. by apply Hseen. }
      assert (Forall (fun r => (r.1.2, r.1.1) ∈ all_keywords /\
                               threshold <= r.2 /\ r.2 = scorer query r.1.2)
                     (results ++ [(c, k, s)])) as Hgood'.
      { apply Forall_app. split; [done|]. by repeat constructor. }
      assert (descending ((snd <$> results ++ [(c, k, s)]) ++ (snd <$> matches)))
        as Hdesc'.
      { rewrite fmap_app, <- app_assoc. by rewrite fmap_cons in Hdesc. }
      destruct (Nat.leb_spec limit (List.length (results ++ [(c, k, s)])))
        as [Hfull|Hroom].
      * split_and!; try done.
        -- unfold descending in *. by apply StronglySorted_app_1_l in Hdesc'.
        -- rewrite length_app in *. simpl in *. lia.
      * apply IH; try done.
        intros r Hr. apply elem_of_app in Hr as [Hr|Hr].
        -- apply elem_of_union. right. by apply Hseen.
        -- apply list_elem_of_singleton in Hr. subst r. simpl.
           apply elem_of_union. left. by apply elem_of_singleton.
    + destruct (Nat.leb_spec limit (List.length results)); [lia|].
      by apply IH.
Qed.

(** X6: [find_clients] gives nothing for the empty query; otherwise it gives
    at most [limit] results, for clients that are all different; each result
    pairs a client with one of its keywords of the index and the score of
    that keyword, which is at or above the threshold; and the scores run
    down. *)
Theorem find_clients_spec (keywords : dict (list string)) (query : string)
    (limit : nat) (threshold : Z) :
  let out := find_clients scorer keywords query limit threshold in
  (query = "" -> out = []) /\
  (List.length out <= limit)%nat /\
  NoDup ((fun r => r.1.1) <$> out) /\
  Forall (fun r =>
            (exists own, (r.1.1, own) ∈ keywords /\ r.1.2 ∈ own) /\
            threshold <= r.2 /\
            r.2 = scorer (normalized query) r.1.2) out /\
  descending (snd <$> out).
Proof.
  intros out. unfold out, find_clients.
  case_decide as Hq.
  { split_and!; try done; simpl; try lia; constructor. }
  fold (normalized query).
  destruct limit as [|limit].
  { change (extract scorer (normalized query)
              (map fst (flatten keywords)) (0 * 2)) with (@nil (string * Z)).
    split_and!; try done; simpl; try lia; constructor. }
  destruct (collect_spec (S limit) threshold (normalized query)
              (flatten keywords)
              (extract scorer (normalized query) (map fst (flatten keywords))
                       (S limit * 2)) [] ∅)
    as (Hnd & Hgood & Hdesc & Hlen).
  - constructor.
  - intros r Hr. by apply elem_of_nil in Hr.
  - constructor.
  - apply Forall_forall. intros m Hm.
    by apply (extract_scored scorer) in Hm as [_ ?].
  - apply extract_descending.
  - simpl. lia.
  - split_and!; try done.
    eapply Forall_impl; [exact Hgood|]. intros r (Hin & Ht & Hs).
    split_and!; try done. by apply flatten_elem.
Qed.

Lemma consider_sound (threshold : Z) (query : string)
    (all_keywords : list (string * string)) (matches : list (string * Z))
    (best : option string * Z) :
  Forall (fun m => m.2 = scorer query m.1) matches ->
  sound_best scorer threshold query all_keywords best ->
  sound_best scorer threshold query all_keywords
             (fold_left (consider threshold all_keywords) matches best).
Proof.
  revert best. induction matches as [|[k s] matches IH]; intros best Hm Hb;
    [done|].
  apply Forall_cons in Hm as [Hs Hm]. cbn [fold_left]. apply IH; [done|].
  unfold consider.
  destruct (Z.leb_spec threshold s) as [Hge|Hlt]; [|done].
  destruct (Z.ltb_spec best.2 s) as [Hbetter|Hworse]; [|done].
  cbn [andb].
  destruct (first_client _ all_keywords) as [c|] eqn:Ec; [|done].
  apply first_client_Some in Ec as (k' & Hin & Hk).
  apply bool_decide_eq_true in Hk. subst k'.
  unfold sound_best in *. simpl in *. split_and!; try done; [|eauto].
  destruct best as [[c0|] s0]; simpl in *; lia.
Qed.

(** X7: [find_client] never names a client that is not in the index.  With
    no client it gives the score 0; with a client the score is 100, or it is
    the score of a keyword of that client, positive and at or above the
    threshold. *)
Theorem find_client_sound (keywords : dict (list string)) (query : string)
    (threshold : Z) :
  let r := find_client scorer keywords query threshold in
  match r.1 with
  | None => r.2 = 0
  | Some c =>
      c ∈ PyDict.keys keywords /\
      (r.2 = 100 \/
       0 < r.2 /\ threshold <= r.2 /\
       exists k own, (c, own) ∈ keywords /\ k ∈ own /\
                     r.2 = scorer (normalized query) k)
  end.
Proof.
  intros r. unfold r, find_client.
  case_decide; [done|]. fold (normalized query).
  destruct (PyDict.contains keywords (normalized query)) eqn:Ec.
  { simpl. split; [by apply contains_keys | by left]. }
  destruct (first_client _ (flatten keywords)) as [c|] eqn:Ef.
  { simpl. split; [|by left].
    apply first_client_Some in Ef as (k & Hin & _).
    by eapply flatten_client_key. }
  pose proof (consider_sound threshold (normalized query) (flatten keywords)
    (extract scorer (normalized query) (map fst (flatten keywords)) 5)
    (None, 0)) as Hs.
  destruct (extract scorer (normalized query) (map fst (flatten keywords)) 5)
    as [|m matches] eqn:Em; [done|].
  rewrite <- Em in *.
  assert (sound_best scorer threshold (normalized query) (flatten keywords)
            (fold_left (consider threshold (flatten keywords))
               (extract scorer (normalized query)
                        (map fst (flatten keywords)) 5) (None, 0))) as Hb.
  { apply Hs; [|done]. apply Forall_forall. intros m' Hm'.
    by apply (extract_scored scorer) in Hm' as [_ ?]. }
  unfold sound_best in Hb.
  destruct (fold_left _ _ _) as [[c|] s]; simpl in *; [|done].
  destruct Hb as (Hpos & Hge & k & Hin & Hsc).
  split; [by eapply flatten_client_key|]. right. split_and!; try done.
  apply flatten_elem in Hin as (own & ? & ?). eauto.
Qed.

End scoring.

(** *** The keyword index *)

Lemma append_new_prefix (own : list string) (x : string) :
  own `prefix_of` append_new own x.
Proof.
  unfold append_new. destruct (PyStr.mem x own); [done|].
  by apply prefix_app_r.
Qed.

Lemma append_new_elem (own : list string) (x : string) :
  x ∈ append_new own x.
Proof.
  unfold append_new, PyStr.mem. case_bool_decide; [done|].
  apply elem_of_app. right. apply list_elem_of_here.
Qed.

Lemma append_new_NoDup (own : list string) (x : string) :
  NoDup own -> NoDup (append_new own x).
Proof.
  unfold append_new, PyStr.mem. case_bool_decide as Hx; [done|].
  intros Hnd. apply NoDup_app. split_and!; [done| |apply NoDup_singleton].
  intros y Hy Hy'. apply list_elem_of_singleton in Hy'. by subst.
Qed.

Lemma with_name_spec (own : list string) (name : string) :
  own `prefix_of` with_name own name /\
  PyStr.lower name ∈ with_name own name /\
  PyStr.replace_space "" (PyStr.lower name) ∈ with_name own name /\
  PyStr.replace_space "-" (PyStr.lower name) ∈ with_name own name /\
  (NoDup own -> NoDup (with_name own name)).
Proof.
  unfold with_name.
  set (a := append_new own (PyStr.lower name)).
  set (b := append_new a (PyStr.replace_space "" (PyStr.lower name))).
  assert (own `prefix_of` a) as Ha by apply append_new_prefix.
  assert (a `prefix_of` b) as Hb by apply append_new_prefix.
  pose proof (append_new_prefix b
                (PyStr.replace_space "-" (PyStr.lower name))) as Hc.
  split_and!.
  - by repeat (etrans; [done|]).
  - eapply elem_of_prefix; [|exact Hc].
    eapply elem_of_prefix; [|exact Hb]. apply append_new_elem.
  - eapply elem_of_prefix; [|exact Hc]. apply append_new_elem.
  - apply append_new_elem.
  - intros Hnd. by repeat apply append_new_NoDup.
Qed.

Lemma add_client_get (keywords : dict (list string)) (kv : string * string)
    (c : string) :
  PyDict.get (add_client keywords kv) c
  = if decide (kv.1 = c)
    then Some (with_name (get_keywords keywords c) kv.2)
    else PyDict.get keywords c.
Proof.
  unfold add_client, get_keywords, with_name.
  rewrite get_set. case_decide as Hc; [subst c|].
  - unfold PyDict.contains.
    destruct (PyDict.get keywords kv.1) as [own|] eqn:E; simpl.
    + by rewrite E.
    + by rewrite get_set_hit.
  - destruct (PyDict.contains keywords kv.1); [done|].
    by rewrite get_set, decide_False.
Qed.

(** What one more client leaves of the keywords of every client. *)
Lemma add_client_grows (keywords : dict (list string)) (kv : string * string)
    (c : string) :
  get_keywords keywords c `prefix_of` get_keywords (add_client keywords kv) c /\
  (NoDup (get_keywords keywords c) ->
   NoDup (get_keywords (add_client keywords kv) c)) /\
  (PyDict.contains (add_client keywords kv) c = true <->
   kv.1 = c \/ PyDict.contains keywords c = true).
Proof.
  unfold get_keywords at 2 4. unfold PyDict.contains at 1.
  rewrite add_client_get. case_decide as Hc; simpl.
  - destruct (with_name_spec (get_keywords keywords c) kv.2)
      as (Hp & _ & _ & _ & Hnd).
    split_and!; [done|done|]. split; [by left | done].
  - split_and!; [done|done|].
    unfold PyDict.contains. split; [by right | by intros [?|?]].
Qed.

Lemma add_clients_grow (clients : ClientDefinitions)
    (keywords : dict (list string)) (c : string) :
  let index := fold_left add_client (PyDict.items clients) keywords in
  get_keywords keywords c `prefix_of` get_keywords index c /\
  (NoDup (get_keywords keywords c) -> NoDup (get_keywords index c)) /\
  (PyDict.contains index c = true <->
   c ∈ PyDict.keys clients \/ PyDict.contains keywords c = true).
Proof.
  unfold PyDict.items. revert keywords.
  induction clients as [|kv clients IH]; intros keywords; simpl.
  - split_and!; try done. split; [by right|].
    intros [H|H]; [by apply elem_of_nil in H | done].
  - destruct (IH (add_client keywords kv)) as (Hp & Hnd & Hc).
    destruct (add_client_grows keywords kv c) as (Hp' & Hnd' & Hc').
    split_and!.
    + by etrans.
    + auto.
    + rewrite Hc, Hc', elem_of_cons.
      split; [intros [?|[?|?]] | intros [[?|?]|?]]; auto.
Qed.

Lemma default_index :
  fold_left (fun acc kv => PyDict.set acc kv.1 kv.2)
            (PyDict.items DEFAULT_KEYWORDS) []
  = DEFAULT_KEYWORDS.
Proof. reflexivity. Qed.

(** X8: the index keeps, for every client, the built-in keywords in their
    order and in front; its clients are the built-in ones and the ones
    supplied; the keywords of a supplied client hold its name in lower case,
    that name without spaces and that name with hyphens for spaces; and no
    client has a keyword twice. *)
Theorem index_spec (clients : ClientDefinitions) :
  let index := _build_keyword_index (Some clients) in
  (forall c, get_keywords DEFAULT_KEYWORDS c `prefix_of` get_keywords index c) /\
  (forall c, PyDict.contains index c = true <->
             c ∈ PyDict.keys clients \/ c ∈ PyDict.keys DEFAULT_KEYWORDS) /\
  (forall c name, (c, name) ∈ clients ->
     PyStr.lower name ∈ get_keywords index c /\
     PyStr.replace_space "" (PyStr.lower name) ∈ get_keywords index c /\
     PyStr.replace_space "-" (PyStr.lower name) ∈ get_keywords index c) /\
  (forall c, NoDup (get_keywords index c)).
Proof.
  intros index. unfold index, _build_keyword_index. rewrite default_index.
  split_and!.
  - intros c. apply add_clients_grow.
  - intros c.
    rewrite (proj2 (proj2 (add_clients_grow clients DEFAULT_KEYWORDS c))).
    by rewrite contains_keys.
  - intros c name Hin. unfold PyDict.items.
    apply list_elem_of_split in Hin as (before & after & ->).
    rewrite fold_left_app. cbn [fold_left].
    set (k0 := fold_left add_client before DEFAULT_KEYWORDS).
    destruct (add_clients_grow after (add_client k0 (c, name)) c)
      as (Hp & _ & _).
    unfold PyDict.items in Hp.
    assert (get_keywords (add_client k0 (c, name)) c
            = with_name (get_keywords k0 c) name) as Hk.
    { unfold get_keywords at 1. rewrite add_client_get. simpl.
      by rewrite decide_True. }
    rewrite Hk in Hp.
    destruct (with_name_spec (get_keywords k0 c) name)
      as (_ & H1 & H2 & H3 & _).
    split_and!; (eapply elem_of_prefix; [|exact Hp]); done.
  - intros c. apply add_clients_grow.
    unfold get_keywords.
    assert (Forall (fun kv : string * list string => NoDup kv.2)
                   DEFAULT_KEYWORDS) as Hall by compute_done.
    destruct (PyDict.get DEFAULT_KEYWORDS c) as [own|] eqn:E;
      [|apply NoDup_nil_2].
    apply get_elem_of in E. rewrite Forall_forall in Hall.
    apply (Hall _ E).
Qed.

Lemma index_spec_witness :
  let index := _build_keyword_index (Some [("vscode", "VS Code")]) in
  "vs code" ∈ get_keywords index "vscode" /\
  "vscode" ∈ get_keywords index "vscode" /\
  "vs-code" ∈ get_keywords index "vscode".
Proof.
  apply (proj1 (proj2 (proj2 (index_spec [("vscode", "VS Code")])))
           "vscode" "VS Code").
  apply list_elem_of_here.
Defined.

Lemma find_clients_spec_witness :
  find_clients exact_scorer (_build_keyword_index None) "" 5 50 = [] /\
  find_clients exact_scorer (_build_keyword_index None) "Code" 5 50
    = [("vscode-user", "code", 100)].
Proof.
  split.
  - apply (proj1 (find_clients_spec exact_scorer (_build_keyword_index None)
                    "" 5 50)). reflexivity.
  - vm_compute. reflexivity.
Defined.

End FuzzyExtras.

(** ** Reading and writing configuration files: further properties *)

Module CodexExtras.
Import CodexConfig Spec Samples PyDictFacts CodexParseFacts CodexWriteFacts.
Import CodexRoundTrip.

(** *** The environment of a written entry *)

Lemma get_add_user_env (base e : dict string) (k : string) :
  PyDict.get (add_user_env base e) k
  = match PyDict.get base k with
    | Some v => Some v
    | None => PyDict.get e k
    end.
Proof.
  unfold add_user_env, PyDict.items. revert base.
  induction e as [|[k0 v0] e IH]; intros base; cbn [fold_left].
  - by destruct (PyDict.get base k).
  - rewrite IH. cbn [fst snd]. unfold PyDict.contains.
    destruct (PyDict.get base k0) as [v1|] eqn:E0.
    + destruct (PyDict.get base k) as [v|] eqn:E; [done|].
      simpl. case_decide; [congruence | done].
    + rewrite get_set. simpl. case_decide as Hk.
      * subst k0. by rewrite E0.
      * done.
Qed.

Lemma add_user_env_filter (base e : dict string) :
  PyDict.wf e ->
  add_user_env base e
  = base ++ List.filter
              (fun kv => negb (PyStr.mem kv.1 (PyDict.keys base))) e.
Proof.
  unfold add_user_env, PyDict.items, PyDict.wf.
  induction e as [|[k v] e IH] using rev_ind; intros Hnd.
  - by rewrite app_nil_r.
  - rewrite keys_app in Hnd. apply NoDup_app in Hnd as (Hnd & Hdisj & _).
    rewrite fold_left_app. cbn [fold_left fst snd]. rewrite IH by done.
    unfold PyStr.mem. rewrite List.filter_app. cbn [List.filter fst].
    assert (k ∉ PyDict.keys e) as Hk.
    { intros Hin. apply (Hdisj _ Hin). apply list_elem_of_here. }
    destruct (decide (k ∈ PyDict.keys base)) as [Hb|Hb].
    + rewrite (bool_decide_true _ Hb). cbn [negb].
      rewrite (proj2 (contains_keys _ _)); [by rewrite app_nil_r|].
      rewrite keys_app, elem_of_app. by left.
    + rewrite (bool_decide_false _ Hb). cbn [negb].
      assert (k ∉ PyDict.keys
                (base ++ List.filter
                   (fun kv => negb (bool_decide (kv.1 ∈ PyDict.keys base))) e))
        as Hfresh.
      { rewrite keys_app, elem_of_app. intros [?|Hin]; [done|].
        apply Hk. eapply elem_of_sublist; [done | apply keys_filter]. }
      rewrite (proj2 (contains_false _ _) Hfresh).
      rewrite set_fresh by done. by rewrite <- app_assoc.
Qed.

(** Reading drops the variables that writing on Windows adds, and with them
    the user's own values of these variables. *)
Lemma windows_env_read (e : dict string) :
  PyDict.wf e ->
  List.filter (fun kv => negb (PyStr.mem kv.1 SYSTEM_VARS))
    (add_user_env
       [("SystemRoot", default "C:\Windows" (PyDict.get e "SystemRoot"));
        ("PROGRAMFILES",
         default "C:\Program Files" (PyDict.get e "PROGRAMFILES"))] e)
  = List.filter (fun kv => negb (PyStr.mem kv.1 SYSTEM_VARS)) e.
Proof.
  intros Hwf. rewrite add_user_env_filter by done.
  rewrite List.filter_app. cbn [List.filter fst PyDict.keys map].
  replace (negb (PyStr.mem "SystemRoot" SYSTEM_VARS)) with false
    by (symmetry; apply negb_false_iff; compute_done).
  replace (negb (PyStr.mem "PROGRAMFILES" SYSTEM_VARS)) with false
    by (symmetry; apply negb_false_iff; compute_done).
  cbn [app]. rewrite filter_filter. apply filter_ext. intros [k v].
  cbn [fst]. unfold PyStr.mem, SYSTEM_VARS.
  repeat case_bool_decide; try done; exfalso.
  all: repeat match goal with
       | H : _ ∈ _ :: _ |- _ => apply elem_of_cons in H as [->|H]
       | H : _ ∈ [] |- _ => by apply elem_of_nil in H
       | H : ~ _ ∈ _ |- _ => apply H; clear H
       end; eauto using list_elem_of_here, list_elem_of_further.
Qed.

(** X9: what reading gives for an entry that was written, whatever the
    entry: its command (["npx"] when it has none), its arguments, with the
    confirm flag in front when the command is ["npx"] and the flag was not
    there, its environment without the three system variables and otherwise
    in its order, and the timeout that was written.  On Windows this holds
    for every command; elsewhere the command must not be the launcher. *)
Theorem read_back_of_written (is_windows : bool) (c : server) :
  PyDict.wf (default [] (env c)) ->
  (is_windows = false -> ~ is_launcher (default "npx" (command c))) ->
  let cmd := default "npx" (command c) in
  let a := default [] (args c) in
  let a' := if bool_decide (cmd = "npx") && negb (PyStr.mem "-y" a)
            then "-y" :: a else a in
  _parse_codex_server (_format_codex_server is_windows c)
  = {| command := Some cmd;
       args := Some a';
       env := Some (List.filter
                      (fun kv => negb (PyStr.mem kv.1 SYSTEM_VARS))
                      (default [] (env c)));
       timeout_ms := Some (written_timeout c);
       startup_timeout_ms := None;
       server_type := if PyStr.mem "--stdio" a' then Some "stdio" else None |}.
Proof.
  intros Hwf Hl cmd a a'.
  destruct is_windows.
  - unfold _format_codex_server, _parse_codex_server.
    cbn [command args env timeout_ms startup_timeout_ms server_type
         from_option id].
    rewrite windows_env_read by done.
    fold cmd a. unfold a'.
    by destruct (bool_decide (cmd = "npx") && negb (PyStr.mem "-y" a)).
  - specialize (Hl eq_refl). rewrite launcher_test in Hl.
    apply not_true_is_false in Hl.
    unfold _format_codex_server, _parse_codex_server.
    cbn [command args env timeout_ms startup_timeout_ms server_type
         from_option id].
    fold cmd a. fold cmd in Hl. by rewrite Hl.
Qed.

Lemma read_back_of_written_witness :
  _parse_codex_server (_format_codex_server true launcher_with_drive)
  = {| command := Some "cmd"; args := Some ["/c"; "dir"];
       env := Some [("TOKEN", "t")]; timeout_ms := Some 0;
       startup_timeout_ms := None; server_type := None |}.
Proof.
  apply (read_back_of_written true launcher_with_drive);
    [compute_done | discriminate].
Defined.

(** X10: the fields of a written entry.  On Windows the command is the
    launcher and the arguments start with its switch and the command of the
    entry; the arguments of the entry come last, after the confirm flag when
    the command is ["npx"]; every variable of the entry keeps its value, and
    on Windows [SystemRoot] and [PROGRAMFILES] are bound as well, to their
    defaults when the entry does not bind them; the timeout is written under
    [startup_timeout_ms] only, it is the [timeout_ms] of the entry unless
    that is absent or zero, and it is zero only when the entry asks for a
    start-up timeout of zero. *)
Theorem format_entry_fields (is_windows : bool) (c : server) :
  let t := _format_codex_server is_windows c in
  let cmd := default "npx" (command c) in
  let e := default [] (env c) in
  command t = Some (if is_windows then "cmd" else cmd) /\
  (exists a', args t = Some (if is_windows then "/c" :: cmd :: a' else a') /\
              default [] (args c) `suffix_of` a' /\
              (cmd = "npx" -> "-y" ∈ a')) /\
  (exists wenv, env t = Some wenv /\
     forall k, PyDict.get wenv k
               = match PyDict.get e k with
                 | Some v => Some v
                 | None =>
                     if is_windows
                     then PyDict.get [("SystemRoot", "C:\Windows");
                                      ("PROGRAMFILES", "C:\Program Files")] k
                     else None
                 end) /\
  timeout_ms t = None /\
  startup_timeout_ms t = Some (written_timeout c) /\
  (forall z, timeout_ms c = Some z -> z <> 0 -> written_timeout c = z) /\
  (written_timeout c = 0 <->
   startup_timeout_ms c = Some 0 /\
   (timeout_ms c = None \/ timeout_ms c = Some 0)).
Proof.
  intros t cmd e.
  assert (exists a',
            (if bool_decide (cmd = "npx") &&
                negb (PyStr.mem "-y" (default [] (args c)))
             then ["-y"] else []) ++ default [] (args c) = a' /\
            default [] (args c) `suffix_of` a' /\
            (cmd = "npx" -> "-y" ∈ a')) as (a' & Ha' & Hsuf & Hy).
  { eexists. split; [done|]. split; [by eexists|]. intros Hc.
    rewrite (bool_decide_true _ Hc). cbn [andb]. unfold PyStr.mem.
    case_bool_decide; cbn [negb app]; [done | apply list_elem_of_here]. }
  split_and!.
  - unfold t, _format_codex_server. by destruct is_windows.
  - exists a'. split_and!; [|done|done].
    unfold t, _format_codex_server. fold cmd.
    destruct is_windows; cbn [args]; [by rewrite <- Ha'|].
    rewrite <- Ha'.
    by destruct (bool_decide (cmd = "npx") && negb (PyStr.mem "-y" _)).
  - unfold t, _format_codex_server. fold e.
    destruct is_windows; cbn [env]; eexists; (split; [done|]); intros k.
    + rewrite get_add_user_env. cbn [PyDict.get].
      repeat case_decide; subst;
        repeat match goal with
        | |- context [PyDict.get e ?k] => destruct (PyDict.get e k)
        end; done.
    + by destruct (PyDict.get e k).
  - unfold t, _format_codex_server. by destruct is_windows.
  - unfold t, _format_codex_server, written_timeout. by destruct is_windows.
  - intros z Hz Hz0. unfold written_timeout, py_or. rewrite Hz.
    by rewrite decide_False.
  - unfold written_timeout, py_or.
    destruct (timeout_ms c) as [z|], (startup_timeout_ms c) as [z'|];
      repeat case_decide; simpl; split;
      try (intros [[= ?] [?|[= ?]]]); try intros ?; subst;
      try done; try lia; split; auto.
Qed.

(** *** Reading a Codex file *)

Lemma get_read_loop (mcp_servers : dict toml_entry) (acc : dict server)
    (n : string) :
  PyDict.wf mcp_servers ->
  PyDict.get
    (fold_left
       (fun servers kv =>
          match kv.2 with
          | TTable server_config =>
              PyDict.set servers kv.1 (_parse_codex_server server_config)
          | TValue _ => servers
          end) mcp_servers acc) n
  = match PyDict.get mcp_servers n with
    | Some (TTable s) => Some (_parse_codex_server s)
    | _ => PyDict.get acc n
    end.
Proof.
  unfold PyDict.wf. revert acc.
  induction mcp_servers as [|[k v] m IH]; intros acc Hnd; [done|].
  apply NoDup_cons in Hnd as [Hk Hnd]. cbn [fold_left PyDict.get fst snd].
  rewrite IH by done. case_decide as Hkn.
  - subst k. rewrite (proj2 (get_None_keys m n) Hk).
    destruct v; [apply get_set_hit | done].
  - destruct (PyDict.get m n) as [[s|raw]|]; [done| |];
      (destruct v; [by rewrite get_set, decide_False | done]).
Qed.

(** X11: reading a Codex file gives, under a name, the canonical form of the
    table that the servers table of the file, written as a table or as an
    inline table, binds to the name; a name bound to something that is no
    table is passed over without hiding the others; a file that is missing,
    is no TOML, has no servers table or has something else under
    [mcp_servers] reads as no servers; and no name is read twice. *)
Theorem read_config_tables (fs : files) (path : Path) :
  wf_table fs path ->
  let back := get_mcpServers (read_config fs path) in
  PyDict.wf back /\
  forall n,
    PyDict.get back n
    = match fs !! path with
      | Some (TomlText doc) =>
          match PyDict.get doc "mcp_servers" with
          | Some (TServers mcp_servers) | Some (TInline mcp_servers) =>
              match PyDict.get mcp_servers n with
              | Some (TTable s) => Some (_parse_codex_server s)
              | _ => None
              end
          | _ => None
          end
      | _ => None
      end.
Proof.
  intros Hwf back.
  assert (forall m, PyDict.wf (get_mcpServers (servers_doc (read_servers m))))
    as Hread.
  { intros m.
    unfold get_mcpServers, servers_doc, read_servers, PyDict.items.
    cbn [mcpServers default from_option id].
    assert (PyDict.wf (@nil (string * server))) as Hnil by apply NoDup_nil_2.
    revert Hnil. generalize (@nil (string * server)).
    induction m as [|[n v] m IH]; intros acc Hacc; simpl; [done|].
    apply IH. destruct v; [by apply wf_set | done]. }
  assert (forall m n, PyDict.wf m ->
            PyDict.get (get_mcpServers (servers_doc (read_servers m))) n
            = match PyDict.get m n with
              | Some (TTable s) => Some (_parse_codex_server s)
              | _ => None
              end) as Hget.
  { intros m n Hm.
    unfold get_mcpServers, servers_doc, read_servers, PyDict.items.
    cbn [mcpServers default from_option id].
    rewrite get_read_loop by done.
    by destruct (PyDict.get m n) as [[s|raw]|]. }
  split.
  - unfold back, read_config.
    destruct (fs !! path) as [[j|t raw|raw|doc|raw|raw]|];
      try apply NoDup_nil_2.
    destruct (PyDict.get doc "mcp_servers") as [[m|m|raw]|];
      try apply NoDup_nil_2; apply Hread.
  - intros n. unfold back, read_config.
    destruct (fs !! path) as [[j|t raw|raw|doc|raw|raw]|] eqn:Ef; try done.
    destruct (PyDict.get doc "mcp_servers") as [[m|m|raw]|] eqn:Ed; try done.
    + apply Hget. eapply Hwf; [done | by left].
    + apply Hget. eapply Hwf; [done | by right].
Qed.

Lemma read_config_tables_witness :
  let back := get_mcpServers (read_config codex_file ["config.toml"]) in
  PyDict.get back "p" = Some (_parse_codex_server plain_python) /\
  PyDict.get back "stray" = None.
Proof.
  assert (wf_table codex_file ["config.toml"]) as Hwf.
  { intros doc m Hf Hd. vm_compute in Hf. injection Hf as <-.
    vm_compute in Hd. destruct Hd as [Hd|Hd]; [|discriminate Hd].
    injection Hd as <-. compute_done. }
  split;
    [exact (proj2 (read_config_tables codex_file ["config.toml"] Hwf) "p")
    |exact (proj2 (read_config_tables codex_file ["config.toml"] Hwf)
              "stray")].
Defined.

(** *** Writing a Codex file *)

Lemma keys_update_src {V : Type} (d src : dict V) (k : string) :
  k ∈ PyDict.keys src -> k ∈ PyDict.keys (PyDict.update d src).
Proof.
  induction src as [|[k0 v0] src IH] using rev_ind; intros Hk.
  - by apply elem_of_nil in Hk.
  - rewrite update_snoc. rewrite keys_app, elem_of_app in Hk.
    destruct (decide (k = k0)) as [->|Hne].
    + apply keys_get. rewrite get_set_hit. by eexists.
    + destruct Hk as [Hk|Hk].
      * apply keys_get. rewrite get_set, decide_False by done.
        apply keys_get. auto.
      * apply list_elem_of_singleton in Hk. done.
Qed.

Lemma keys_written (is_windows : bool) (mcp_servers : dict toml_entry)
    (new_servers : dict server) (n : string) :
  n ∈ PyDict.keys (written is_windows mcp_servers new_servers)
  <-> n ∈ PyDict.keys new_servers.
Proof.
  unfold written. rewrite drop_servers_filter, put_servers_update.
  rewrite keys_get.
  rewrite (get_filter_keys (fun k => PyStr.mem k (PyDict.keys new_servers))).
  unfold PyStr.mem. case_bool_decide as Hn.
  - rewrite <- keys_get. split; [done|]. intros _.
    apply keys_update_src. by rewrite keys_map_values.
  - split; [by intros [? ?] | done].
Qed.

(** The document [write_config] starts from is that of the earlier file
    when that is kept and parses, and empty otherwise. *)
Lemma load_doc_kept (fs : files) (path : Path) (preserve_existing : bool)
    (doc : toml_doc) :
  load_doc fs path preserve_existing = Some doc ->
  doc = match fs !! path with
        | Some (TomlText doc) => if preserve_existing then doc else []
        | _ => []
        end.
Proof.
  unfold load_doc. destruct preserve_existing; cbn [andb].
  - destruct (path_exists fs path) eqn:Ex.
    + destruct (fs !! path) as [[]|]; by intros [= <-].
    + intros [= <-]. destruct (fs !! path) as [c|] eqn:Ef; [|done].
      by rewrite (path_exists_file _ _ _ Ef) in Ex.
  - intros [= <-]. by destruct (fs !! path) as [[]|].
Qed.

Lemma load_doc_ready (fs : files) (path : Path) (preserve_existing : bool) :
  codex_ready fs path \/ preserve_existing = false ->
  exists doc, load_doc fs path preserve_existing = Some doc /\
    match PyDict.get doc "mcp_servers" with
    | Some (TServers _) | None => True
    | Some _ => False
    end.
Proof.
  unfold load_doc. intros [[Hw Hf]| ->]; [|by exists []].
  destruct (preserve_existing && path_exists fs path) eqn:E; [|by exists []].
  apply andb_true_iff in E as [_ Hex].
  destruct (fs !! path) as [[j|t raw|raw|doc|raw|raw]|] eqn:Ef;
    try (by exists []); [by exists doc|].
  unfold path_exists in Hex. rewrite Ef in Hex.
  rewrite bool_decide_false in Hex by by intros [? ?].
  unfold can_write in Hw. cbn [orb] in Hex. rewrite Hex in Hw.
  by rewrite andb_false_r in Hw.
Qed.

(** X12: what writing a Codex file does.  It touches no other file, and when
    it fails it leaves the file as it was.  It fails when the path cannot be
    written (a regular file on the way, or a directory at the path), and,
    where the existing file is to be preserved, when the bytes of the file
    are no text, when the file has something under [mcp_servers] that is no
    table, and when there are servers to write into an inline table.  It
    succeeds when the path can be written and either the existing file is
    not kept, or it decodes and has a table or nothing under [mcp_servers].
    After a success the file is a TOML document whose servers table binds
    exactly the names of the configuration, and whose other sections are
    those of the earlier file when that was to be preserved and parsed, and
    none otherwise. *)
Theorem write_config_effect (is_windows : bool) (fs : files) (path : Path)
    (config : json_doc) (preserve_existing : bool) :
  let r := write_config is_windows fs path config preserve_existing in
  let kept :=
    match fs !! path with
    | Some (TomlText doc) => if preserve_existing then doc else []
    | _ => []
    end in
  (forall p, p <> path -> r.1 !! p = fs !! p) /\
  (r.2 = false -> r.1 = fs) /\
  (can_write fs path = false -> r.2 = false) /\
  (preserve_existing = true ->
   (exists raw, fs !! path = Some (Undecodable raw)) -> r.2 = false) /\
  ((exists raw, PyDict.get kept "mcp_servers" = Some (TItem raw)) ->
   r.2 = false) /\
  ((exists m, PyDict.get kept "mcp_servers" = Some (TInline m)) ->
   get_mcpServers config <> [] -> r.2 = false) /\
  (can_write fs path = true ->
   codex_ready fs path \/ preserve_existing = false -> r.2 = true) /\
  (r.2 = true ->
   exists doc table mcp_servers,
     r.1 !! path = Some (TomlText doc) /\
     PyDict.get doc "mcp_servers" = Some (table mcp_servers) /\
     (table = TServers \/ table = TInline) /\
     (forall k, k <> "mcp_servers" -> PyDict.get doc k = PyDict.get kept k) /\
     (forall n, n ∈ PyDict.keys mcp_servers
                <-> n ∈ PyDict.keys (get_mcpServers config))).
Proof.
  intros r kept.
  assert (Hr : r = write_config is_windows fs path config preserve_existing)
    by done.
  unfold write_config, write_doc, PyDict.contains in Hr.
  split_and!.
  - intros p Hp. rewrite Hr.
    destruct (load_doc fs path preserve_existing) as [doc|]; [|done].
    destruct (PyDict.get doc "mcp_servers") as [[m|m|raw]|] eqn:Eg;
      rewrite ?Eg, ?get_set_hit; try done.
    + destruct (can_write fs path); [|done]. by apply lookup_insert_ne.
    + destruct (get_mcpServers config); [|done].
      destruct (can_write fs path); [|done]. by apply lookup_insert_ne.
    + destruct (can_write fs path); [|done]. by apply lookup_insert_ne.
  - rewrite Hr.
    destruct (load_doc fs path preserve_existing) as [doc|]; [|done].
    destruct (PyDict.get doc "mcp_servers") as [[m|m|raw]|] eqn:Eg;
      rewrite ?Eg, ?get_set_hit; try done.
    + by destruct (can_write fs path).
    + destruct (get_mcpServers config); [|done].
      by destruct (can_write fs path).
    + by destruct (can_write fs path).
  - intros Hw. rewrite Hr, Hw.
    destruct (load_doc fs path preserve_existing) as [doc|]; [|done].
    destruct (PyDict.get doc "mcp_servers") as [[m|m|raw]|] eqn:Eg;
      rewrite ?Eg, ?get_set_hit; try done.
    by destruct (get_mcpServers config).
  - intros -> (raw & Hraw). rewrite Hr. unfold load_doc.
    by rewrite (path_exists_file _ _ _ Hraw), Hraw.
  - intros (raw & Hraw). rewrite Hr.
    destruct (load_doc fs path preserve_existing) as [doc|] eqn:El; [|done].
    assert (doc = kept) as -> by by apply load_doc_kept.
    rewrite Hraw. by rewrite Hraw.
  - intros (m & Hm) Hne. rewrite Hr.
    destruct (load_doc fs path preserve_existing) as [doc|] eqn:El; [|done].
    assert (doc = kept) as -> by by apply load_doc_kept.
    rewrite Hm. rewrite Hm.
    by destruct (get_mcpServers config).
  - intros Hw Hready. rewrite Hr, Hw.
    destruct (load_doc_ready fs path preserve_existing Hready)
      as (doc & -> & Hdoc).
    destruct (PyDict.get doc "mcp_servers") as [[m|m|raw]|] eqn:Eg;
      rewrite ?Eg, ?get_set_hit; done.
  - rewrite Hr.
    destruct (load_doc fs path preserve_existing) as [doc|] eqn:El; [|done].
    assert (kept = doc) as -> by (symmetry; by apply load_doc_kept).
    destruct (PyDict.get doc "mcp_servers") as [[m|m|raw]|] eqn:Eg;
      rewrite ?Eg, ?get_set_hit; try done.
    + destruct (can_write fs path); [|done]. intros _. cbn [fst].
      eexists _, TServers, _. split_and!.
      * apply lookup_insert_eq.
      * apply get_set_hit.
      * by left.
      * intros k Hk. by rewrite get_set, decide_False.
      * apply keys_written.
    + destruct (get_mcpServers config) eqn:Ec; [|done].
      destruct (can_write fs path); [|done]. intros _. cbn [fst].
      eexists _, TInline, _. split_and!.
      * apply lookup_insert_eq.
      * apply get_set_hit.
      * by right.
      * intros k Hk. by rewrite get_set, decide_False.
      * apply (keys_written is_windows m []).
    + destruct (can_write fs path); [|done]. intros _. cbn [fst].
      eexists _, TServers, _. split_and!.
      * apply lookup_insert_eq.
      * apply get_set_hit.
      * by left.
      * intros k Hk. rewrite !get_set, !decide_False by done. done.
      * apply keys_written.
Qed.

Lemma write_config_effect_witness :
  (write_config false binary_file ["config.toml"]
     (servers_doc sample_config) true).2 = false /\
  (write_config false inline_file ["config.toml"]
     (servers_doc sample_config) true).2 = false /\
  (write_config false codex_file ["config.toml"; "sub"]
     (servers_doc sample_config) true).2 = false /\
  (write_config false codex_file ["config.toml"]
     (servers_doc sample_config) true).2 = true /\
  (write_config false binary_file ["config.toml"]
     (servers_doc sample_config) false).2 = true.
Proof.
  destruct (write_config_effect false binary_file ["config.toml"]
              (servers_doc sample_config) true)
    as (_ & _ & _ & Hbytes & _).
  destruct (write_config_effect false inline_file ["config.toml"]
              (servers_doc sample_config) true)
    as (_ & _ & _ & _ & _ & Hinline & _).
  destruct (write_config_effect false codex_file ["config.toml"; "sub"]
              (servers_doc sample_config) true)
    as (_ & _ & Hway & _).
  destruct (write_config_effect false codex_file ["config.toml"]
              (servers_doc sample_config) true)
    as (_ & _ & _ & _ & _ & _ & Hready & _).
  destruct (write_config_effect false binary_file ["config.toml"]
              (servers_doc sample_config) false)
    as (_ & _ & _ & _ & _ & _ & Hfresh & _).
  split_and!.
  - apply Hbytes; [reflexivity | by eexists].
  - apply Hinline; [by eexists | discriminate].
  - apply Hway. reflexivity.
  - apply Hready; [reflexivity|]. left. split; [reflexivity | exact I].
  - apply Hfresh; [reflexivity | by right].
Defined.

(** *** The two formats *)



(** A JSON file cannot be written below a regular file, nor over a
    directory. *)
Example json_write_blocked_sample :
  TomlConfigManager.write_config false codex_file ["config.toml"; "mcp.json"]
    (servers_doc sample_config) "json" true = (codex_file, false) /\
  TomlConfigManager.write_config false cursor_disk [""; "home"; "u"]
    (servers_doc sample_config) "json" true = (cursor_disk, false).
Proof. split; vm_compute; reflexivity. Qed.

Lemma lower_ascii_idem (c : ascii) :
  PyStr.lower_ascii (PyStr.lower_ascii c) = PyStr.lower_ascii c.
Proof.
  destruct c as [[] [] [] [] [] [] [] []]; vm_compute; reflexivity.
Qed.

Lemma lower_idem (s : string) : PyStr.lower (PyStr.lower s) = PyStr.lower s.
Proof.
  induction s as [|c s IH]; simpl; [done|]. by rewrite lower_ascii_idem, IH.
Qed.

(** X14: the format of a client is never empty and is in lower case; a
    format given in the client configuration wins, in lower case; without
    one the format is ["toml"] for the client ["codex"] and ["json"] for
    every other client.  So a configuration that says ["TOML"] is read by the
    Codex reader. *)
Theorem get_config_format_spec (client_id : string)
    (client_config : dict string) (fs : files) (path : Path) :
  let f := get_config_format client_id client_config in
  let given :=
    PyStr.lower (default "" (PyDict.get client_config "config_format")) in
  f <> "" /\
  PyStr.lower f = f /\
  f = (if decide (given = "") then
         if decide (client_id = "codex") then "toml" else "json"
       else given) /\
  (given = "toml" ->
   TomlConfigManager.read_config fs path f
   = Returns (JObject (read_config fs path))).
Proof.
  intros f given.
  assert (f = (if decide (given = "") then
                 if decide (client_id = "codex") then "toml" else "json"
               else given)) as Hf.
  { unfold f, get_config_format. fold given. unfold PyStr.mem.
    case_bool_decide as Hg; cbn [negb].
    - rewrite decide_True by done.
      case_bool_decide as Hc; case_decide as Hc'; try done.
      + apply list_elem_of_singleton in Hc. done.
      + exfalso. apply Hc. subst. apply list_elem_of_here.
    - by rewrite decide_False. }
  split_and!.
  - rewrite Hf. repeat case_decide; done.
  - rewrite Hf. repeat case_decide; try done. apply lower_idem.
  - done.
  - intros Hg. rewrite Hf, Hg. rewrite decide_False by done.
    unfold TomlConfigManager.read_config. by rewrite decide_True.
Qed.

End CodexExtras.

(** ** Synchronisation: further properties *)

Module SyncExtras.
Import BackupManager DirectSyncEngine Spec Samples.
Import PyDictFacts PathFacts CodexRoundTrip DirectSyncFacts BackupFacts.
Import BackupExtras.

(** *** The shape of a run *)


Lemma read_same_file (fs fs' : files) (path : Path) (config_format : string) :
  fs' !! path = fs !! path ->
  TomlConfigManager.read_config fs' path config_format
  = TomlConfigManager.read_config fs path config_format.
Proof.
  intros H. unfold TomlConfigManager.read_config, CodexConfig.read_config.
  by rewrite H.
Qed.




(** *** Undoing a run *)


(** *** The plan of a run *)

#[local] Instance oldest_first_total : Total PyStr.le.
Proof. intros a b. unfold PyStr.le. destruct (String.leb_total a b); auto. Qed.

#[local] Instance oldest_first_trans : Transitive PyStr.le.
Proof. intros a b c Hab Hbc. unfold PyStr.le in *. by eapply leb_trans. Qed.

Lemma sorted_names_spec (names : gset string) :
  StronglySorted PyStr.le (sorted_names names) /\
  NoDup (sorted_names names) /\
  List.length (sorted_names names) = size names /\
  forall x, x ∈ sorted_names names <-> x ∈ names.
Proof.
  pose proof (sorted_names_perm names) as Hp. split_and!.
  - apply StronglySorted_merge_sort; apply _.
  - rewrite Hp. apply NoDup_elements.
  - by rewrite Hp.
  - intros x. rewrite Hp. apply elem_of_elements.
Qed.

Lemma differs_spec (source_servers target_servers : dict server)
    (x : string) :
  x ∈ servers_to_update source_servers target_servers
  <-> exists a b, PyDict.get source_servers x = Some a /\
                  PyDict.get target_servers x = Some b /\
                  server_eqb a b = false.
Proof.
  unfold servers_to_update. rewrite elem_of_filter_set.
  unfold differs, PyDict.contains. split.
  - intros [_ H].
    destruct (PyDict.get source_servers x) as [a|],
             (PyDict.get target_servers x) as [b|]; try done.
    exists a, b. split_and!; try done. by apply negb_true_iff.
  - intros (a & b & Ha & Hb & Hab). split; [by eapply get_Some_keys|].
    by rewrite Ha, Hb, Hab.
Qed.

Lemma no_changes_in_sync (source_servers target_servers : dict server) :
  (size (servers_to_add source_servers target_servers)
   + size (servers_to_update source_servers target_servers)
   + size (servers_to_remove source_servers target_servers) = 0)%nat
  <-> in_sync source_servers target_servers.
Proof.
  unfold in_sync. split.
  - intros H.
    assert (servers_to_add source_servers target_servers = ∅) as HA
      by (apply leibniz_equiv, size_empty_inv; lia).
    assert (servers_to_update source_servers target_servers = ∅) as HU
      by (apply leibniz_equiv, size_empty_inv; lia).
    assert (servers_to_remove source_servers target_servers = ∅) as HR
      by (apply leibniz_equiv, size_empty_inv; lia).
    split.
    + intros n. split; intros Hn.
      * destruct (decide (n ∈ PyDict.keys target_servers)); [done|].
        assert (n ∈ servers_to_add source_servers target_servers) as Hin.
        { unfold servers_to_add.
          rewrite elem_of_difference, !elem_of_list_to_set. done. }
        rewrite HA in Hin. by apply not_elem_of_empty in Hin.
      * destruct (decide (n ∈ PyDict.keys source_servers)); [done|].
        assert (n ∈ servers_to_remove source_servers target_servers) as Hin.
        { unfold servers_to_remove.
          rewrite elem_of_difference, !elem_of_list_to_set. done. }
        rewrite HR in Hin. by apply not_elem_of_empty in Hin.
    + intros n a b Ha Hb. destruct (server_eqb a b) eqn:Hab; [done|].
      assert (n ∈ servers_to_update source_servers target_servers) as Hin
        by (apply differs_spec; eauto).
      rewrite HU in Hin. by apply not_elem_of_empty in Hin.
  - intros [Hnames Heq].
    assert (servers_to_add source_servers target_servers = ∅) as ->.
    { apply set_eq. intros n. unfold servers_to_add.
      rewrite elem_of_difference, !elem_of_list_to_set, Hnames.
      split; [tauto | by intros ?%not_elem_of_empty]. }
    assert (servers_to_update source_servers target_servers = ∅) as ->.
    { apply set_eq. intros n. rewrite differs_spec.
      split; [|by intros ?%not_elem_of_empty].
      intros (a & b & Ha & Hb & Hab). rewrite (Heq n a b Ha Hb) in Hab.
      done. }
    assert (servers_to_remove source_servers target_servers = ∅) as ->.
    { apply set_eq. intros n. unfold servers_to_remove.
      rewrite elem_of_difference, !elem_of_list_to_set, Hnames.
      split; [tauto | by intros ?%not_elem_of_empty]. }
    by rewrite size_empty.
Qed.

(** X17: the plan in the result of a run, a preview or not.  Each of its
    three lists is sorted and free of duplicates; the names to add are those
    of the source that the target lacks, the names to remove those of the
    target that the source lacks, the names to update those bound in both to
    entries that differ; the number of changes is the sum of the lengths; and
    it is zero exactly when source and target have the same names bound to
    equal entries. *)
Theorem plan_of_result (e : environ) (w : world)
    (source_path target_path : Path) (source_id target_id : string)
    (source_format target_format : option string) (dry_run : bool)
    (src tgt : string) (a u rm : list string) (n : nat) :
  let r := _sync_paths e w source_path target_path source_id target_id
                       source_format target_format dry_run in
  let source_servers := servers_at w source_path source_format in
  let target_servers := servers_at w target_path target_format in
  (r.2 = Preview src tgt a u rm n \/
   exists b, r.2 = Synced src tgt b a u rm n) ->
  (StronglySorted PyStr.le a /\ NoDup a) /\
  (StronglySorted PyStr.le u /\ NoDup u) /\
  (StronglySorted PyStr.le rm /\ NoDup rm) /\
  (forall x, x ∈ a <-> x ∈ PyDict.keys source_servers /\
                       x ∉ PyDict.keys target_servers) /\
  (forall x, x ∈ rm <-> x ∈ PyDict.keys target_servers /\
                        x ∉ PyDict.keys source_servers) /\
  (forall x, x ∈ u <-> exists s t,
                PyDict.get source_servers x = Some s /\
                PyDict.get target_servers x = Some t /\
                server_eqb s t = false) /\
  n = (List.length a + List.length u + List.length rm)%nat /\
  (n = 0%nat <-> in_sync source_servers target_servers).
Proof.
  intros r source_servers target_servers Hr.
  set (A := servers_to_add source_servers target_servers).
  set (U := servers_to_update source_servers target_servers).
  set (R := servers_to_remove source_servers target_servers).
  assert (a = sorted_names A /\ u = sorted_names U /\ rm = sorted_names R /\
          n = (size A + size U + size R)%nat) as (-> & -> & -> & ->).
  { destruct (sync_cases e w source_path target_path source_id target_id
                source_format target_format dry_run)
      as [(x & Hc & _)|[[_ Hc]|[(_ & _ & _ & Hc)|(_ & _ & _ & Hc)]]];
      fold r in Hc; rewrite Hc in Hr; cbn [snd] in Hr.
    - by destruct Hr as [?|[? ?]].
    - by destruct Hr as [?|[? ?]].
    - destruct Hr as [[= _ _ <- <- <- <-]|[? [=]]]. done.
    - destruct (TomlConfigManager.write_config _ _ _ _ _ _).2;
        destruct Hr as [[=]|[? Hr]]; [|done].
      by injection Hr as _ _ _ <- <- <- <-. }
  destruct (sorted_names_spec A) as (HA1 & HA2 & HA3 & HA4).
  destruct (sorted_names_spec U) as (HU1 & HU2 & HU3 & HU4).
  destruct (sorted_names_spec R) as (HR1 & HR2 & HR3 & HR4).
  split_and!; try done.
  - intros x. rewrite HA4. unfold A, servers_to_add.
    by rewrite elem_of_difference, !elem_of_list_to_set.
  - intros x. rewrite HR4. unfold R, servers_to_remove.
    by rewrite elem_of_difference, !elem_of_list_to_set.
  - intros x. rewrite HU4. apply differs_spec.
  - by rewrite HA3, HU3, HR3.
  - apply no_changes_in_sync.
Qed.

Lemma plan_of_result_witness :
  (StronglySorted PyStr.le ["a"] /\ NoDup ["a"]) /\
  (StronglySorted PyStr.le [] /\ NoDup (@nil string)) /\
  (StronglySorted PyStr.le ["b"] /\ NoDup ["b"]) /\
  (forall x, x ∈ ["a"] <->
     x ∈ PyDict.keys (servers_at a_over_b ["src.json"] None) /\
     x ∉ PyDict.keys (servers_at a_over_b ["tgt.json"] None)) /\
  (forall x, x ∈ ["b"] <->
     x ∈ PyDict.keys (servers_at a_over_b ["tgt.json"] None) /\
     x ∉ PyDict.keys (servers_at a_over_b ["src.json"] None)) /\
  (forall x, x ∈ [] <-> exists s t,
     PyDict.get (servers_at a_over_b ["src.json"] None) x = Some s /\
     PyDict.get (servers_at a_over_b ["tgt.json"] None) x = Some t /\
     server_eqb s t = false) /\
  2%nat = (List.length ["a"] + List.length (@nil string)
           + List.length ["b"])%nat /\
  (2%nat = 0%nat <->
   in_sync (servers_at a_over_b ["src.json"] None)
           (servers_at a_over_b ["tgt.json"] None)).
Proof.
  apply (plan_of_result test_environ a_over_b ["src.json"] ["tgt.json"]
           "src" "tgt" None None false "src.json" "tgt.json"
           ["a"] [] ["b"] 2).
  right.
  exists (Some
    "/home/u/.config/mcp-sync/backups/20240128_123456_000001/tgt.json").
  vm_compute. reflexivity.
Defined.

(** *** A second run *)

Lemma env_eqb_refl (ea : dict string) :
  PyDict.wf ea -> PyDict.eqb (fun x y => bool_decide (x = y)) ea ea = true.
Proof.
  intros Hwf. unfold PyDict.eqb. rewrite Nat.eqb_refl. cbn [andb].
  apply forallb_forall. intros [k v] Hin. apply list_elem_of_In in Hin.
  cbn [fst snd]. rewrite (elem_of_get _ _ _ Hwf Hin).
  by apply bool_decide_eq_true.
Qed.

Lemma server_eqb_refl (a : server) :
  PyDict.wf (default [] (env a)) -> server_eqb a a = true.
Proof.
  intros Hwf. unfold server_eqb. rewrite !bool_decide_true by done.
  destruct (env a) as [ea|]; [|done]. cbn [andb]. rewrite env_eqb_refl; done.
Qed.

Lemma sorted_names_empty : sorted_names ∅ = [].
Proof. unfold sorted_names. by rewrite elements_empty. Qed.

Lemma read_at_same_file (w w' : world) (path : Path) (given : option string) :
  disk w' !! path = disk w !! path ->
  read_at w' path given = read_at w path given.
Proof. intros H. unfold read_at. by rewrite (read_same_file _ _ _ _ H). Qed.

(** X18: after a run that wrote a JSON target from a source at another
    path, the target holds the merged servers, and a second run finds
    nothing to add and writes the same file again; it still lists the names
    of the target alone for removal, as the first run did, since no run
    removes them; and it finds nothing to update when no entry of the source
    binds a variable twice. *)
Theorem json_sync_settles (e e' : environ) (w : world)
    (source_path target_path : Path) (source_id target_id : string)
    (source_format target_format : option string) :
  source_path <> target_path ->
  infer_format target_format target_path <> "toml" ->
  PyDict.wf (servers_at w source_path source_format) ->
  let source_servers := servers_at w source_path source_format in
  let target_servers := servers_at w target_path target_format in
  let r1 := _sync_paths e w source_path target_path source_id target_id
                        source_format target_format false in
  let r2 := _sync_paths e' r1.1 source_path target_path source_id target_id
                        source_format target_format false in
  success r1.2 = true ->
  disk r1.1 !! target_path
  = Some (JsonText (servers_doc (merge_servers source_servers
                                               target_servers))) /\
  disk r2.1 = disk r1.1 /\
  exists b u n,
    r2.2 = Synced (path_str source_path) (path_str target_path) b [] u
             (sorted_names (servers_to_remove source_servers target_servers))
             n /\
    ((forall x c, PyDict.get source_servers x = Some c ->
                  PyDict.wf (default [] (env c))) ->
     u = [] /\
     n = size (servers_to_remove source_servers target_servers)).
Proof.
  intros Hpaths Hjson Hwf source_servers target_servers r1 r2 Hok1.
  subst source_servers target_servers.
  set (source_servers := servers_at w source_path source_format) in *.
  set (target_servers := servers_at w target_path target_format) in *.
  set (merged := merge_servers source_servers target_servers).
  assert (r1.1 = {| disk := <[target_path := JsonText (servers_doc merged)]>
                              (disk w);
                    backups := backups r1.1 |} /\
          can_write (disk w) target_path = true /\
          source_servers <> []) as (Hw1 & Hcw & Hne).
  { destruct (sync_cases e w source_path target_path source_id target_id
                source_format target_format false)
      as [(x & Hr & _)|[[_ Hr]|[(_ & _ & ? & _)|(Hne & _ & _ & Hr)]]];
      [fold r1 in Hr; by rewrite Hr in Hok1
      |fold r1 in Hr; by rewrite Hr in Hok1
      |done|].
    fold r1 in Hr. rewrite Hr in Hok1 |- *. revert Hok1.
    unfold TomlConfigManager.write_config.
    rewrite decide_False by done.
    destruct (can_write (disk w) target_path); [|done]. done. }
  destruct (servers_at_readable _ _ _ Hne) as [S HS].
  assert (read_at r1.1 source_path source_format = Returns (Servers S))
    as HS1.
  { rewrite <- HS. apply read_at_same_file.
    rewrite Hw1. cbn [disk]. by rewrite lookup_insert_ne. }
  assert (read_at r1.1 target_path target_format = Returns (Servers merged))
    as HT1.
  { unfold read_at, TomlConfigManager.read_config.
    rewrite decide_False by done. rewrite Hw1. cbn [disk].
    by rewrite lookup_insert_eq. }
  assert (S = source_servers) as ->
    by (symmetry; by apply servers_at_read).
  destruct (servers_at_read _ _ _ _ HS1) as [Hs Hrs].
  destruct (servers_at_read _ _ _ _ HT1) as [Ht Hrt].
  assert (merge_servers source_servers merged = merged) as Hagain.
  { unfold merge_servers. apply update_same. intros k v Hin.
    unfold merged, merge_servers. rewrite get_update by done.
    by rewrite (elem_of_get _ _ _ Hwf Hin). }
  assert (servers_to_add source_servers merged = ∅) as Hadd.
  { apply set_eq. intros x. unfold servers_to_add.
    rewrite elem_of_difference, !elem_of_list_to_set.
    split; [|by intros ?%not_elem_of_empty]. intros [Hx Hnot].
    exfalso. apply Hnot. unfold merged, merge_servers.
    apply (keys_update _ _ _ Hwf). by left. }
  assert (servers_to_remove source_servers merged
          = servers_to_remove source_servers target_servers) as Hrm.
  { apply set_eq. intros x. unfold servers_to_remove.
    rewrite !elem_of_difference, !elem_of_list_to_set.
    unfold merged, merge_servers. rewrite (keys_update _ _ _ Hwf). tauto. }
  assert (can_write (disk r1.1) target_path = true) as Hcw1.
  { rewrite Hw1. cbn [disk]. by rewrite can_write_insert. }
  assert (exists saved,
    r2 = ({| disk := disk r1.1; backups := saved.1 |},
          Synced (path_str source_path) (path_str target_path)
            (path_str <$> saved.2) []
            (sorted_names (servers_to_update source_servers merged))
            (sorted_names (servers_to_remove source_servers target_servers))
            (size (servers_to_update source_servers merged)
             + size (servers_to_remove source_servers target_servers))))
    as (saved & Hr2).
  { destruct (sync_cases e' r1.1 source_path target_path source_id target_id
                source_format target_format false)
      as [(x & _ & [Hno|Hno])|[[(v & Hv & Hnone) _]|[(_ & _ & ? & _)|(_ & _ & _ & Hr)]]];
      try done.
    - rewrite HS1 in Hv. injection Hv as <-.
      by destruct source_servers.
    - fold r2 in Hr. rewrite Hr. rewrite Hs, Ht, Hagain, Hadd, Hrm.
      unfold TomlConfigManager.write_config. rewrite decide_False by done.
      rewrite Hcw1. cbn [fst snd]. rewrite sorted_names_empty, size_empty.
      eexists. f_equal. f_equal.
      rewrite Hw1 at 1. cbn [disk]. rewrite Hw1. cbn [disk].
      by rewrite insert_insert_eq. }
  split_and!.
  - rewrite Hw1. cbn [disk]. apply lookup_insert_eq.
  - by rewrite Hr2.
  - rewrite Hr2. cbn [snd].
    eexists _, _, _. split; [done|]. intros Henv.
    assert (servers_to_update source_servers merged = ∅) as ->.
    { apply set_eq. intros x. rewrite differs_spec.
      split; [|by intros ?%not_elem_of_empty].
      intros (s & t & Hs' & Ht' & Hst).
      unfold merged, merge_servers in Ht'. rewrite get_update in Ht' by done.
      rewrite Hs' in Ht'. injection Ht' as <-.
      rewrite server_eqb_refl in Hst by eauto. done. }
    rewrite sorted_names_empty, !size_empty. done.
Qed.

Lemma json_sync_settles_witness :
  let r1 := _sync_paths test_environ a_over_b ["src.json"] ["tgt.json"]
                        "src" "tgt" None None false in
  let r2 := _sync_paths test_environ r1.1 ["src.json"] ["tgt.json"]
                        "src" "tgt" None None false in
  disk r1.1 !! ["tgt.json"]
  = Some (JsonText (servers_doc [("b", server_b); ("a", server_a)])) /\
  disk r2.1 = disk r1.1 /\
  exists b u n,
    r2.2 = Synced "src.json" "tgt.json" b [] u ["b"] n /\
    ((forall x c, PyDict.get [("a", server_a)] x = Some c ->
                  PyDict.wf (default [] (env c))) ->
     u = [] /\ n = 1%nat).
Proof.
  apply (json_sync_settles test_environ test_environ a_over_b
           ["src.json"] ["tgt.json"] "src" "tgt" None None).
  - discriminate.
  - discriminate.
  - compute_done.
  - reflexivity.
Defined.

(** A first run that cannot write its target settles nothing. *)
Example blocked_target_sample :
  let r := _sync_paths test_environ a_over_b ["src.json"]
             ["tgt.json"; "mcp.json"] "src" "tgt" None None false in
  r.2 = Failed "Failed to write target configuration: tgt.json/mcp.json" /\
  disk r.1 = disk a_over_b.
Proof. split; vm_compute; reflexivity. Qed.

End SyncExtras.
